(** * Establishment counts of Puerto Rico municipalities: a model of
    [employment_establishment_data_collection.py]

    The script downloads one County Business Patterns table per year,
    flattens the rows into long-form records, adds an island-wide sum,
    pivots to one row per municipality, derives change columns and writes
    a JSON array that ends with a metadata object.

    Conventions of the model.
    - A Python [str] is a [string] holding its UTF-8 bytes.  Comparing two
      such strings byte by byte agrees with Python's comparison by code
      point.  [int()] is modelled on ASCII text: a digit or a white space
      outside ASCII is treated as any other character, and no limit is
      put on the number of digits.
    - A Python [int] is a [Z].  A numpy number that holds an integer is a
      [JInt], whether pandas keeps its column as int64 or as float64:
      the two hold the same numbers, with the same sums and differences,
      while magnitudes stay below 2^53, and the statements about counts
      are read within that range.  A missing cell is the float NaN.
      Results of true division are binary64 floats, computed with
      [SpecFloat] (round to nearest, ties to even).
    - Exceptions are values of [exn]; code that may raise returns an
      [outcome].  Console output is left out.
    - The world is the function [requests_get], from the URL of a request
      to what [requests.get] and [r.json()] do, together with the year
      and the date the clock gives. *)

From Stdlib Require Import ZArith String Ascii List Bool Lia.
From Stdlib Require Import DecimalString SpecFloat.
From Stdlib Require Import Sorted Permutation OrderedTypeEx.
From Stdlib Require DecimalPos.
Import ListNotations.

Set Warnings "-register-all".

Local Open Scope string_scope.
Local Open Scope list_scope.
Local Open Scope Z_scope.

(** ** Exceptions and outcomes *)

Inductive exn : Type :=
| ValueError
| TypeError
| KeyError
| IndexError
| AttributeError
| OverflowError
| RuntimeError
| RequestException.

Inductive outcome (A : Type) : Type :=
| Returns (a : A)
| Raises (e : exn).

Arguments Returns {A} a.
Arguments Raises {A} e.

Definition bind {A B : Type} (m : outcome A) (k : A -> outcome B) : outcome B :=
  match m with
  | Returns a => k a
  | Raises e => Raises e
  end.

Notation "x <- m ;; k" := (bind m (fun x => k))
  (at level 61, m at next level, right associativity).

(** ** Python values

    What [json.loads] produces, what a frame cell holds and what
    [json.dump] receives. *)

Inductive pyval : Type :=
| JNull
| JBool (b : bool)
| JInt (n : Z)
| JFloat (f : spec_float)
| JStr (s : string)
| JList (l : list pyval)
| JDict (d : list (string * pyval)).

(** binary64 *)
Definition prec : Z := 53.
Definition emax : Z := 1024.

Definition nan : spec_float := S754_nan.

(** The float nearest to an integer (ties to even). *)
Definition Z2SF (z : Z) : spec_float := binary_normalize prec emax z 0 false.


(** ** Strings *)

(** [str(n)] for an int. *)
Definition str (n : Z) : string := NilZero.string_of_int (Z.to_int n).

Fixpoint drop_spaces (is_space : ascii -> bool) (l : list ascii) : list ascii :=
  match l with
  | [] => []
  | c :: l' => if is_space c then drop_spaces is_space l' else l
  end.

(** [s.replace(pat, "")] for a non-empty [pat]: occurrences are removed
    from left to right, without overlap.  [skip] counts the characters of
    the occurrence being removed that are still to be dropped. *)
Fixpoint remove_from (pat : string) (skip : nat) (s : string) : string :=
  match s with
  | EmptyString => EmptyString
  | String c s' =>
      match skip with
      | S k => remove_from pat k s'
      | O =>
          if String.prefix pat s
          then remove_from pat (Nat.pred (String.length pat)) s'
          else String c (remove_from pat O s')
      end
  end.

Definition replace_with_empty (pat s : string) : string := remove_from pat O s.

(** The characters of a [str], each as a [str] of its own: a lead byte
    with the continuation bytes (10xxxxxx) that follow it. *)
Definition is_continuation (c : ascii) : bool :=
  let n := N_of_ascii c in (128 <=? n)%N && (n <? 192)%N.

Fixpoint py_chars_aux (cur : string) (s : string) : list string :=
  match s with
  | EmptyString => [cur]
  | String c s' =>
      if is_continuation c
      then py_chars_aux (cur ++ String c EmptyString) s'
      else cur :: py_chars_aux (String c EmptyString) s'
  end.

Definition py_chars (s : string) : list string :=
  match s with
  | EmptyString => []
  | String c s' => py_chars_aux (String c EmptyString) s'
  end.

(** ** [int()] *)

(** The white space [int()] skips around the digits, on ASCII: TAB, LF,
    VT, FF, CR and the space. *)
Definition is_space (c : ascii) : bool :=
  let n := N_of_ascii c in
  ((9 <=? n)%N && (n <=? 13)%N) || (n =? 32)%N.

Definition digit_val (c : ascii) : option Z :=
  let n := N_of_ascii c in
  if ((48 <=? n)%N && (n <=? 57)%N)%bool then Some (Z.of_N n - 48) else None.

(** Digits with single underscores between them.  [after_digit] says
    whether the previous character was a digit. *)
Fixpoint int_digits (acc : Z) (after_digit : bool) (l : list ascii) : option Z :=
  match l with
  | [] => if after_digit then Some acc else None
  | c :: l' =>
      match digit_val c with
      | Some d => int_digits (10 * acc + d) true l'
      | None =>
          if (Ascii.eqb c "_" && after_digit)%bool
          then int_digits acc false l'
          else None
      end
  end.

Definition strip (l : list ascii) : list ascii :=
  rev (drop_spaces is_space (rev (drop_spaces is_space l))).

(** [int(s)] for a [str]: white space around, an optional sign, digits. *)
Definition int_of_str (s : string) : outcome Z :=
  let body := strip (list_ascii_of_string s) in
  let parsed :=
    match body with
    | c :: l' =>
        if Ascii.eqb c "-" then option_map Z.opp (int_digits 0 false l')
        else if Ascii.eqb c "+" then int_digits 0 false l'
        else int_digits 0 false body
    | [] => None
    end in
  match parsed with
  | Some n => Returns n
  | None => Raises ValueError
  end.

(** [int(x)] for a float: truncation towards zero. *)
Definition int_of_float (f : spec_float) : outcome Z :=
  match f with
  | S754_zero _ => Returns 0
  | S754_infinity _ => Raises OverflowError
  | S754_nan => Raises ValueError
  | S754_finite s m e =>
      let a := Z.shiftl (Zpos m) e in
      Returns (if s then - a else a)
  end.

Definition py_int (val : pyval) : outcome Z :=
  match val with
  | JStr s => int_of_str s
  | JInt n => Returns n
  | JBool b => Returns (if b then 1 else 0)
  | JFloat f => int_of_float f
  | JNull | JList _ | JDict _ => Raises TypeError
  end.

(** [val in ('N', '0')] *)
Definition in_N_0 (val : pyval) : bool :=
  match val with
  | JStr s => (s =? "N")%string || (s =? "0")%string
  | _ => false
  end.

(** The body of [safe_int], before its [except]. *)
Definition safe_int_try (val : pyval) : outcome Z :=
  if in_N_0 val then Returns 0 else py_int val.

(** [safe_int]: [None] stands for Python's [None]. *)
Definition safe_int (val : pyval) : outcome (option Z) :=
  match safe_int_try val with
  | Returns n => Returns (Some n)
  | Raises _ => Returns None
  end.

Definition get_naics_variable_name (year : Z) : string :=
  if year >=? 2017 then "NAICS2017"
  else if year >=? 2012 then "NAICS2012"
  else if year >=? 2007 then "NAICS2007"
  else "NAICS2002".

(** ** The fetch loop *)

(** One long-form record: the dict appended to [records]. *)
Record YearlyRecord : Type := {
  year : Z;
  Municipio : string;
  Establishments : option Z
}.

(** What [requests.get] hands back: the status and what [r.json()] does. *)
Record http_response : Type := {
  status_code : Z;
  json : outcome pyval
}.

(** The two accumulators of the loop. *)
Record fetched : Type := {
  records : list YearlyRecord;
  successful_years : list Z
}.

Definition START_YEAR : Z := 2010.

(** [range(START_YEAR, current_year - 2 + 1)] *)
Definition year_range (current_year : Z) : list Z :=
  map (fun i => START_YEAR + Z.of_nat i)
      (seq 0 (Z.to_nat (current_year - 2 + 1 - START_YEAR))).

(** Iterating over a value: a list gives its items, a str its characters,
    a dict its keys; anything else is not iterable. *)
Definition py_iter (v : pyval) : outcome (list pyval) :=
  match v with
  | JList l => Returns l
  | JStr s => Returns (map JStr (py_chars s))
  | JDict d => Returns (map (fun kv => JStr (fst kv)) d)
  | JNull | JBool _ | JInt _ | JFloat _ => Raises TypeError
  end.

Definition hashable (v : pyval) : bool :=
  match v with
  | JList _ | JDict _ => false
  | _ => true
  end.

(** [header, *rows = data] *)
Definition unpack (data : pyval) : outcome (pyval * list pyval) :=
  items <- py_iter data ;;
  match items with
  | [] => Raises ValueError
  | header :: rows => Returns (header, rows)
  end.

(** [idx = {k: i for i, k in enumerate(header)}], kept as the list of its
    keys in order: building it raises on a key that cannot be hashed. *)
Definition index_map (header : pyval) : outcome (list pyval) :=
  keys <- py_iter header ;;
  if forallb hashable keys then Returns keys else Raises TypeError.

(** The position [idx] holds for a str key: a later equal key of the
    header overwrites an earlier one. *)
Fixpoint last_index (k : string) (keys : list pyval) (i : nat)
    (found : option nat) : option nat :=
  match keys with
  | [] => found
  | JStr s :: keys' =>
      last_index k keys' (S i) (if (s =? k)%string then Some i else found)
  | _ :: keys' => last_index k keys' (S i) found
  end.

(** [idx[k]] *)
Definition idx_get (idx : list pyval) (k : string) : outcome nat :=
  match last_index k idx O None with
  | Some i => Returns i
  | None => Raises KeyError
  end.

(** [row[i]] for a position [i >= 0]. *)
Definition py_getitem (row : pyval) (i : nat) : outcome pyval :=
  match row with
  | JList l =>
      match nth_error l i with
      | Some v => Returns v
      | None => Raises IndexError
      end
  | JStr s =>
      match nth_error (py_chars s) i with
      | Some c => Returns (JStr c)
      | None => Raises IndexError
      end
  | JDict _ => Raises KeyError
  | JNull | JBool _ | JInt _ | JFloat _ => Raises TypeError
  end.

(** [name.replace(" Municipio, Puerto Rico", "")]: only a str has the
    method. *)
Definition strip_suffix (name : pyval) : outcome string :=
  match name with
  | JStr s => Returns (replace_with_empty " Municipio, Puerto Rico" s)
  | _ => Raises AttributeError
  end.

(** The body of [for row in rows]: [None] when the row is the territory's
    own and is passed over. *)
Definition row_record (y : Z) (idx : list pyval) (row : pyval)
    : outcome (option YearlyRecord) :=
  i <- idx_get idx "NAME" ;;
  name <- py_getitem row i ;;
  municipio <- strip_suffix name ;;
  if (municipio =? "Puerto Rico")%string then Returns None
  else
    j <- idx_get idx "ESTAB" ;;
    e <- py_getitem row j ;;
    n <- safe_int e ;;
    Returns (Some {| year := y; Municipio := municipio; Establishments := n |}).

(** [for row in rows] inside the [try]: a row that raises ends the loop,
    and what was appended before it stays. *)
Fixpoint emit_rows (y : Z) (idx : list pyval) (rows : list pyval)
    (acc : list YearlyRecord) : list YearlyRecord :=
  match rows with
  | [] => acc
  | row :: rows' =>
      match row_record y idx row with
      | Raises _ => acc
      | Returns None => emit_rows y idx rows' acc
      | Returns (Some r) => emit_rows y idx rows' (acc ++ [r])
      end
  end.

(** The [try] block up to [successful_years.append(year)]: [None] is a
    [continue] (a status other than 200, or no data row). *)
Definition parse_reply (reply : outcome http_response)
    : outcome (option (list pyval * list pyval)) :=
  r <- reply ;;
  if negb (status_code r =? 200) then Returns None
  else
    data <- json r ;;
    hr <- unpack data ;;
    idx <- index_map (fst hr) ;;
    match snd hr with
    | [] => Returns None
    | rows => Returns (Some (idx, rows))
    end.

Section Fetch.

Variable API_KEY : string.
(** The server: what [requests.get(url, timeout=60)] does for a URL. *)
Variable requests_get : string -> outcome http_response.

Definition url (y : Z) : string :=
  "https://api.census.gov/data/" ++ str y ++ "/cbp"
  ++ "?get=NAME,ESTAB&for=county:*&in=state:72&"
  ++ get_naics_variable_name y ++ "=00&key=" ++ API_KEY.

(** Whether the turn for year [y] reaches
    [successful_years.append(year)]. *)
Definition succeeds (y : Z) : bool :=
  match parse_reply (requests_get (url y)) with
  | Returns (Some _) => true
  | _ => false
  end.

(** One turn of [for i, year in enumerate(years, start=1)]. *)
Definition fetch_year (st : fetched) (y : Z) : fetched :=
  match parse_reply (requests_get (url y)) with
  | Returns (Some (idx, rows)) =>
      {| records := emit_rows y idx rows (records st);
         successful_years := successful_years st ++ [y] |}
  | Returns None => st
  | Raises _ => st
  end.

Definition fetch_loop (years : list Z) (st : fetched) : fetched :=
  fold_left fetch_year years st.

Definition fetch_all (years : list Z) : fetched :=
  fetch_loop years {| records := []; successful_years := [] |}.

End Fetch.

(** ** Sorting *)

Section Sorting.

Variable A : Type.

(** Sorting by insertion: records with equal keys keep their order. *)
Variable leb : A -> A -> bool.

Fixpoint insert_sorted (x : A) (l : list A) : list A :=
  match l with
  | [] => [x]
  | y :: l' => if leb x y then x :: l else y :: insert_sorted x l'
  end.

Definition sort_by (l : list A) : list A := fold_right insert_sorted [] l.

(** The distinct elements in ascending order: the keys of a [groupby],
    the index and the columns of a [pivot]. *)
Variable cmp : A -> A -> comparison.

Fixpoint insert_uniq (x : A) (l : list A) : list A :=
  match l with
  | [] => [x]
  | y :: l' =>
      match cmp x y with
      | Lt => x :: l
      | Eq => l
      | Gt => y :: insert_uniq x l'
      end
  end.

Definition sort_uniq (l : list A) : list A := fold_right insert_uniq [] l.

End Sorting.

Arguments insert_sorted {A} leb x l.
Arguments sort_by {A} leb l.
Arguments insert_uniq {A} cmp x l.
Arguments sort_uniq {A} cmp l.

(** ** The long-form frame *)

Definition has_value (r : YearlyRecord) : bool :=
  match Establishments r with
  | Some _ => true
  | None => false
  end.

(** Order of [sort_values(["Municipio", "year"])]. *)
Definition record_leb (a b : YearlyRecord) : bool :=
  match String.compare (Municipio a) (Municipio b) with
  | Lt => true
  | Eq => year a <=? year b
  | Gt => false
  end.

(** [dropna(subset=["Establishments"])] *)
Definition dropna (df : list YearlyRecord) : list YearlyRecord :=
  filter has_value df.

(** [pd.DataFrame(records)] sorted and without the null counts.  A frame
    made from no record has no column, and sorting it by name raises. *)
Definition build_frame (recs : list YearlyRecord) : outcome (list YearlyRecord) :=
  match recs with
  | [] => Raises KeyError
  | _ => Returns (dropna (sort_by record_leb recs))
  end.

Definition count_of (r : YearlyRecord) : Z :=
  match Establishments r with
  | Some n => n
  | None => 0
  end.

(** [sum] of the counts of one group. *)
Definition year_sum (df : list YearlyRecord) (y : Z) : Z :=
  fold_right Z.add 0 (map count_of (filter (fun r => year r =? y) df)).

(** [df.groupby("year", as_index=False)["Establishments"].sum()
       .assign(Municipio="Puerto Rico")] *)
Definition island (df : list YearlyRecord) : list YearlyRecord :=
  map (fun y => {| year := y;
                   Municipio := "Puerto Rico";
                   Establishments := Some (year_sum df y) |})
      (sort_uniq Z.compare (map year df)).

(** [pd.concat([df, island], ignore_index=True)] *)
Definition with_island (df : list YearlyRecord) : list YearlyRecord :=
  df ++ island df.

(** ** Wide frames *)

Inductive label : Type :=
| LStr (s : string)
| LInt (n : Z).

Definition label_eqb (a b : label) : bool :=
  match a, b with
  | LStr s, LStr t => (s =? t)%string
  | LInt n, LInt m => n =? m
  | _, _ => false
  end.

(** A frame: its columns in order, each with its label. *)
Definition frame : Type := list (label * list pyval).

Definition nrows (fr : frame) : nat :=
  match fr with
  | [] => O
  | c :: _ => length (snd c)
  end.

Definition same_key (a b : string * Z) : bool :=
  ((fst a =? fst b)%string && (snd a =? snd b))%bool.

Fixpoint has_duplicates (keys : list (string * Z)) : bool :=
  match keys with
  | [] => false
  | k :: keys' => existsb (same_key k) keys' || has_duplicates keys'
  end.

Definition pivot_key (r : YearlyRecord) : string * Z := (Municipio r, year r).

(** The cell of municipality [m] in the column of year [y]. *)
Definition cell (df : list YearlyRecord) (m : string) (y : Z) : pyval :=
  match find (fun r => same_key (pivot_key r) (m, y)) df with
  | Some r =>
      match Establishments r with
      | Some n => JInt n
      | None => JFloat nan
      end
  | None => JFloat nan
  end.

Definition pivot_index (df : list YearlyRecord) : list string :=
  sort_uniq String.compare (map Municipio df).

Definition pivot_columns (df : list YearlyRecord) : list Z :=
  sort_uniq Z.compare (map year df).

(** [df.pivot(index="Municipio", columns="year", values="Establishments")
       .reset_index()]: two records with one municipality and year cannot
    be reshaped. *)
Definition pivot (df : list YearlyRecord) : outcome frame :=
  if has_duplicates (map pivot_key df) then Raises ValueError
  else
    Returns ((LStr "Municipio", map JStr (pivot_index df))
             :: map (fun y => (LInt y, map (fun m => cell df m y) (pivot_index df)))
                    (pivot_columns df)).

(** [pivot.rename(columns={y: str(y) for y in successful_years})] *)
Definition rename_label (succ : list Z) (l : label) : label :=
  match l with
  | LInt y => if existsb (Z.eqb y) succ then LStr (str y) else l
  | LStr _ => l
  end.

Definition rename (succ : list Z) (fr : frame) : frame :=
  map (fun c => (rename_label succ (fst c), snd c)) fr.

(** [pivot[k]] *)
Definition get_col (fr : frame) (k : string) : outcome (list pyval) :=
  match find (fun c => label_eqb (fst c) (LStr k)) fr with
  | Some c => Returns (snd c)
  | None => Raises KeyError
  end.

(** [pivot[k] = col]: in place when the label exists, else a new last
    column. *)
Fixpoint set_col (fr : frame) (k : string) (col : list pyval) : frame :=
  match fr with
  | [] => [(LStr k, col)]
  | c :: fr' =>
      if label_eqb (fst c) (LStr k) then (fst c, col) :: fr'
      else c :: set_col fr' k col
  end.

(** [pivot[k] = None] *)
Definition set_none (fr : frame) (k : string) : frame :=
  set_col fr k (repeat JNull (nrows fr)).

(** ** Arithmetic on numeric cells *)

Definition to_float (v : pyval) : outcome spec_float :=
  match v with
  | JInt n => Returns (Z2SF n)
  | JFloat f => Returns f
  | _ => Raises TypeError
  end.

Definition num_sub (a b : pyval) : outcome pyval :=
  match a, b with
  | JInt x, JInt y => Returns (JInt (x - y))
  | _, _ =>
      f <- to_float a ;;
      g <- to_float b ;;
      Returns (JFloat (SFsub prec emax f g))
  end.

(** True division: the result is a float; a zero divisor gives what
    IEEE 754 gives. *)
Definition num_div (a b : pyval) : outcome pyval :=
  f <- to_float a ;;
  g <- to_float b ;;
  Returns (JFloat (SFdiv prec emax f g)).

Definition num_mul (a b : pyval) : outcome pyval :=
  match a, b with
  | JInt x, JInt y => Returns (JInt (x * y))
  | _, _ =>
      f <- to_float a ;;
      g <- to_float b ;;
      Returns (JFloat (SFmul prec emax f g))
  end.

(** A binary operation cell by cell over two columns of one frame. *)
Fixpoint col_op (op : pyval -> pyval -> outcome pyval) (a b : list pyval)
    : outcome (list pyval) :=
  match a, b with
  | x :: a', y :: b' =>
      v <- op x y ;;
      r <- col_op op a' b' ;;
      Returns (v :: r)
  | _, _ => Returns []
  end.

(** [col * k] for a scalar [k]. *)
Fixpoint col_scale (a : list pyval) (k : pyval) : outcome (list pyval) :=
  match a with
  | [] => Returns []
  | x :: a' =>
      v <- num_mul x k ;;
      r <- col_scale a' k ;;
      Returns (v :: r)
  end.

(** ** Derived columns *)

(** [l[i]] for a list and an int, negative positions counting from the
    end. *)
Definition py_index (l : list Z) (i : Z) : outcome Z :=
  let n := Z.of_nat (length l) in
  let j := if i <? 0 then i + n else i in
  if (j <? 0) || (n <=? j) then Raises IndexError
  else
    match nth_error l (Z.to_nat j) with
    | Some v => Returns v
    | None => Raises IndexError
    end.

Definition change_key (a b : string) : string := "Change_" ++ a ++ "_" ++ b.
Definition pct_change_key (a b : string) : string := "Pct_Change_" ++ a ++ "_" ++ b.
Definition cum_change_key (a b : string) : string := "Cum_Change_" ++ a ++ "_" ++ b.
Definition cum_pct_change_key (a b : string) : string :=
  "Cum_Pct_Change_" ++ a ++ "_" ++ b.
Definition real_income_key (y : Z) : string := "RealIncome_" ++ str y.

Definition real_keys (first_str prev_str last_str : string) : list string :=
  [ ("Real_Change_" ++ prev_str ++ "_" ++ last_str)%string;
    ("Real_Pct_Change_" ++ prev_str ++ "_" ++ last_str)%string;
    ("Real_Cum_Change_" ++ first_str ++ "_" ++ last_str)%string;
    ("Real_Cum_Pct_Change_" ++ first_str ++ "_" ++ last_str)%string ].

(** The four change columns, in the order the script assigns them. *)
Definition change_columns (first_str prev_str last_str : string) (pivot : frame)
    : outcome frame :=
  a <- get_col pivot last_str ;;
  b <- get_col pivot prev_str ;;
  c <- col_op num_sub a b ;;
  let pivot := set_col pivot (change_key prev_str last_str) c in
  a <- get_col pivot (change_key prev_str last_str) ;;
  b <- get_col pivot prev_str ;;
  q <- col_op num_div a b ;;
  p <- col_scale q (JInt 100) ;;
  let pivot := set_col pivot (pct_change_key prev_str last_str) p in
  a <- get_col pivot last_str ;;
  b <- get_col pivot first_str ;;
  c <- col_op num_sub a b ;;
  let pivot := set_col pivot (cum_change_key first_str last_str) c in
  a <- get_col pivot (cum_change_key first_str last_str) ;;
  b <- get_col pivot first_str ;;
  q <- col_op num_div a b ;;
  p <- col_scale q (JInt 100) ;;
  Returns (set_col pivot (cum_pct_change_key first_str last_str) p).

(** The null columns kept for parity with the income file. *)
Definition placeholders (succ : list Z) (first_str prev_str last_str : string)
    (pivot : frame) : frame :=
  let pivot := fold_left (fun p y => set_none p (real_income_key y)) succ pivot in
  fold_left set_none (real_keys first_str prev_str last_str) pivot.

Definition derive (succ : list Z) (pivot : frame) : outcome frame :=
  let pivot := rename succ pivot in
  first <- py_index succ 0 ;;
  prev <- py_index succ (-2) ;;
  last <- py_index succ (-1) ;;
  pivot <- change_columns (str first) (str prev) (str last) pivot ;;
  Returns (placeholders succ (str first) (str prev) (str last) pivot).

(** ** Output *)

(** The key a label has in the JSON object ([json.dump] writes an int key
    as its decimal text). *)
Definition label_key (l : label) : string :=
  match l with
  | LStr s => s
  | LInt n => str n
  end.

(** [pivot.to_dict(orient="records")] *)
Definition to_dict (fr : frame) : list pyval :=
  map (fun i => JDict (map (fun c => (label_key (fst c), nth i (snd c) JNull)) fr))
      (seq 0 (nrows fr)).

Definition notes : string :=
  "Establishment counts use year keys (e.g., '2023') to maintain structural parity "
  ++ "with the income JSON. RealIncome_* and Real_* fields are null placeholders.".

(** [updated] is the text of [datetime.now().strftime("%Y-%m-%d")]. *)
Definition metadata (succ : list Z) (updated : string) : pyval :=
  JDict
    [("metadata",
      JDict
        [("source",
          JStr "U.S. Census Bureau, County Business Patterns (CBP), NAICS 00 (All Industries)");
         ("units", JStr "Number of Employer Establishments (as of March 12)");
         ("islandwide_aggregation", JBool true);
         ("data_years", JList (map (fun y => JStr (str y)) succ));
         ("updated", JStr updated);
         ("notes", JStr notes)])].

Definition file_name (last_str : string) : string :=
  "municipios_cbp_establishments_" ++ str START_YEAR ++ "_" ++ last_str
  ++ "_wide.json".

(** How a run ends. *)
Inductive result : Type :=
| Exit (code : Z)
| Uncaught (e : exn)
| Saved (name : string) (content : list pyval).

(** Sections 3 to 5 of the script: from the fetched records to the file. *)
Definition build (updated : string) (st : fetched)
    : outcome (string * list pyval) :=
  df <- build_frame (records st) ;;
  pv <- pivot (with_island df) ;;
  wide <- derive (successful_years st) pv ;;
  last <- py_index (successful_years st) (-1) ;;
  Returns (file_name (str last),
           to_dict wide ++ [metadata (successful_years st) updated]).

Section Run.

Variable API_KEY : string.
Variable requests_get : string -> outcome http_response.
(** [date.today().year] and the date text of [datetime.now()]. *)
Variable current_year : Z.
Variable updated : string.

Definition run : result :=
  let years := year_range current_year in
  if (length years <? 2)%nat then Uncaught RuntimeError
  else
    let st := fetch_all API_KEY requests_get years in
    if (length (successful_years st) <? 2)%nat then Exit 0
    else
      match build updated st with
      | Returns (name, content) => Saved name content
      | Raises e => Uncaught e
      end.

End Run.

(** ** Reading frames and output objects *)

(** [d[k]] for an object of the output. *)
Definition dict_get (d : pyval) (k : string) : option pyval :=
  match d with
  | JDict l => option_map snd (find (fun kv => (fst kv =? k)%string) l)
  | _ => None
  end.

(** The text of an int starts with a digit or a minus sign. *)
Definition starts_numeric (s : string) : bool :=
  match s with
  | String c _ =>
      match digit_val c with
      | Some _ => true
      | None => Ascii.eqb c "-"
      end
  | EmptyString => false
  end.

(** Every label is a str: what [rename] leaves when every year column
    belongs to a successful year. *)
Definition str_labels (fr : frame) : Prop :=
  Forall (fun c => exists s, fst c = LStr s) fr.

(** A frame after [reset_index]: the municipality names first, then
    columns of the same height. *)
Definition well_formed (fr : frame) : Prop :=
  exists names rest,
    fr = (LStr "Municipio", names) :: rest
    /\ Forall (fun c => length (snd c) = length names) rest.

(** A cell that holds a number: an integer or a float, NaN included. *)
Definition numeric (v : pyval) : bool :=
  match v with
  | JInt _ | JFloat _ => true
  | _ => false
  end.

Definition all_numeric (col : list pyval) : Prop :=
  Forall (fun v => numeric v = true) col.

(** ** Vocabulary of the statements *)




(** A value that is neither a list nor an object. *)
Definition scalar (v : pyval) : bool :=
  match v with
  | JList _ | JDict _ => false
  | _ => true
  end.


Definition scalar_frame (fr : frame) : Prop :=
  Forall (fun c => Forall (fun v => scalar v = true) (snd c)) fr.


(** Strict order of names: [a < b] in Python. *)
Definition name_lt (a b : string) : Prop := String.compare a b = Lt.

(** The decimal digits of [d], most significant first. *)
Definition digits_of (d : Decimal.uint) : list ascii :=
  list_ascii_of_string (NilEmpty.string_of_uint d).

Definition is_digit (c : ascii) : bool :=
  match digit_val c with
  | Some _ => true
  | None => false
  end.

(** A name that holds no comma. *)
Fixpoint no_comma (s : string) : bool :=
  match s with
  | EmptyString => true
  | String c s' => negb (Ascii.eqb c ",") && no_comma s'
  end.

(** The text that [row_record] removes from a name. *)
Definition SUFFIX : string := " Municipio, Puerto Rico".

(** The accumulators before the first turn of the loop. *)
Definition no_fetch : fetched := {| records := []; successful_years := [] |}.

(** The years that have a record with a count. *)
Definition counted_years (recs : list YearlyRecord) : list Z :=
  map year (dropna recs).

(** Counts in the range in which the frame computes exactly, whether
    pandas keeps them as int64 or as float64: their absolute values sum
    to less than 2^53, and so does every sum the script takes. *)
Definition counts_in_range (recs : list YearlyRecord) : Prop :=
  fold_right Z.add 0 (map (fun r => Z.abs (count_of r)) recs) < 2 ^ 53.

(** The labels of a frame, in the order of its columns. *)
Definition labels (fr : frame) : list label := map fst fr.

(** The keys of an object, in the order [json.dump] writes them. *)
Definition dict_keys (d : pyval) : list string :=
  match d with
  | JDict l => map fst l
  | _ => []
  end.

(** The keys of the four change columns. *)
Definition change_keys (first prev last : Z) : list string :=
  [change_key (str prev) (str last); pct_change_key (str prev) (str last);
   cum_change_key (str first) (str last); cum_pct_change_key (str first) (str last)].

(** The keys of the null columns. *)
Definition null_keys (succ : list Z) (first prev last : Z) : list string :=
  (map real_income_key succ ++ real_keys (str first) (str prev) (str last))%list.

(** ** Sample replies, for the instances that accompany the theorems *)

Module Sample.

Definition KEY : string := "0000".
Definition TODAY : string := "2026-11-03".

(** A table as the API sends it for year [y]. *)
Definition header (y : Z) : pyval :=
  JList [JStr "NAME"; JStr "ESTAB"; JStr (get_naics_variable_name y);
         JStr "state"; JStr "county"].

Definition row (name count county : string) : pyval :=
  JList [JStr (name ++ " Municipio, Puerto Rico"); JStr count; JStr "00";
         JStr "72"; JStr county].

Definition table (y : Z) (rows : list pyval) : Z * pyval :=
  (y, JList (header y :: rows)).

(** A server that answers the listed years with status 200 and every
    other request with status 404. *)
Definition serve (tables : list (Z * pyval)) (u : string)
    : outcome http_response :=
  match find (fun t => (url KEY (fst t) =? u)%string) tables with
  | Some t => Returns {| status_code := 200; json := Returns (snd t) |}
  | None => Returns {| status_code := 404; json := Raises ValueError |}
  end.

(** Three successful years, two municipalities. *)
Definition three_years : string -> outcome http_response :=
  serve [table 2010 [row "Adjuntas" "80" "001"; row "Yauco" "40" "153"];
         table 2015 [row "Adjuntas" "100" "001"; row "Yauco" "50" "153"];
         table 2020 [row "Adjuntas" "150" "001"; row "Yauco" "60" "153"]].

(** The reply for 2010 has a header and no data row. *)
Definition header_only_2010 : string -> outcome http_response :=
  serve [table 2010 [];
         table 2011 [row "Adjuntas" "100" "001"];
         table 2012 [row "Adjuntas" "150" "001"]].

(** A count of zero in the second-to-last year. *)
Definition zero_base : string -> outcome http_response :=
  serve [table 2011 [row "Adjuntas" "0" "001"];
         table 2012 [row "Adjuntas" "7" "001"]].


(** Adjuntas twice in 2011, once without a usable count. *)
Definition repeated_row_one_null : string -> outcome http_response :=
  serve [table 2011 [row "Adjuntas" "5" "001"; row "Adjuntas" "abc" "001"];
         table 2012 [row "Adjuntas" "7" "001"]].

(** Adjuntas twice in 2011, both times with a count. *)
Definition repeated_row : string -> outcome http_response :=
  serve [table 2011 [row "Adjuntas" "5" "001"; row "Adjuntas" "6" "001"];
         table 2012 [row "Adjuntas" "7" "001"]].

(** One municipality only. *)
Definition one_municipality : string -> outcome http_response :=
  serve [table 2011 [row "Adjuntas" "5" "001"];
         table 2012 [row "Adjuntas" "7" "001"]].


(** The second row of 2011 is too short to hold a name. *)
Definition short_row : string -> outcome http_response :=
  serve [table 2011 [row "Adjuntas" "5" "001"; JList []; row "Yauco" "9" "153"];
         table 2012 [row "Adjuntas" "7" "001"]].

(** The last year answers, with a count that cannot be read. *)
Definition last_year_unusable : string -> outcome http_response :=
  serve [table 2011 [row "Adjuntas" "5" "001"];
         table 2012 [row "Adjuntas" "abc" "001"]].

(** [three_years], except at an address the script never asks for. *)
Definition three_years_elsewhere (u : string) : outcome http_response :=
  if (u =? "https://api.census.gov/")%string then Raises RequestException
  else three_years u.

(** An error body: an object with two keys. *)
Definition error_object : string -> outcome http_response :=
  serve [(2011, JDict [("error", JStr "unknown variable"); ("code", JInt 400)])].

(** [three_years] with the rows of every table in the other order. *)
Definition three_years_swapped : string -> outcome http_response :=
  serve [table 2010 [row "Yauco" "40" "153"; row "Adjuntas" "80" "001"];
         table 2015 [row "Yauco" "50" "153"; row "Adjuntas" "100" "001"];
         table 2020 [row "Yauco" "60" "153"; row "Adjuntas" "150" "001"]].

End Sample.

(** * Facts about the model *)

(** ** Outcomes and the fetch loop *)

Lemma bind_returns {A B : Type} (m : outcome A) (k : A -> outcome B) (b : B) :
  bind m k = Returns b -> exists a, m = Returns a /\ k a = Returns b.
Proof. destruct m as [a|e]; simpl; [eauto | discriminate]. Qed.

Ltac inv_bind H :=
  let a := fresh "a" in
  let Ha := fresh "Ha" in
  apply bind_returns in H; destruct H as (a & Ha & H).

Lemma row_record_some (y : Z) (idx : list pyval) (row : pyval) (r : YearlyRecord) :
  row_record y idx row = Returns (Some r) ->
  year r = y /\ Municipio r <> "Puerto Rico".
Proof.
  unfold row_record. intro H.
  inv_bind H. inv_bind H. inv_bind H.
  destruct (String.eqb_spec a1 "Puerto Rico") as [|Hne]; [discriminate|].
  inv_bind H. inv_bind H. inv_bind H.
  injection H as <-. simpl. auto.
Qed.

Lemma emit_rows_In (y : Z) (idx : list pyval) (rows : list pyval) :
  forall (acc : list YearlyRecord) (r : YearlyRecord),
    In r (emit_rows y idx rows acc) ->
    In r acc \/ (year r = y /\ Municipio r <> "Puerto Rico").
Proof.
  induction rows as [|row rows IH]; simpl; intros acc r H; [auto|].
  destruct (row_record y idx row) as [[r'|]|e] eqn:E; auto.
  apply IH in H. destruct H as [H|H]; auto.
  apply in_app_or in H. destruct H as [H|[<-|[]]]; auto.
  right. eapply row_record_some; eauto.
Qed.

Section FetchFacts.
Variable API_KEY : string.
Variable requests_get : string -> outcome http_response.

Lemma fetch_year_successful (st : fetched) (y : Z) :
  successful_years (fetch_year API_KEY requests_get st y)
  = successful_years st ++ (if succeeds API_KEY requests_get y then [y] else []).
Proof.
  unfold fetch_year, succeeds.
  destruct (parse_reply _) as [[[idx rows]|]|e]; simpl; now rewrite ?app_nil_r.
Qed.

Lemma fetch_loop_successful (years : list Z) :
  forall st,
    successful_years (fetch_loop API_KEY requests_get years st)
    = successful_years st ++ filter (succeeds API_KEY requests_get) years.
Proof.
  unfold fetch_loop.
  induction years as [|y years IH]; simpl; intro st; [now rewrite app_nil_r|].
  rewrite IH, fetch_year_successful.
  destruct (succeeds API_KEY requests_get y); simpl; now rewrite <- ?app_assoc, ?app_nil_r.
Qed.

Lemma fetch_year_records (st : fetched) (y : Z) (r : YearlyRecord) :
  In r (records (fetch_year API_KEY requests_get st y)) ->
  In r (records st)
  \/ (year r = y /\ succeeds API_KEY requests_get y = true /\ Municipio r <> "Puerto Rico").
Proof.
  unfold fetch_year, succeeds.
  destruct (parse_reply _) as [[[idx rows]|]|e]; simpl; auto.
  intro H. apply emit_rows_In in H. tauto.
Qed.

Lemma fetch_loop_records (years : list Z) :
  forall st r,
    In r (records (fetch_loop API_KEY requests_get years st)) ->
    In r (records st)
    \/ (In (year r) (filter (succeeds API_KEY requests_get) years) /\ Municipio r <> "Puerto Rico").
Proof.
  unfold fetch_loop.
  induction years as [|y years IH]; simpl; intros st r H; [auto|].
  apply IH in H. destruct H as [H|[H1 H2]].
  - apply fetch_year_records in H. destruct H as [H|(H1 & H2 & H3)]; auto.
    right. rewrite H2. simpl. auto.
  - right. split; auto. destruct (succeeds API_KEY requests_get y); simpl; auto.
Qed.

Lemma fetch_all_records (years : list Z) (r : YearlyRecord) :
  In r (records (fetch_all API_KEY requests_get years)) ->
  In (year r) (successful_years (fetch_all API_KEY requests_get years))
  /\ Municipio r <> "Puerto Rico".
Proof.
  unfold fetch_all. intro H.
  apply fetch_loop_records in H. rewrite fetch_loop_successful. simpl.
  destruct H as [[]|H]. exact H.
Qed.
End FetchFacts.

(** ** Sorting *)

Section SortFacts.
Variable A : Type.

Lemma insert_sorted_perm (leb : A -> A -> bool) (x : A) (l : list A) :
  Permutation (insert_sorted leb x l) (x :: l).
Proof.
  induction l as [|y l IH]; simpl; [reflexivity|].
  destruct (leb x y); [reflexivity|].
  rewrite IH. apply perm_swap.
Qed.

Lemma sort_by_perm (leb : A -> A -> bool) (l : list A) :
  Permutation (sort_by leb l) l.
Proof.
  induction l as [|x l IH]; simpl; [reflexivity|].
  rewrite insert_sorted_perm. now constructor.
Qed.

Variable cmp : A -> A -> comparison.
Hypothesis cmp_eq : forall x y, cmp x y = Eq -> x = y.
Hypothesis cmp_antisym : forall x y, cmp x y = CompOpp (cmp y x).
Hypothesis cmp_trans : forall x y z, cmp x y = Lt -> cmp y z = Lt -> cmp x z = Lt.

Let lt (x y : A) : Prop := cmp x y = Lt.

Lemma cmp_refl (x : A) : cmp x x = Eq.
Proof.
  pose proof (cmp_antisym x x) as H. destruct (cmp x x); simpl in H; congruence.
Qed.

Lemma insert_uniq_In (x y : A) (l : list A) :
  In y (insert_uniq cmp x l) <-> y = x \/ In y l.
Proof.
  induction l as [|z l IH]; simpl; [intuition|].
  destruct (cmp x z) eqn:E; simpl.
  - apply cmp_eq in E. subst z. intuition.
  - intuition.
  - rewrite IH. intuition.
Qed.

Lemma sort_uniq_In (y : A) (l : list A) : In y (sort_uniq cmp l) <-> In y l.
Proof.
  induction l as [|x l IH]; simpl; [reflexivity|].
  rewrite insert_uniq_In, IH. intuition.
Qed.

Lemma insert_uniq_sorted (x : A) (l : list A) :
  StronglySorted lt l -> StronglySorted lt (insert_uniq cmp x l).
Proof.
  induction 1 as [|z l Hs IH Hz]; simpl.
  - repeat constructor.
  - destruct (cmp x z) eqn:E.
    + now constructor.
    + constructor; [now constructor|].
      constructor; [exact E|].
      rewrite Forall_forall in *. intros w Hw. eapply cmp_trans; eauto.
      apply Hz, Hw.
    + constructor; [exact IH|].
      rewrite Forall_forall in *. intros w Hw.
      apply insert_uniq_In in Hw. destruct Hw as [->|Hw]; [|now apply Hz].
      unfold lt. rewrite cmp_antisym, E. reflexivity.
Qed.

Lemma sort_uniq_sorted (l : list A) : StronglySorted lt (sort_uniq cmp l).
Proof.
  induction l as [|x l IH]; simpl; [constructor|].
  now apply insert_uniq_sorted.
Qed.

Lemma sorted_NoDup (l : list A) : StronglySorted lt l -> NoDup l.
Proof.
  induction 1 as [|z l Hs IH Hz]; constructor; [|exact IH].
  intro Hin. rewrite Forall_forall in Hz. specialize (Hz z Hin).
  unfold lt in Hz. rewrite cmp_refl in Hz. discriminate.
Qed.

Lemma sort_uniq_NoDup (l : list A) : NoDup (sort_uniq cmp l).
Proof. apply sorted_NoDup, sort_uniq_sorted. Qed.

Lemma sort_uniq_length (dec : forall x y : A, {x = y} + {x <> y}) (l : list A) :
  length (sort_uniq cmp l) = length (nodup dec l).
Proof.
  apply Permutation_length, NoDup_Permutation.
  - apply sort_uniq_NoDup.
  - apply NoDup_nodup.
  - intro x. rewrite sort_uniq_In, nodup_In. reflexivity.
Qed.
End SortFacts.

Lemma string_compare_trans (x y z : string) :
  String.compare x y = Lt -> String.compare y z = Lt -> String.compare x z = Lt.
Proof.
  intros H1 H2. apply String_as_OT.cmp_lt.
  apply String_as_OT.cmp_lt in H1, H2.
  eapply String_as_OT.lt_trans; eauto.
Qed.

Lemma Z_compare_trans (x y z : Z) : (x ?= y) = Lt -> (y ?= z) = Lt -> (x ?= z) = Lt.
Proof. rewrite !Z.compare_lt_iff. lia. Qed.

Lemma Z_compare_eq (x y : Z) : (x ?= y) = Eq -> x = y.
Proof. apply Z.compare_eq. Qed.

(** ** Columns of a frame *)

#[local] Arguments String.eqb : simpl never.

Lemma str_starts_numeric (n : Z) : starts_numeric (str n) = true.
Proof.
  unfold str. destruct (Z.to_int n) as [d|d]; destruct d; reflexivity.
Qed.

Lemma label_eqb_eq (a b : label) : label_eqb a b = true <-> a = b.
Proof.
  destruct a, b; simpl; try (split; [discriminate | congruence]).
  - rewrite String.eqb_eq. split; congruence.
  - rewrite Z.eqb_eq. split; congruence.
Qed.

Lemma label_eqb_str (s t : string) : label_eqb (LStr s) (LStr t) = (s =? t)%string.
Proof. reflexivity. Qed.

Lemma get_col_set_col_same (fr : frame) (k : string) (col : list pyval) :
  get_col (set_col fr k col) k = Returns col.
Proof.
  unfold get_col. induction fr as [|c fr IH]; simpl.
  - now rewrite String.eqb_refl.
  - destruct (label_eqb (fst c) (LStr k)) eqn:E; simpl; now rewrite E.
Qed.

Lemma get_col_set_col_other (fr : frame) (k k' : string) (col : list pyval) :
  k <> k' -> get_col (set_col fr k col) k' = get_col fr k'.
Proof.
  intro Hne. unfold get_col. induction fr as [|c fr IH]; simpl.
  - apply String.eqb_neq in Hne. now rewrite Hne.
  - destruct (label_eqb (fst c) (LStr k)) eqn:E; simpl.
    + apply label_eqb_eq in E. rewrite E. simpl.
      apply String.eqb_neq in Hne. now rewrite Hne.
    + destruct (label_eqb (fst c) (LStr k')); [reflexivity | exact IH].
Qed.

Lemma set_col_str_labels (fr : frame) (k : string) (col : list pyval) :
  str_labels fr -> str_labels (set_col fr k col).
Proof.
  unfold str_labels. induction 1 as [|c fr Hc Hfr IH]; simpl.
  - repeat constructor. now exists k.
  - destruct (label_eqb (fst c) (LStr k)); constructor; auto.
Qed.

Lemma set_col_well_formed (fr : frame) (k : string) (col : list pyval) :
  k <> "Municipio" -> length col = nrows fr ->
  well_formed fr -> well_formed (set_col fr k col).
Proof.
  intros Hk Hlen (names & rest & -> & Hrest). simpl in Hlen.
  exists names. simpl.
  destruct (String.eqb_spec "Municipio" k) as [E|_]; [congruence|].
  exists (set_col rest k col). split; [reflexivity|].
  induction Hrest as [|c rest Hc Hrest IH]; simpl.
  - repeat constructor. exact Hlen.
  - destruct (label_eqb (fst c) (LStr k)); constructor; auto.
Qed.

Lemma set_col_nrows (fr : frame) (k : string) (col : list pyval) :
  k <> "Municipio" -> well_formed fr -> nrows (set_col fr k col) = nrows fr.
Proof.
  intros Hk (names & rest & -> & _). simpl.
  destruct (String.eqb_spec "Municipio" k) as [E|_]; [congruence|reflexivity].
Qed.

Lemma get_col_length (fr : frame) (k : string) (col : list pyval) :
  well_formed fr -> get_col fr k = Returns col -> length col = nrows fr.
Proof.
  intros (names & rest & -> & Hrest). unfold get_col. simpl.
  destruct (String.eqb "Municipio" k); [now intros [= <-]|].
  induction Hrest as [|c rest Hc Hrest IH]; simpl; [discriminate|].
  destruct (label_eqb (fst c) (LStr k)); [now intros [= <-] | exact IH].
Qed.

Lemma col_op_length (op : pyval -> pyval -> outcome pyval) (a : list pyval) :
  forall b c, col_op op a b = Returns c -> length a = length b -> length c = length a.
Proof.
  induction a as [|x a IH]; intros [|y b] c H Hl; simpl in *;
    try (injection H as <-; reflexivity); try discriminate.
  inv_bind H. inv_bind H. injection H as <-. simpl. f_equal. eapply IH; eauto.
Qed.

Lemma col_scale_length (k : pyval) (a : list pyval) :
  forall c, col_scale a k = Returns c -> length c = length a.
Proof.
  induction a as [|x a IH]; intros c H; simpl in *.
  - now injection H as <-.
  - inv_bind H. inv_bind H. injection H as <-. simpl. f_equal. now apply IH.
Qed.



(** The object of row [i] holds, under key [k], cell [i] of column [k]. *)
Lemma dict_get_row (fr : frame) (k : string) (col : list pyval) (i : nat) :
  str_labels fr -> get_col fr k = Returns col ->
  dict_get (JDict (map (fun c => (label_key (fst c), nth i (snd c) JNull)) fr)) k
  = Some (nth i col JNull).
Proof.
  unfold get_col, dict_get, str_labels.
  induction 1 as [|c fr [s Hs] Hfr IH]; simpl; [discriminate|].
  rewrite Hs. simpl.
  destruct (s =? k)%string; simpl; [now intros [= <-] | exact IH].
Qed.

(** ** The change columns *)

(** Two keys of the frame differ: by their first characters, or because
    one of them is the text of a year. *)
Ltac key_neq :=
  let E := fresh "E" in
  intro E;
  unfold change_key, pct_change_key, cum_change_key, cum_pct_change_key,
    real_income_key in E;
  first
    [ discriminate E
    | simpl in E; discriminate E
    | apply (f_equal starts_numeric) in E;
      rewrite ?str_starts_numeric in E; simpl in E; discriminate E ].

Section ChangeColumns.
Variables first prev last : Z.
Let F := str first.
Let P := str prev.
Let L := str last.

Lemma change_columns_returns (pv fr : frame) :
  change_columns F P L pv = Returns fr ->
  exists f p l c q pc c2 q2 pc2,
    get_col pv F = Returns f /\ get_col pv P = Returns p
    /\ get_col pv L = Returns l
    /\ col_op num_sub l p = Returns c
    /\ col_op num_div c p = Returns q
    /\ col_scale q (JInt 100) = Returns pc
    /\ col_op num_sub l f = Returns c2
    /\ col_op num_div c2 f = Returns q2
    /\ col_scale q2 (JInt 100) = Returns pc2
    /\ fr = set_col (set_col (set_col (set_col pv
              (change_key P L) c) (pct_change_key P L) pc)
              (cum_change_key F L) c2) (cum_pct_change_key F L) pc2.
Proof.
  unfold change_columns. intro H.
  inv_bind H. inv_bind H. inv_bind H. cbv zeta in H.
  inv_bind H. inv_bind H. inv_bind H. inv_bind H.
  inv_bind H. inv_bind H. inv_bind H.
  inv_bind H. inv_bind H. inv_bind H. inv_bind H.
  injection H as <-. subst F P L.
  repeat match goal with
         | H : get_col (set_col _ ?k _) ?k = _ |- _ =>
             rewrite get_col_set_col_same in H; injection H as <-
         | H : get_col (set_col _ _ _) _ = _ |- _ =>
             rewrite get_col_set_col_other in H by key_neq
         end.
  repeat match goal with
         | H1 : get_col pv ?k = Returns ?x, H2 : get_col pv ?k = Returns ?y |- _ =>
             rewrite H1 in H2; injection H2 as <-
         end.
  repeat eexists; eauto.
Qed.
End ChangeColumns.

(** ** The pivot and its renamed columns *)

Lemma pivot_returns (df : list YearlyRecord) (pv : frame) :
  pivot df = Returns pv ->
  has_duplicates (map pivot_key df) = false
  /\ pv = (LStr "Municipio", map JStr (pivot_index df))
          :: map (fun y => (LInt y, map (fun m => cell df m y) (pivot_index df)))
                 (pivot_columns df).
Proof.
  unfold pivot. destruct (has_duplicates _); [discriminate|].
  now intros [= <-].
Qed.

Lemma cell_numeric (df : list YearlyRecord) (m : string) (y : Z) :
  numeric (cell df m y) = true.
Proof.
  unfold cell. destruct (find _ df) as [r|]; [|reflexivity].
  now destruct (Establishments r).
Qed.

Section PivotFacts.
Variable succ : list Z.
Variable df : list YearlyRecord.
Variable pv : frame.
Hypothesis Hpv : pivot df = Returns pv.

Lemma rename_pivot :
  rename succ pv
  = (LStr "Municipio", map JStr (pivot_index df))
    :: map (fun y => (rename_label succ (LInt y),
                      map (fun m => cell df m y) (pivot_index df)))
           (pivot_columns df).
Proof.
  destruct (pivot_returns df pv Hpv) as [_ ->].
  unfold rename. simpl. now rewrite map_map.
Qed.

Lemma rename_pivot_well_formed : well_formed (rename succ pv).
Proof.
  rewrite rename_pivot. eexists _, _. split; [reflexivity|].
  apply Forall_forall. intros c Hc. apply in_map_iff in Hc.
  destruct Hc as (y & <- & _). simpl. now rewrite !length_map.
Qed.

Lemma rename_pivot_nrows : nrows (rename succ pv) = length (pivot_index df).
Proof. rewrite rename_pivot. simpl. apply length_map. Qed.

Lemma rename_pivot_str_labels :
  (forall y, In y (pivot_columns df) -> In y succ) ->
  str_labels (rename succ pv).
Proof.
  intro Hsub. rewrite rename_pivot. constructor; [now exists "Municipio"|].
  apply Forall_forall. intros c Hc. apply in_map_iff in Hc.
  destruct Hc as (y & <- & Hy). simpl.
  assert (E : existsb (Z.eqb y) succ = true).
  { apply existsb_exists. exists y. split; [auto | apply Z.eqb_refl]. }
  rewrite E. now exists (str y).
Qed.

(** A column found under a year's text is a column of counts. *)
Lemma rename_pivot_get_col (k : string) (col : list pyval) :
  k <> "Municipio" ->
  get_col (rename succ pv) k = Returns col ->
  exists y, In y (pivot_columns df)
            /\ col = map (fun m => cell df m y) (pivot_index df).
Proof.
  intros Hk. rewrite rename_pivot. unfold get_col.
  cbn [find fst label_eqb].
  destruct (String.eqb_spec "Municipio" k) as [E|_]; [congruence|].
  induction (pivot_columns df) as [|y ys IH]; cbn [map find fst snd]; [discriminate|].
  destruct (label_eqb _ _).
  - intros [= <-]. exists y. simpl. auto.
  - intro H. destruct (IH H) as (y' & Hy & ->). exists y'. simpl. auto.
Qed.

End PivotFacts.


Lemma to_dict_In (fr : frame) (d : pyval) :
  In d (to_dict fr) ->
  exists i, (i < nrows fr)%nat
            /\ d = JDict (map (fun c => (label_key (fst c), nth i (snd c) JNull)) fr).
Proof.
  unfold to_dict. intro H. apply in_map_iff in H.
  destruct H as (i & <- & Hi). apply in_seq in Hi. exists i. split; [lia|reflexivity].
Qed.

Lemma set_none_get_col (fr : frame) (k k' : string) :
  k' <> k -> get_col (set_none fr k') k = get_col fr k.
Proof. intro H. unfold set_none. now apply get_col_set_col_other. Qed.

Lemma set_none_keeps (fr : frame) (k' : string) :
  k' <> "Municipio" -> well_formed fr -> str_labels fr ->
  well_formed (set_none fr k') /\ str_labels (set_none fr k')
  /\ nrows (set_none fr k') = nrows fr.
Proof.
  intros Hk Hwf Hstr. unfold set_none. repeat split.
  - apply set_col_well_formed; auto. apply repeat_length.
  - now apply set_col_str_labels.
  - now apply set_col_nrows.
Qed.

Lemma fold_set_none (keys : list string) :
  forall fr,
    Forall (fun k' => k' <> "Municipio") keys ->
    well_formed fr -> str_labels fr ->
    let fr' := fold_left set_none keys fr in
    well_formed fr' /\ str_labels fr' /\ nrows fr' = nrows fr
    /\ forall k, ~ In k keys -> get_col fr' k = get_col fr k.
Proof.
  induction keys as [|k' keys IH]; intros fr Hk Hwf Hstr; simpl.
  - auto.
  - inversion Hk as [|? ? Hk' Hks]; subst.
    destruct (set_none_keeps fr k' Hk' Hwf Hstr) as (Hwf' & Hstr' & Hn').
    destruct (IH _ Hks Hwf' Hstr') as (A1 & A2 & A3 & A4).
    repeat split; auto; [congruence|].
    intros k Hnot. rewrite A4 by tauto. apply set_none_get_col. tauto.
Qed.

(** ** From the records to the frame *)

Lemma build_frame_returns (recs df : list YearlyRecord) :
  build_frame recs = Returns df ->
  recs <> [] /\ df = dropna (sort_by record_leb recs).
Proof.
  unfold build_frame. destruct recs; [discriminate|].
  intros [= <-]. split; [discriminate|reflexivity].
Qed.

Lemma dropna_sort_In (recs : list YearlyRecord) (r : YearlyRecord) :
  In r (dropna (sort_by record_leb recs)) <-> In r recs /\ has_value r = true.
Proof.
  unfold dropna. rewrite filter_In.
  split; intros [H1 H2]; split; auto.
  - eapply Permutation_in; [apply sort_by_perm | exact H1].
  - eapply Permutation_in; [apply Permutation_sym, sort_by_perm | exact H1].
Qed.

Lemma island_In (df : list YearlyRecord) (r : YearlyRecord) :
  In r (island df) <->
  In (year r) (map year df)
  /\ r = {| year := year r; Municipio := "Puerto Rico";
            Establishments := Some (year_sum df (year r)) |}.
Proof.
  unfold island. rewrite in_map_iff. split.
  - intros (y & <- & Hy). simpl. split; [|reflexivity].
    now apply (proj1 (sort_uniq_In Z Z.compare Z_compare_eq _ _)) in Hy.
  - intros [Hy ->]. simpl. exists (year r). split; [reflexivity|].
    now apply (proj2 (sort_uniq_In Z Z.compare Z_compare_eq _ _)).
Qed.

Lemma with_island_years (df : list YearlyRecord) (y : Z) :
  In y (pivot_columns (with_island df)) <-> In y (map year df).
Proof.
  unfold pivot_columns, with_island.
  rewrite (sort_uniq_In Z Z.compare Z_compare_eq), map_app, in_app_iff.
  split; [|auto]. intros [H|H]; [exact H|].
  apply in_map_iff in H. destruct H as (r & <- & Hr).
  now apply island_In in Hr.
Qed.

Lemma fold_left_map_keys (A : Type) (f : frame -> string -> frame) (g : A -> string)
    (l : list A) :
  forall fr, fold_left (fun p y => f p (g y)) l fr = fold_left f (map g l) fr.
Proof. induction l as [|x l IH]; simpl; auto. Qed.

Lemma placeholders_keeps (succ : list Z) (F P L : string) (fr : frame) :
  well_formed fr -> str_labels fr ->
  let wide := placeholders succ F P L fr in
  well_formed wide /\ str_labels wide /\ nrows wide = nrows fr
  /\ forall k, String.prefix "Real" k = false -> get_col wide k = get_col fr k.
Proof.
  intros Hwf Hstr. unfold placeholders.
  rewrite (fold_left_map_keys Z set_none real_income_key).
  rewrite <- fold_left_app.
  set (keys := (map real_income_key succ ++ real_keys F P L)%list).
  assert (Hkeys : forall k, In k keys -> String.prefix "Real" k = true).
  { intros k Hk. apply in_app_or in Hk. destruct Hk as [Hk|Hk].
    - apply in_map_iff in Hk. destruct Hk as (y & <- & _). reflexivity.
    - simpl in Hk. decompose [or] Hk; subst; try reflexivity. contradiction. }
  destruct (fold_set_none keys fr) as (A1 & A2 & A3 & A4); auto.
  { apply Forall_forall. intros k Hk E. apply Hkeys in Hk. subst k. discriminate. }
  repeat split; auto.
  intros k Hk. apply A4. intro Hin. apply Hkeys in Hin. congruence.
Qed.

(** ** A run that writes its file *)

Section RunFacts.
Variable API_KEY : string.
Variable requests_get : string -> outcome http_response.
Variable current_year : Z.
Variable updated : string.

Let st := fetch_all API_KEY requests_get (year_range current_year).
Let succ := successful_years st.

Lemma run_saved (name : string) (content : list pyval) :
  run API_KEY requests_get current_year updated = Saved name content ->
  exists df pv wide last,
    (2 <= length (year_range current_year))%nat
    /\ (2 <= length succ)%nat
    /\ build_frame (records st) = Returns df
    /\ pivot (with_island df) = Returns pv
    /\ derive succ pv = Returns wide
    /\ py_index succ (-1) = Returns last
    /\ name = file_name (str last)
    /\ content = (to_dict wide ++ [metadata succ updated])%list.
Proof.
  unfold run. fold st.
  destruct (Nat.ltb_spec (length (year_range current_year)) 2); [discriminate|].
  fold succ.
  destruct (Nat.ltb_spec (length succ) 2); [discriminate|].
  destruct (build updated st) as [[n c]|e] eqn:E; [|discriminate].
  intros [= <- <-]. unfold build in E. fold succ in E.
  inv_bind E. inv_bind E. inv_bind E. inv_bind E.
  injection E as <- <-.
  repeat eexists; eauto.
Qed.

Lemma run_years_fetched (df : list YearlyRecord) (y : Z) :
  build_frame (records st) = Returns df ->
  In y (pivot_columns (with_island df)) -> In y succ.
Proof.
  intros Hdf Hy. apply build_frame_returns in Hdf. destruct Hdf as [_ ->].
  apply with_island_years in Hy. apply in_map_iff in Hy.
  destruct Hy as (r & <- & Hr). apply dropna_sort_In in Hr.
  destruct Hr as [Hr _]. now apply fetch_all_records in Hr.
Qed.
End RunFacts.

(** What the columns of the finished frame hold. *)
Lemma derive_columns (succ : list Z) (df : list YearlyRecord) (pv wide : frame) :
  pivot df = Returns pv ->
  (forall y, In y (pivot_columns df) -> In y succ) ->
  derive succ pv = Returns wide ->
  exists first prev last f p l c q pc c2 q2 pc2,
    py_index succ 0 = Returns first
    /\ py_index succ (-2) = Returns prev
    /\ py_index succ (-1) = Returns last
    /\ str_labels wide
    /\ nrows wide = length (pivot_index df)
    /\ get_col wide "Municipio" = Returns (map JStr (pivot_index df))
    /\ (forall col, In col [f; p; l] ->
          exists y, In y (pivot_columns df)
                    /\ col = map (fun m => cell df m y) (pivot_index df))
    /\ col_op num_sub l p = Returns c
    /\ col_op num_div c p = Returns q
    /\ col_scale q (JInt 100) = Returns pc
    /\ col_op num_sub l f = Returns c2
    /\ col_op num_div c2 f = Returns q2
    /\ col_scale q2 (JInt 100) = Returns pc2
    /\ get_col wide (str first) = Returns f
    /\ get_col wide (str prev) = Returns p
    /\ get_col wide (str last) = Returns l
    /\ get_col wide (change_key (str prev) (str last)) = Returns c
    /\ get_col wide (pct_change_key (str prev) (str last)) = Returns pc
    /\ get_col wide (cum_change_key (str first) (str last)) = Returns c2
    /\ get_col wide (cum_pct_change_key (str first) (str last)) = Returns pc2.
Proof.
  intros Hpv Hsub H. unfold derive in H. cbv zeta in H.
  inv_bind H. inv_bind H. inv_bind H. inv_bind H. injection H as <-.
  rename a into first, a0 into prev, a1 into last, a2 into fr.
  pose proof (rename_pivot_well_formed succ df pv Hpv) as Hwf.
  pose proof (rename_pivot_str_labels succ df pv Hpv Hsub) as Hstr.
  pose proof (rename_pivot_nrows succ df pv Hpv) as Hn.
  destruct (change_columns_returns first prev last _ _ Ha2)
    as (f & p & l & c & q & pc & c2 & q2 & pc2
        & Hf & Hp & Hl & Hc & Hq & Hpc & Hc2 & Hq2 & Hpc2 & ->).
  assert (Hcols : forall col, In col [f; p; l] ->
            exists y, In y (pivot_columns df)
                      /\ col = map (fun m => cell df m y) (pivot_index df)).
  { intros col [<-|[<-|[<-|[]]]];
      eapply (rename_pivot_get_col succ df pv Hpv); eauto; key_neq. }
  assert (Hlen : forall col, In col [f; p; l] -> length col = length (pivot_index df)).
  { intros col Hin. destruct (Hcols col Hin) as (y & _ & ->). apply length_map. }
  assert (Lf := Hlen f ltac:(simpl; auto)).
  assert (Lp := Hlen p ltac:(simpl; auto)).
  assert (Ll := Hlen l ltac:(simpl; auto)).
  assert (Lc : length c = length (pivot_index df)).
  { rewrite (col_op_length _ _ _ _ Hc); congruence. }
  assert (Lq : length q = length (pivot_index df)).
  { rewrite (col_op_length _ _ _ _ Hq); congruence. }
  assert (Lpc : length pc = length (pivot_index df)).
  { rewrite (col_scale_length _ _ _ Hpc); congruence. }
  assert (Lc2 : length c2 = length (pivot_index df)).
  { rewrite (col_op_length _ _ _ _ Hc2); congruence. }
  assert (Lq2 : length q2 = length (pivot_index df)).
  { rewrite (col_op_length _ _ _ _ Hq2); congruence. }
  assert (Lpc2 : length pc2 = length (pivot_index df)).
  { rewrite (col_scale_length _ _ _ Hpc2); congruence. }
  set (fr1 := set_col (rename succ pv) (change_key (str prev) (str last)) c) in *.
  set (fr2 := set_col fr1 (pct_change_key (str prev) (str last)) pc) in *.
  set (fr3 := set_col fr2 (cum_change_key (str first) (str last)) c2) in *.
  set (fr4 := set_col fr3 (cum_pct_change_key (str first) (str last)) pc2) in *.
  assert (W1 : well_formed fr1 /\ str_labels fr1 /\ nrows fr1 = length (pivot_index df)).
  { unfold fr1. repeat split.
    - apply set_col_well_formed; auto; [key_neq | congruence].
    - now apply set_col_str_labels.
    - rewrite set_col_nrows; auto. key_neq. }
  destruct W1 as (Wf1 & St1 & N1).
  assert (W2 : well_formed fr2 /\ str_labels fr2 /\ nrows fr2 = length (pivot_index df)).
  { unfold fr2. repeat split.
    - apply set_col_well_formed; auto; [key_neq | congruence].
    - now apply set_col_str_labels.
    - rewrite set_col_nrows; auto. key_neq. }
  destruct W2 as (Wf2 & St2 & N2).
  assert (W3 : well_formed fr3 /\ str_labels fr3 /\ nrows fr3 = length (pivot_index df)).
  { unfold fr3. repeat split.
    - apply set_col_well_formed; auto; [key_neq | congruence].
    - now apply set_col_str_labels.
    - rewrite set_col_nrows; auto. key_neq. }
  destruct W3 as (Wf3 & St3 & N3).
  assert (W4 : well_formed fr4 /\ str_labels fr4 /\ nrows fr4 = length (pivot_index df)).
  { unfold fr4. repeat split.
    - apply set_col_well_formed; auto; [key_neq | congruence].
    - now apply set_col_str_labels.
    - rewrite set_col_nrows; auto. key_neq. }
  destruct W4 as (Wf4 & St4 & N4).
  destruct (placeholders_keeps succ (str first) (str prev) (str last) fr4 Wf4 St4)
    as (Wfw & Stw & Nw & Hget).
  assert (Hnum : forall n, String.prefix "Real" (str n) = false).
  { intro n. pose proof (str_starts_numeric n) as Hs.
    destruct (str n) as [|ch s]; [reflexivity|].
    cbn [String.prefix].
    destruct (ascii_dec "R" ch) as [<-|_]; [discriminate Hs|reflexivity]. }
  exists first, prev, last, f, p, l, c, q, pc, c2, q2, pc2.
  repeat match goal with |- _ /\ _ => split end; auto; try congruence.
  - rewrite Hget by reflexivity. unfold fr4, fr3, fr2, fr1.
    rewrite !get_col_set_col_other by key_neq.
    rewrite (rename_pivot succ df pv Hpv). reflexivity.
  - rewrite Hget by apply Hnum. unfold fr4, fr3, fr2, fr1.
    now rewrite !get_col_set_col_other by key_neq.
  - rewrite Hget by apply Hnum. unfold fr4, fr3, fr2, fr1.
    now rewrite !get_col_set_col_other by key_neq.
  - rewrite Hget by apply Hnum. unfold fr4, fr3, fr2, fr1.
    now rewrite !get_col_set_col_other by key_neq.
  - rewrite Hget by reflexivity. unfold fr4, fr3, fr2, fr1.
    rewrite !get_col_set_col_other by key_neq. apply get_col_set_col_same.
  - rewrite Hget by reflexivity. unfold fr4, fr3, fr2.
    rewrite !get_col_set_col_other by key_neq. apply get_col_set_col_same.
  - rewrite Hget by reflexivity. unfold fr4, fr3.
    rewrite !get_col_set_col_other by key_neq. apply get_col_set_col_same.
  - rewrite Hget by reflexivity. unfold fr4. apply get_col_set_col_same.
Qed.

(** ** Positions in the list of successful years *)

Lemma py_index_first (l : list Z) (x : Z) :
  py_index l 0 = Returns x -> exists tail, l = x :: tail.
Proof.
  unfold py_index. destruct l as [|y l]; [discriminate|].
  cbv zeta. change (0 <? 0) with false. cbn [orb].
  destruct (Z.leb_spec (Z.of_nat (length (y :: l))) 0) as [H|_].
  - simpl length in H. lia.
  - simpl. intros [= <-]. eauto.
Qed.

Lemma py_index_last_two (l : list Z) (p x : Z) :
  py_index l (-2) = Returns p -> py_index l (-1) = Returns x ->
  exists front, l = (front ++ [p; x])%list.
Proof.
  unfold py_index. cbv zeta.
  change (-2 <? 0) with true. change (-1 <? 0) with true. cbv iota.
  rewrite <- (rev_involutive l). destruct (rev l) as [|b [|a t]].
  - simpl. discriminate.
  - simpl. discriminate.
  - simpl rev. rewrite <- !app_assoc. simpl app.
    rewrite !length_app. simpl length.
    set (n := length (rev t)).
    destruct ((-2 + Z.of_nat (n + 2) <? 0) || _)%bool; [discriminate|].
    intro H1.
    destruct ((-1 + Z.of_nat (n + 2) <? 0) || _)%bool; [discriminate|].
    intro H2.
    replace (Z.to_nat (-2 + Z.of_nat (n + 2))) with (n + 0)%nat in H1 by lia.
    replace (Z.to_nat (-1 + Z.of_nat (n + 2))) with (n + 1)%nat in H2 by lia.
    rewrite nth_error_app2 in H1, H2 by (unfold n; lia).
    replace (n + 0 - length (rev t))%nat with 0%nat in H1 by (unfold n; lia).
    replace (n + 1 - length (rev t))%nat with 1%nat in H2 by (unfold n; lia).
    simpl in H1, H2. injection H1 as <-. injection H2 as <-.
    now exists (rev t).
Qed.

(** ** One object of the output *)


(** ** Integers below 2^53 are finite floats *)







(** ** Numeric cells *)

Lemma num_sub_numeric (a b : pyval) :
  numeric a = true -> numeric b = true ->
  exists v, num_sub a b = Returns v /\ numeric v = true.
Proof.
  destruct a, b; try discriminate; intros _ _; cbn; eauto.
Qed.

Lemma num_div_numeric (a b : pyval) :
  numeric a = true -> numeric b = true ->
  exists v, num_div a b = Returns v /\ numeric v = true.
Proof.
  destruct a, b; try discriminate; intros _ _; cbn; eauto.
Qed.

Lemma num_mul_numeric (a b : pyval) :
  numeric a = true -> numeric b = true ->
  exists v, num_mul a b = Returns v /\ numeric v = true.
Proof.
  destruct a, b; try discriminate; intros _ _; cbn; eauto.
Qed.

Lemma col_op_numeric (op : pyval -> pyval -> outcome pyval) :
  (forall a b, numeric a = true -> numeric b = true ->
               exists v, op a b = Returns v /\ numeric v = true) ->
  forall a b, all_numeric a -> all_numeric b ->
              exists c, col_op op a b = Returns c /\ all_numeric c.
Proof.
  intros Hop a. induction a as [|x a IH]; intros b Ha Hb.
  - exists []. split; [reflexivity | constructor].
  - destruct b as [|y b].
    + exists []. split; [reflexivity | constructor].
    + inversion Ha; inversion Hb; subst.
      destruct (Hop x y) as (v & Hv & Nv); auto.
      destruct (IH b) as (c & Hc & Nc); auto.
      exists (v :: c). simpl. rewrite Hv. simpl. rewrite Hc. simpl.
      split; [reflexivity | now constructor].
Qed.

Lemma col_scale_numeric (k : pyval) :
  numeric k = true ->
  forall a, all_numeric a -> exists c, col_scale a k = Returns c /\ all_numeric c.
Proof.
  intros Hk a. induction a as [|x a IH]; intro Ha.
  - exists []. split; [reflexivity | constructor].
  - inversion Ha; subst.
    destruct (num_mul_numeric x k) as (v & Hv & Nv); auto.
    destruct IH as (c & Hc & Nc); auto.
    exists (v :: c). simpl. rewrite Hv. simpl. rewrite Hc. simpl.
    split; [reflexivity | now constructor].
Qed.


Lemma change_columns_total (first prev last : Z) (fr : frame)
    (f p l : list pyval) :
  get_col fr (str first) = Returns f -> all_numeric f ->
  get_col fr (str prev) = Returns p -> all_numeric p ->
  get_col fr (str last) = Returns l -> all_numeric l ->
  exists out, change_columns (str first) (str prev) (str last) fr = Returns out.
Proof.
  intros Gf Nf Gp Np Gl Nl.
  destruct (col_op_numeric num_sub num_sub_numeric l p Nl Np) as (c & Hc & Nc).
  destruct (col_op_numeric num_div num_div_numeric c p Nc Np) as (q & Hq & Nq).
  destruct (col_scale_numeric (JInt 100) eq_refl q Nq) as (pc & Hpc & _).
  destruct (col_op_numeric num_sub num_sub_numeric l f Nl Nf) as (c2 & Hc2 & Nc2).
  destruct (col_op_numeric num_div num_div_numeric c2 f Nc2 Nf) as (q2 & Hq2 & Nq2).
  destruct (col_scale_numeric (JInt 100) eq_refl q2 Nq2) as (pc2 & Hpc2 & _).
  unfold change_columns.
  rewrite Gl. cbv beta iota zeta delta [bind].
  rewrite Gp. cbv beta iota zeta delta [bind].
  rewrite Hc. cbv beta iota zeta delta [bind].
  rewrite get_col_set_col_same. cbv beta iota zeta delta [bind].
  rewrite !(get_col_set_col_other _ _ (str prev)) by key_neq.
  rewrite Gp. cbv beta iota zeta delta [bind].
  rewrite Hq. cbv beta iota zeta delta [bind].
  rewrite Hpc. cbv beta iota zeta delta [bind].
  rewrite !(get_col_set_col_other _ _ (str last)) by key_neq.
  rewrite Gl. cbv beta iota zeta delta [bind].
  rewrite !(get_col_set_col_other _ _ (str first)) by key_neq.
  rewrite Gf. cbv beta iota zeta delta [bind].
  rewrite Hc2. cbv beta iota zeta delta [bind].
  rewrite get_col_set_col_same. cbv beta iota zeta delta [bind].
  rewrite !(get_col_set_col_other _ _ (str first)) by key_neq.
  rewrite Gf. cbv beta iota zeta delta [bind].
  rewrite Hq2. cbv beta iota zeta delta [bind].
  rewrite Hpc2. cbv beta iota zeta delta [bind]. eauto.
Qed.



(** ** The island-wide sums *)

Lemma year_sum_perm (l l' : list YearlyRecord) (y : Z) :
  Permutation l l' -> year_sum l y = year_sum l' y.
Proof.
  unfold year_sum. induction 1 as [|r l l' Hp IH|a b l|l l' l'' _ IH1 _ IH2]; simpl.
  - reflexivity.
  - destruct (year r =? y); simpl; lia.
  - destruct (year a =? y), (year b =? y); simpl; lia.
  - lia.
Qed.




Lemma same_key_eq (a b : string * Z) : same_key a b = true <-> a = b.
Proof.
  unfold same_key. destruct a as [s n], b as [t m]. simpl.
  rewrite andb_true_iff, String.eqb_eq, Z.eqb_eq.
  split; [intros [-> ->]; reflexivity | intros [= -> ->]; auto].
Qed.


(** ** Flat objects and their names *)

Lemma numeric_scalar (v : pyval) : numeric v = true -> scalar v = true.
Proof. now destruct v. Qed.

Lemma num_sub_out (a b v : pyval) : num_sub a b = Returns v -> numeric v = true.
Proof.
  destruct a, b; cbn; try discriminate; now intros [= <-].
Qed.

Lemma num_div_out (a b v : pyval) : num_div a b = Returns v -> numeric v = true.
Proof.
  destruct a, b; cbn; try discriminate; now intros [= <-].
Qed.

Lemma num_mul_out (a b v : pyval) : num_mul a b = Returns v -> numeric v = true.
Proof.
  destruct a, b; cbn; try discriminate; now intros [= <-].
Qed.

Lemma col_op_out (op : pyval -> pyval -> outcome pyval) :
  (forall a b v, op a b = Returns v -> numeric v = true) ->
  forall a b c, col_op op a b = Returns c -> all_numeric c.
Proof.
  unfold all_numeric.
  intros Hop a. induction a as [|x a IH]; intros [|y b] c H; simpl in H;
    try (injection H as <-; constructor).
  inv_bind H. inv_bind H. injection H as <-. constructor; eauto.
Qed.

Lemma col_scale_out (k : pyval) :
  forall a c, col_scale a k = Returns c -> all_numeric c.
Proof.
  unfold all_numeric.
  induction a as [|x a IH]; intros c H; simpl in H.
  - injection H as <-. constructor.
  - inv_bind H. inv_bind H. injection H as <-.
    constructor; eauto using num_mul_out.
Qed.

Lemma all_numeric_scalar (col : list pyval) :
  all_numeric col -> Forall (fun v => scalar v = true) col.
Proof.
  intro H. eapply Forall_impl; [|exact H]. apply numeric_scalar.
Qed.

Lemma set_col_scalar (fr : frame) (k : string) (col : list pyval) :
  scalar_frame fr -> Forall (fun v => scalar v = true) col ->
  scalar_frame (set_col fr k col).
Proof.
  unfold scalar_frame. intros Hfr Hcol.
  induction Hfr as [|c fr Hc Hfr IH]; simpl.
  - repeat constructor. exact Hcol.
  - destruct (label_eqb (fst c) (LStr k)); constructor; auto.
Qed.

Lemma fold_set_none_scalar (keys : list string) :
  forall fr, scalar_frame fr -> scalar_frame (fold_left set_none keys fr).
Proof.
  induction keys as [|k keys IH]; simpl; intros fr H; [exact H|].
  apply IH. unfold set_none. apply set_col_scalar; [exact H|].
  apply Forall_forall. intros v Hv. apply repeat_spec in Hv. now subst.
Qed.

Lemma rename_pivot_scalar (succ : list Z) (df : list YearlyRecord) (pv : frame) :
  pivot df = Returns pv -> scalar_frame (rename succ pv).
Proof.
  intro Hpv. rewrite (rename_pivot succ df pv Hpv). constructor.
  - simpl. apply Forall_forall. intros v Hv. apply in_map_iff in Hv.
    now destruct Hv as (m & <- & _).
  - apply Forall_forall. intros c Hc. apply in_map_iff in Hc.
    destruct Hc as (y & <- & _). simpl.
    apply Forall_forall. intros v Hv. apply in_map_iff in Hv.
    destruct Hv as (m & <- & _). apply numeric_scalar, cell_numeric.
Qed.

Lemma derive_scalar (succ : list Z) (df : list YearlyRecord) (pv wide : frame) :
  pivot df = Returns pv -> derive succ pv = Returns wide -> scalar_frame wide.
Proof.
  intros Hpv H. unfold derive in H. cbv zeta in H.
  inv_bind H. inv_bind H. inv_bind H. inv_bind H. injection H as <-.
  destruct (change_columns_returns _ _ _ _ _ Ha2)
    as (f & p & l & c & q & pc & c2 & q2 & pc2
        & _ & _ & _ & Hc & _ & Hpc & Hc2 & _ & Hpc2 & ->).
  unfold placeholders.
  rewrite (fold_left_map_keys Z set_none real_income_key).
  do 2 apply fold_set_none_scalar.
  repeat apply set_col_scalar.
  - now apply rename_pivot_scalar with (df := df).
  - eapply all_numeric_scalar, col_op_out; [apply num_sub_out | exact Hc].
  - eapply all_numeric_scalar, col_scale_out; exact Hpc.
  - eapply all_numeric_scalar, col_op_out; [apply num_sub_out | exact Hc2].
  - eapply all_numeric_scalar, col_scale_out; exact Hpc2.
Qed.


Lemma map_nth_seq {A B : Type} (g : A -> B) (d : A) (l : list A) :
  map (fun i => g (nth i l d)) (seq 0 (length l)) = map g l.
Proof.
  induction l as [|x l IH]; simpl; [reflexivity|].
  f_equal. rewrite <- seq_shift, map_map. exact IH.
Qed.

(** The names of the data objects, in order, are the index of the pivot. *)
Lemma to_dict_names (fr : frame) (names : list string) :
  str_labels fr -> nrows fr = length names ->
  get_col fr "Municipio" = Returns (map JStr names) ->
  map (fun d => dict_get d "Municipio") (to_dict fr)
  = map (fun m => Some (JStr m)) names.
Proof.
  intros Hstr Hn Hcol. unfold to_dict. rewrite map_map, Hn.
  rewrite <- (map_nth_seq (fun m => Some (JStr m)) "" names).
  apply map_ext_in. intros i Hi. apply in_seq in Hi.
  rewrite (dict_get_row fr "Municipio" (map JStr names) i Hstr Hcol).
  f_equal.
  rewrite nth_indep with (d' := JStr "") by (rewrite length_map; lia).
  apply (map_nth JStr).
Qed.


(** ** The index of the pivot *)

Lemma pivot_index_In (df : list YearlyRecord) (m : string) :
  In m (pivot_index df) <-> In m (map Municipio df).
Proof. apply (sort_uniq_In string String.compare String.compare_eq_iff). Qed.

Lemma pivot_index_sorted (df : list YearlyRecord) :
  StronglySorted name_lt (pivot_index df).
Proof.
  apply (sort_uniq_sorted string String.compare String.compare_eq_iff
           String.compare_antisym string_compare_trans).
Qed.



Lemma with_island_names (df : list YearlyRecord) (m : string) :
  df <> [] ->
  In m (pivot_index (with_island df)) <-> m = "Puerto Rico" \/ In m (map Municipio df).
Proof.
  intro Hne. rewrite pivot_index_In. unfold with_island.
  rewrite map_app, in_app_iff. split.
  - intros [H|H]; [auto|]. apply in_map_iff in H. destruct H as (r & <- & Hr).
    apply island_In in Hr. destruct Hr as [_ ->]. auto.
  - intros [->|H]; [|auto]. right.
    destruct df as [|r df]; [congruence|].
    apply in_map_iff.
    exists {| year := year r; Municipio := "Puerto Rico";
              Establishments := Some (year_sum (r :: df) (year r)) |}.
    split; [reflexivity|]. apply island_In. simpl. auto.
Qed.


Lemma sorted_around {A : Type} (R : A -> A -> Prop) (x : A) (l1 l2 : list A) :
  StronglySorted R (l1 ++ x :: l2) ->
  Forall (fun a => R a x) l1 /\ Forall (R x) l2.
Proof.
  induction l1 as [|a l1 IH]; simpl; intro H.
  - inversion H; subst. split; [constructor | assumption].
  - inversion H as [|? ? Hs Ha]; subst. destruct (IH Hs) as [H1 H2].
    split; [|exact H2]. constructor; [|exact H1].
    rewrite Forall_forall in Ha. apply Ha. apply in_or_app. simpl. auto.
Qed.

Section SavedRun.
Variable API_KEY : string.
Variable requests_get : string -> outcome http_response.
Variable current_year : Z.
Variable updated : string.

Let st := fetch_all API_KEY requests_get (year_range current_year).

(** The shape of what a run saves. *)
Lemma run_rows (name : string) (content : list pyval) :
  run API_KEY requests_get current_year updated = Saved name content ->
  exists df wide last,
    build_frame (records st) = Returns df
    /\ df <> []
    /\ py_index (successful_years st) (-1) = Returns last
    /\ name = file_name (str last)
    /\ content = (to_dict wide ++ [metadata (successful_years st) updated])%list
    /\ str_labels wide
    /\ scalar_frame wide
    /\ nrows wide = length (pivot_index (with_island df))
    /\ get_col wide "Municipio"
       = Returns (map JStr (pivot_index (with_island df))).
Proof.
  intro Hrun.
  destruct (run_saved _ _ _ _ _ _ Hrun)
    as (df & pv & wide & last & _ & _ & Hdf & Hpv & Hwide & Hlast & -> & ->).
  destruct (derive_columns _ _ _ _ Hpv
              (fun y => run_years_fetched API_KEY requests_get current_year df y Hdf)
              Hwide)
    as (first & prev & last' & f & p & l & c & q & pc & c2 & q2 & pc2
        & _ & _ & _ & Hstr & Hn & Hm & Hcols & _).
  exists df, wide, last. repeat split; auto.
  - destruct (Hcols l) as (y & Hy & _); [simpl; auto|].
    apply with_island_years in Hy. intros ->. exact Hy.
  - eapply derive_scalar; eauto.
Qed.
End SavedRun.

(** ** Repeated keys *)

Lemma has_duplicates_NoDup (keys : list (string * Z)) :
  has_duplicates keys = false <-> NoDup keys.
Proof.
  induction keys as [|k keys IH]; simpl.
  - split; [constructor | reflexivity].
  - rewrite orb_false_iff, IH. split.
    + intros [Hk Hn]. constructor; [|exact Hn].
      intro Hin.
      assert (F : existsb (same_key k) keys = true).
      { apply existsb_exists. exists k. split; [exact Hin | now apply same_key_eq]. }
      congruence.
    + intro H. inversion H as [|? ? Hnot Hn]; subst. split; [|exact Hn].
      destruct (existsb (same_key k) keys) eqn:E; [|reflexivity].
      apply existsb_exists in E. destruct E as (k' & Hin & E).
      apply same_key_eq in E. subst k'. contradiction.
Qed.

Lemma filter_perm {A : Type} (f : A -> bool) (l l' : list A) :
  Permutation l l' -> Permutation (filter f l) (filter f l').
Proof.
  induction 1 as [|x l l' _ IH|x y l|l l' l'' _ IH1 _ IH2]; simpl.
  - constructor.
  - destruct (f x); [now constructor | exact IH].
  - destruct (f x), (f y); try reflexivity. apply perm_swap.
  - now transitivity (filter f l').
Qed.

Lemma frame_keys_perm (recs : list YearlyRecord) :
  Permutation (map pivot_key (dropna (sort_by record_leb recs)))
              (map pivot_key (dropna recs)).
Proof. apply Permutation_map, filter_perm, sort_by_perm. Qed.

Lemma island_keys (df : list YearlyRecord) :
  map pivot_key (island df)
  = map (fun y => ("Puerto Rico", y)) (pivot_columns df).
Proof. unfold island, pivot_columns. now rewrite map_map. Qed.

Lemma pivot_columns_NoDup (df : list YearlyRecord) : NoDup (pivot_columns df).
Proof.
  apply (sort_uniq_NoDup Z Z.compare Z_compare_eq
           (fun x y => Z.compare_antisym y x) Z_compare_trans).
Qed.

(** Adding the island's records keeps the keys distinct. *)
Lemma with_island_NoDup (df : list YearlyRecord) :
  (forall r, In r df -> Municipio r <> "Puerto Rico") ->
  NoDup (map pivot_key df) -> NoDup (map pivot_key (with_island df)).
Proof.
  intros Hno Hdf. unfold with_island. rewrite map_app.
  apply NoDup_app; [exact Hdf| |].
  - rewrite island_keys. apply Finite.Injective_map_NoDup.
    + intros a b E. now injection E.
    + apply pivot_columns_NoDup.
  - intros k Hk Hi. rewrite island_keys in Hi.
    apply in_map_iff in Hk. destruct Hk as (r & <- & Hr).
    apply in_map_iff in Hi. destruct Hi as (y & E & _).
    injection E as E _. symmetry in E. now apply (Hno r).
Qed.

(** ** Decimal text *)

Lemma int_digits_acc (d : Decimal.uint) :
  forall acc : positive,
    int_digits (Zpos acc) true (digits_of d) = Some (Zpos (Pos.of_uint_acc d acc)).
Proof.
  unfold digits_of.
  induction d; intro acc; cbn [NilEmpty.string_of_uint list_ascii_of_string int_digits Pos.of_uint_acc];
    try reflexivity;
    match goal with
    | |- context [digit_val ?c] =>
        let v := eval vm_compute in (digit_val c) in
        change (digit_val c) with v; cbv beta iota
    end;
    match goal with
    | |- int_digits ?z true _ = Some (Zpos (Pos.of_uint_acc _ ?q)) =>
        replace z with (Zpos q) by lia
    end; apply IHd.
Qed.

Lemma int_digits_uint (d : Decimal.uint) :
  int_digits 0 true (digits_of d) = Some (Z.of_N (Pos.of_uint d)).
Proof.
  unfold digits_of.
  induction d; cbn [NilEmpty.string_of_uint list_ascii_of_string int_digits Pos.of_uint];
    try reflexivity;
    match goal with
    | |- context [digit_val ?c] =>
        let v := eval vm_compute in (digit_val c) in
        change (digit_val c) with v; cbv beta iota
    end;
    [ exact IHd | .. ];
    match goal with
    | |- int_digits ?z true _ = Some (Z.of_N (Npos (Pos.of_uint_acc _ ?q))) =>
        change z with (Zpos q)
    end; apply (int_digits_acc d).
Qed.

(** The first character decides alone when it is a digit. *)
Lemma int_digits_first (acc : Z) (c : ascii) (l : list ascii) (d : Z) :
  digit_val c = Some d ->
  int_digits acc false (c :: l) = int_digits acc true (c :: l).
Proof. intro H. simpl. now rewrite H. Qed.

Lemma digits_of_digits (d : Decimal.uint) : forallb is_digit (digits_of d) = true.
Proof.
  unfold digits_of. induction d; simpl; auto.
Qed.

Lemma drop_spaces_head (c : ascii) (l : list ascii) :
  is_space c = false -> drop_spaces is_space (c :: l) = c :: l.
Proof. intro H. simpl. now rewrite H. Qed.

Lemma strip_no_space (l : list ascii) :
  forallb (fun c => negb (is_space c)) l = true -> strip l = l.
Proof.
  intro H. unfold strip.
  assert (D : forall k, forallb (fun c => negb (is_space c)) k = true ->
                        drop_spaces is_space k = k).
  { intros [|c k] Hk; [reflexivity|]. simpl in Hk.
    apply andb_true_iff in Hk. destruct Hk as [Hc _].
    apply drop_spaces_head. now destruct (is_space c). }
  rewrite (D l H). rewrite D, rev_involutive; [reflexivity|].
  rewrite forallb_forall in *. intros c Hc. apply H. now apply in_rev.
Qed.

Lemma digit_not_space (c : ascii) : is_digit c = true -> is_space c = false.
Proof.
  unfold is_digit, digit_val, is_space.
  destruct (48 <=? N_of_ascii c)%N eqn:A; [|discriminate].
  destruct (N_of_ascii c <=? 57)%N eqn:B; [|discriminate].
  intros _. apply N.leb_le in A, B.
  apply orb_false_iff. split.
  - apply andb_false_iff. right. apply N.leb_gt. lia.
  - apply N.eqb_neq. lia.
Qed.

Lemma digit_not_sign (c : ascii) :
  is_digit c = true -> Ascii.eqb c "-" = false /\ Ascii.eqb c "+" = false.
Proof.
  intro H. split; apply Ascii.eqb_neq; intros ->; discriminate H.
Qed.

Lemma digits_no_space (l : list ascii) :
  forallb is_digit l = true -> forallb (fun c => negb (is_space c)) l = true.
Proof.
  rewrite !forallb_forall. intros H c Hc.
  now rewrite (digit_not_space c (H c Hc)).
Qed.

Lemma digits_of_nonnil (d : Decimal.uint) :
  d <> Decimal.Nil -> exists c l, digits_of d = c :: l.
Proof. unfold digits_of. destruct d; simpl; eauto. now intros []. Qed.

(** [int(str(n))] is [n]. *)
Lemma int_of_str_str (n : Z) : int_of_str (str n) = Returns n.
Proof.
  unfold int_of_str, str.
  destruct n as [|p|p]; [reflexivity| |].
  - cbn [Z.to_int NilZero.string_of_int].
    pose proof (DecimalPos.Unsigned.to_uint_nonnil p) as Hn.
    replace (NilZero.string_of_uint (Pos.to_uint p))
      with (NilEmpty.string_of_uint (Pos.to_uint p))
      by (now destruct (Pos.to_uint p)).
    fold (digits_of (Pos.to_uint p)).
    pose proof (digits_of_digits (Pos.to_uint p)) as Hd.
    rewrite (strip_no_space _ (digits_no_space _ Hd)).
    destruct (digits_of_nonnil _ Hn) as (c & l & E).
    pose proof (int_digits_uint (Pos.to_uint p)) as Hv.
    rewrite E in Hd, Hv |- *. simpl in Hd. apply andb_true_iff in Hd.
    destruct Hd as [Hc _]. destruct (digit_not_sign c Hc) as [-> ->].
    unfold is_digit in Hc. destruct (digit_val c) as [v|] eqn:Ev; [|discriminate].
    rewrite (int_digits_first 0 c l v Ev), Hv.
    now rewrite DecimalPos.Unsigned.of_to.
  - cbn [Z.to_int NilZero.string_of_int].
    pose proof (DecimalPos.Unsigned.to_uint_nonnil p) as Hn.
    replace (NilZero.string_of_uint (Pos.to_uint p))
      with (NilEmpty.string_of_uint (Pos.to_uint p))
      by (now destruct (Pos.to_uint p)).
    cbn [list_ascii_of_string]. fold (digits_of (Pos.to_uint p)).
    pose proof (digits_of_digits (Pos.to_uint p)) as Hd.
    rewrite strip_no_space
      by (simpl; now rewrite (digits_no_space _ Hd)).
    change (Ascii.eqb "-" "-") with true. cbv iota.
    destruct (digits_of_nonnil _ Hn) as (c & l & E).
    pose proof (int_digits_uint (Pos.to_uint p)) as Hv.
    rewrite E in Hd, Hv |- *. simpl in Hd. apply andb_true_iff in Hd.
    destruct Hd as [Hc _].
    unfold is_digit in Hc. destruct (digit_val c) as [v|] eqn:Ev; [|discriminate].
    rewrite (int_digits_first 0 c l v Ev), Hv.
    now rewrite DecimalPos.Unsigned.of_to.
Qed.

Lemma str_inj (a b : Z) : str a = str b -> a = b.
Proof.
  intro H. pose proof (int_of_str_str a) as Ha.
  rewrite H, int_of_str_str in Ha. now inversion Ha.
Qed.

Lemma safe_int_str (n : Z) : safe_int (JStr (str n)) = Returns (Some n).
Proof.
  unfold safe_int, safe_int_try.
  destruct (in_N_0 (JStr (str n))) eqn:E.
  - simpl in E. apply orb_true_iff in E. destruct E as [E|E];
      apply String.eqb_eq in E.
    + pose proof (str_starts_numeric n) as H. rewrite E in H. discriminate H.
    + change "0" with (str 0) in E. apply str_inj in E. now subst.
  - simpl. now rewrite int_of_str_str.
Qed.

(** ** The year range *)

Lemma year_range_In (cy y : Z) :
  In y (year_range cy) <-> START_YEAR <= y <= cy - 2.
Proof.
  unfold year_range, START_YEAR. rewrite in_map_iff. split.
  - intros (i & <- & Hi). apply in_seq in Hi. lia.
  - intros H. exists (Z.to_nat (y - 2010)). split; [lia|].
    apply in_seq. lia.
Qed.

Lemma year_range_length (cy : Z) :
  length (year_range cy) = Z.to_nat (cy - 1 - START_YEAR).
Proof.
  unfold year_range, START_YEAR. rewrite length_map, length_seq. f_equal. lia.
Qed.

Lemma seq_shift_sorted (n : nat) :
  forall k, StronglySorted Z.lt (map (fun i => START_YEAR + Z.of_nat i) (seq k n)).
Proof.
  induction n as [|n IH]; intro k; cbn [seq map]; constructor.
  - apply IH.
  - apply Forall_forall. intros y Hy. apply in_map_iff in Hy.
    destruct Hy as (i & <- & Hi). apply in_seq in Hi. unfold START_YEAR. lia.
Qed.

Lemma year_range_sorted (cy : Z) : StronglySorted Z.lt (year_range cy).
Proof. apply seq_shift_sorted. Qed.

Lemma filter_sorted {A : Type} (R : A -> A -> Prop) (f : A -> bool) (l : list A) :
  StronglySorted R l -> StronglySorted R (filter f l).
Proof.
  induction 1 as [|x l Hs IH Hx]; simpl; [constructor|].
  destruct (f x); [|exact IH]. constructor; [exact IH|].
  apply Forall_forall. intros y Hy. apply filter_In in Hy.
  rewrite Forall_forall in Hx. now apply Hx.
Qed.

Section LoopFacts.
Variable API_KEY : string.
Variable requests_get : string -> outcome http_response.

Lemma fetch_all_successful (years : list Z) :
  successful_years (fetch_all API_KEY requests_get years)
  = filter (succeeds API_KEY requests_get) years.
Proof. unfold fetch_all. now rewrite fetch_loop_successful. Qed.

End LoopFacts.

(** ** Year columns of the renamed pivot *)

Lemma get_col_raises (fr : frame) (k : string) (e : exn) :
  get_col fr k = Raises e -> e = KeyError.
Proof.
  unfold get_col. destruct (find _ fr); [discriminate|]. now intros [= <-].
Qed.

Lemma str_eqb (a b : Z) : (str a =? str b)%string = (a =? b).
Proof.
  destruct (Z.eqb_spec a b) as [->|N].
  - apply String.eqb_refl.
  - apply String.eqb_neq. intro E. now apply str_inj in E.
Qed.

Section YearColumns.
Variable succ : list Z.
Variable g : Z -> list pyval.

Lemma find_year_column (y : Z) (cols : list Z) :
  In y succ -> In y cols ->
  find (fun c => label_eqb (fst c) (LStr (str y)))
       (map (fun y' => (rename_label succ (LInt y'), g y')) cols)
  = Some (LStr (str y), g y).
Proof.
  intros Hs. induction cols as [|y' cols IH]; intro Hy; [contradiction|].
  cbn [map find fst rename_label].
  destruct (existsb (Z.eqb y') succ) eqn:E.
  - rewrite label_eqb_str, str_eqb.
    destruct (Z.eqb_spec y' y) as [->|N]; [reflexivity|].
    apply IH. destruct Hy; [contradiction | assumption].
  - cbn [label_eqb].
    apply IH. destruct Hy as [->|]; [|assumption].
    exfalso. assert (X : existsb (Z.eqb y) succ = true).
    { apply existsb_exists. exists y. split; [auto | apply Z.eqb_refl]. }
    congruence.
Qed.

Lemma find_no_year_column (y : Z) (cols : list Z) :
  ~ In y cols ->
  find (fun c => label_eqb (fst c) (LStr (str y)))
       (map (fun y' => (rename_label succ (LInt y'), g y')) cols)
  = None.
Proof.
  induction cols as [|y' cols IH]; intro Hy; [reflexivity|].
  cbn [map find fst rename_label].
  destruct (existsb (Z.eqb y') succ) eqn:E.
  - rewrite label_eqb_str, str_eqb.
    destruct (Z.eqb_spec y' y) as [->|N]; [exfalso; apply Hy; now left|].
    apply IH. intro H. apply Hy. now right.
  - cbn [label_eqb]. apply IH. intro H. apply Hy. now right.
Qed.

End YearColumns.

Section YearColumnFacts.
Variable succ : list Z.
Variable df : list YearlyRecord.
Variable pv : frame.
Hypothesis Hpv : pivot df = Returns pv.

(** The column of a successful year that has a record. *)
Lemma rename_pivot_year_col (y : Z) :
  In y succ -> In y (pivot_columns df) ->
  get_col (rename succ pv) (str y)
  = Returns (map (fun m => cell df m y) (pivot_index df)).
Proof.
  intros Hs Hy. unfold get_col. rewrite (rename_pivot succ df pv Hpv).
  cbn [find fst]. rewrite label_eqb_str.
  replace ("Municipio" =? str y)%string with false
    by (symmetry; apply String.eqb_neq; intro E; symmetry in E; revert E; key_neq).
  now rewrite (find_year_column succ _ y _ Hs Hy).
Qed.

(** A year without a record has no column. *)
Lemma rename_pivot_no_col (y : Z) :
  ~ In y (pivot_columns df) ->
  get_col (rename succ pv) (str y) = Raises KeyError.
Proof.
  intros Hy. unfold get_col. rewrite (rename_pivot succ df pv Hpv).
  cbn [find fst]. rewrite label_eqb_str.
  replace ("Municipio" =? str y)%string with false
    by (symmetry; apply String.eqb_neq; intro E; symmetry in E; revert E; key_neq).
  now rewrite (find_no_year_column succ _ y _ Hy).
Qed.

Lemma year_col_numeric (y : Z) :
  all_numeric (map (fun m => cell df m y) (pivot_index df)).
Proof.
  apply Forall_forall. intros v Hv. apply in_map_iff in Hv.
  destruct Hv as (m & <- & _). apply cell_numeric.
Qed.

End YearColumnFacts.

(** ** When the change columns raise *)

Lemma change_columns_missing (first prev last : Z) (fr : frame) :
  (forall y col, In y [first; prev; last] ->
     get_col fr (str y) = Returns col -> all_numeric col) ->
  (exists y, In y [first; prev; last] /\ get_col fr (str y) = Raises KeyError) ->
  change_columns (str first) (str prev) (str last) fr = Raises KeyError.
Proof.
  intros Hnum Hmiss.
  assert (Hcase : forall y, In y [first; prev; last] ->
            get_col fr (str y) = Raises KeyError
            \/ exists col, get_col fr (str y) = Returns col /\ all_numeric col).
  { intros y Hy. destruct (get_col fr (str y)) as [col|e] eqn:E.
    - right. exists col. split; [reflexivity | now apply (Hnum y)].
    - left. now rewrite (get_col_raises _ _ _ E). }
  unfold change_columns.
  destruct (Hcase last) as [Gl|(l & Gl & Nl)]; [simpl; auto| |];
    rewrite Gl; cbv beta iota zeta delta [bind]; [reflexivity|].
  destruct (Hcase prev) as [Gp|(p & Gp & Np)]; [simpl; auto| |];
    rewrite Gp; cbv beta iota zeta delta [bind]; [reflexivity|].
  destruct (Hcase first) as [Gf|(f & Gf & Nf)]; [simpl; auto| |].
  - destruct (col_op_numeric num_sub num_sub_numeric l p Nl Np) as (c & Hc & Nc).
    destruct (col_op_numeric num_div num_div_numeric c p Nc Np) as (q & Hq & Nq).
    destruct (col_scale_numeric (JInt 100) eq_refl q Nq) as (pc & Hpc & _).
    rewrite Hc. cbv beta iota zeta delta [bind].
    rewrite get_col_set_col_same. cbv beta iota zeta delta [bind].
    rewrite !(get_col_set_col_other _ _ (str prev)) by key_neq.
    rewrite Gp. cbv beta iota zeta delta [bind].
    rewrite Hq. cbv beta iota zeta delta [bind].
    rewrite Hpc. cbv beta iota zeta delta [bind].
    rewrite !(get_col_set_col_other _ _ (str last)) by key_neq.
    rewrite Gl. cbv beta iota zeta delta [bind].
    rewrite !(get_col_set_col_other _ _ (str first)) by key_neq.
    rewrite Gf. reflexivity.
  - exfalso. destruct Hmiss as (y & Hy & E).
    simpl in Hy. destruct Hy as [<-|[<-|[<-|[]]]]; congruence.
Qed.

(** ** Indexing the successful years *)

Lemma py_index_shapes (l front tail : list Z) (first prev last : Z) :
  l = first :: tail -> l = (front ++ [prev; last])%list ->
  py_index l 0 = Returns first
  /\ py_index l (-2) = Returns prev
  /\ py_index l (-1) = Returns last.
Proof.
  intros Hf Hl. split; [|split].
  - rewrite Hf. unfold py_index. cbn [length].
    rewrite Nat2Z.inj_succ.
    replace (0 <? 0) with false by reflexivity.
    replace ((0 <? 0) || (Z.succ (Z.of_nat (length tail)) <=? 0)) with false
      by (symmetry; apply orb_false_iff; split; [reflexivity | apply Z.leb_gt; lia]).
    reflexivity.
  - rewrite Hl. unfold py_index. rewrite length_app. cbn [length].
    replace (-2 <? 0) with true by reflexivity.
    set (n := Z.of_nat (length front + 2)).
    assert (Hn : -2 + n = Z.of_nat (length front)) by (unfold n; lia).
    rewrite Hn.
    replace ((Z.of_nat (length front) <? 0) || (n <=? Z.of_nat (length front)))
      with false
      by (symmetry; apply orb_false_iff; split;
          [apply Z.ltb_ge | apply Z.leb_gt; unfold n]; lia).
    rewrite Nat2Z.id, nth_error_app2 by lia.
    now rewrite Nat.sub_diag.
  - rewrite Hl. unfold py_index. rewrite length_app. cbn [length].
    replace (-1 <? 0) with true by reflexivity.
    set (n := Z.of_nat (length front + 2)).
    assert (Hn : -1 + n = Z.of_nat (S (length front))) by (unfold n; lia).
    rewrite Hn.
    replace ((Z.of_nat (S (length front)) <? 0) || (n <=? Z.of_nat (S (length front))))
      with false
      by (symmetry; apply orb_false_iff; split;
          [apply Z.ltb_ge | apply Z.leb_gt; unfold n]; lia).
    rewrite Nat2Z.id, nth_error_app2 by lia.
    replace (S (length front) - length front)%nat with 1%nat by lia.
    reflexivity.
Qed.

Lemma two_or_more_shapes (l : list Z) :
  (2 <= length l)%nat ->
  exists first tail front prev last,
    l = first :: tail /\ l = (front ++ [prev; last])%list.
Proof.
  intro H. destruct l as [|first tail]; [simpl in H; lia|].
  exists first, tail.
  destruct (exists_last (l := first :: tail)) as (l1 & last & E1); [discriminate|].
  destruct l1 as [|x l1'] eqn:El1.
  - rewrite E1 in H. simpl in H. lia.
  - destruct (exists_last (l := l1)) as (front & prev & E2); [now rewrite El1|].
    exists front, prev, last. split; [reflexivity|].
    rewrite E1, <- El1, E2, <- app_assoc. reflexivity.
Qed.

(** ** How [derive] and [build] end *)

Lemma shapes_In (l front tail : list Z) (first prev last : Z) :
  l = first :: tail -> l = (front ++ [prev; last])%list ->
  In first l /\ In prev l /\ In last l.
Proof.
  intros Hf Hl. split; [rewrite Hf; now left|].
  rewrite Hl. split; apply in_or_app; right; simpl; auto.
Qed.

Section DeriveOutcome.
Variable succ : list Z.
Variable df : list YearlyRecord.
Variable pv : frame.
Variables (first prev last : Z) (front tail : list Z).
Hypothesis Hpv : pivot df = Returns pv.
Hypothesis Hfirst : succ = first :: tail.
Hypothesis Hlast : succ = (front ++ [prev; last])%list.

Lemma derive_returns :
  In first (pivot_columns df) -> In prev (pivot_columns df) ->
  In last (pivot_columns df) ->
  exists wide,
    change_columns (str first) (str prev) (str last) (rename succ pv) = Returns wide
    /\ derive succ pv
       = Returns (placeholders succ (str first) (str prev) (str last) wide).
Proof.
  intros Cf Cp Cl.
  destruct (shapes_In _ _ _ _ _ _ Hfirst Hlast) as (Sf & Sp & Sl).
  destruct (py_index_shapes _ _ _ _ _ _ Hfirst Hlast) as (If & Ip & Il).
  destruct (change_columns_total first prev last (rename succ pv)
              _ _ _
              (rename_pivot_year_col succ df pv Hpv first Sf Cf)
              (year_col_numeric df first)
              (rename_pivot_year_col succ df pv Hpv prev Sp Cp)
              (year_col_numeric df prev)
              (rename_pivot_year_col succ df pv Hpv last Sl Cl)
              (year_col_numeric df last)) as (wide & Hw).
  exists wide. split; [exact Hw|].
  unfold derive. rewrite If, Ip, Il. cbv beta iota zeta delta [bind].
  now rewrite Hw.
Qed.

Lemma derive_raises :
  ~ (In first (pivot_columns df) /\ In prev (pivot_columns df)
     /\ In last (pivot_columns df)) ->
  derive succ pv = Raises KeyError.
Proof.
  intros Hnot.
  destruct (shapes_In _ _ _ _ _ _ Hfirst Hlast) as (Sf & Sp & Sl).
  destruct (py_index_shapes _ _ _ _ _ _ Hfirst Hlast) as (If & Ip & Il).
  unfold derive. rewrite If, Ip, Il. cbv beta iota zeta delta [bind].
  rewrite change_columns_missing; [reflexivity| |].
  - intros y col Hy Hcol.
    destruct (in_dec Z.eq_dec y (pivot_columns df)) as [Hin|Hout].
    + assert (Hs : In y succ)
        by (simpl in Hy; destruct Hy as [<-|[<-|[<-|[]]]]; assumption).
      rewrite (rename_pivot_year_col succ df pv Hpv y Hs Hin) in Hcol.
      injection Hcol as <-. apply year_col_numeric.
    + rewrite (rename_pivot_no_col succ df pv Hpv y Hout) in Hcol. discriminate.
  - destruct (in_dec Z.eq_dec first (pivot_columns df)) as [Cf|Cf];
      [|exists first; split; [simpl; auto | now apply rename_pivot_no_col with (df := df)]].
    destruct (in_dec Z.eq_dec prev (pivot_columns df)) as [Cp|Cp];
      [|exists prev; split; [simpl; auto | now apply rename_pivot_no_col with (df := df)]].
    destruct (in_dec Z.eq_dec last (pivot_columns df)) as [Cl|Cl];
      [|exists last; split; [simpl; auto | now apply rename_pivot_no_col with (df := df)]].
    exfalso. apply Hnot. auto.
Qed.

End DeriveOutcome.

Lemma frame_columns (recs : list YearlyRecord) (y : Z) :
  In y (pivot_columns (with_island (dropna (sort_by record_leb recs))))
  <-> In y (counted_years recs).
Proof.
  rewrite with_island_years. unfold counted_years. rewrite !in_map_iff.
  split; intros (r & E & Hr); exists r; (split; [exact E|]).
  - apply dropna_sort_In in Hr. apply filter_In. exact Hr.
  - apply dropna_sort_In. apply filter_In in Hr. exact Hr.
Qed.

Lemma frame_pivot_returns (recs : list YearlyRecord) :
  (forall r, In r recs -> Municipio r <> "Puerto Rico") ->
  NoDup (map pivot_key (dropna recs)) ->
  exists pv, pivot (with_island (dropna (sort_by record_leb recs))) = Returns pv.
Proof.
  intros Hno Hnd. unfold pivot.
  replace (has_duplicates _) with false; [eauto|].
  symmetry. apply has_duplicates_NoDup, with_island_NoDup.
  - intros r Hr. apply dropna_sort_In in Hr. now apply Hno.
  - eapply Permutation_NoDup; [|exact Hnd].
    symmetry. apply frame_keys_perm.
Qed.

Lemma frame_pivot_raises (recs : list YearlyRecord) :
  ~ NoDup (map pivot_key (dropna recs)) ->
  pivot (with_island (dropna (sort_by record_leb recs))) = Raises ValueError.
Proof.
  intros Hnd. unfold pivot.
  destruct (has_duplicates _) eqn:E; [reflexivity|].
  exfalso. apply Hnd. apply has_duplicates_NoDup in E.
  unfold with_island in E. rewrite map_app in E.
  apply NoDup_app_remove_r in E.
  eapply Permutation_NoDup; [|exact E]. apply frame_keys_perm.
Qed.

Lemma build_repeated (updated : string) (st : fetched) :
  ~ NoDup (map pivot_key (dropna (records st))) ->
  build updated st = Raises ValueError.
Proof.
  intro Hnd. unfold build, build_frame.
  destruct (records st) as [|r recs] eqn:E.
  - exfalso. apply Hnd. constructor.
  - cbv beta iota zeta delta [bind]. rewrite (frame_pivot_raises _ Hnd). reflexivity.
Qed.

Section BuildOutcome.
Variable updated : string.
Variable st : fetched.
Variables (first prev last : Z) (front tail : list Z).
Hypothesis Hfirst : successful_years st = first :: tail.
Hypothesis Hlast : successful_years st = (front ++ [prev; last])%list.
Hypothesis Hnames : forall r, In r (records st) -> Municipio r <> "Puerto Rico".

Lemma build_missing_year :
  NoDup (map pivot_key (dropna (records st))) ->
  ~ (In first (counted_years (records st)) /\ In prev (counted_years (records st))
     /\ In last (counted_years (records st))) ->
  build updated st = Raises KeyError.
Proof.
  intros Hnd Hnot.
  destruct (frame_pivot_returns _ Hnames Hnd) as (pv & Hpv).
  unfold build, build_frame.
  destruct (records st) as [|r recs] eqn:E; [reflexivity|].
  cbv beta iota zeta delta [bind]. rewrite Hpv.
  rewrite (derive_raises _ _ _ _ _ _ _ _ Hpv Hfirst Hlast); [reflexivity|].
  rewrite !frame_columns. exact Hnot.
Qed.

Lemma build_returns :
  NoDup (map pivot_key (dropna (records st))) ->
  In first (counted_years (records st)) ->
  In prev (counted_years (records st)) ->
  In last (counted_years (records st)) ->
  exists content, build updated st = Returns (file_name (str last), content).
Proof.
  intros Hnd Cf Cp Cl.
  destruct (frame_pivot_returns _ Hnames Hnd) as (pv & Hpv).
  unfold build, build_frame.
  destruct (records st) as [|r recs] eqn:E; [contradiction|].
  cbv beta iota zeta delta [bind]. rewrite Hpv.
  destruct (derive_returns _ _ _ _ _ _ _ _ Hpv Hfirst Hlast) as (wide & _ & Hd);
    try (apply frame_columns; assumption).
  rewrite Hd.
  destruct (py_index_shapes _ _ _ _ _ _ Hfirst Hlast) as (_ & _ & Il).
  rewrite Il. eauto.
Qed.

End BuildOutcome.

Section RunOutcome.
Variable API_KEY : string.
Variable requests_get : string -> outcome http_response.
Variable current_year : Z.
Variable updated : string.

Let st := fetch_all API_KEY requests_get (year_range current_year).

Lemma run_range_short :
  current_year < 2013 ->
  run API_KEY requests_get current_year updated = Uncaught RuntimeError.
Proof.
  intro H. unfold run.
  destruct (Nat.ltb_spec (length (year_range current_year)) 2) as [_|L];
    [reflexivity|].
  rewrite year_range_length in L. unfold START_YEAR in L. lia.
Qed.

Lemma run_range_long :
  2013 <= current_year ->
  run API_KEY requests_get current_year updated
  = if (length (successful_years st) <? 2)%nat then Exit 0
    else match build updated st with
         | Returns (name, content) => Saved name content
         | Raises e => Uncaught e
         end.
Proof.
  intro H. unfold run.
  destruct (Nat.ltb_spec (length (year_range current_year)) 2) as [L|_];
    [|reflexivity].
  rewrite year_range_length in L. unfold START_YEAR in L. lia.
Qed.

Lemma run_names (r : YearlyRecord) :
  In r (records st) -> Municipio r <> "Puerto Rico".
Proof. intro H. now apply fetch_all_records in H. Qed.

Lemma run_cases :
  (current_year < 2013
   /\ run API_KEY requests_get current_year updated = Uncaught RuntimeError)
  \/ (2013 <= current_year /\ (length (successful_years st) < 2)%nat
      /\ run API_KEY requests_get current_year updated = Exit 0)
  \/ exists first prev last front tail,
       2013 <= current_year
       /\ successful_years st = first :: tail
       /\ successful_years st = (front ++ [prev; last])%list
       /\ ((~ NoDup (map pivot_key (dropna (records st)))
            /\ run API_KEY requests_get current_year updated = Uncaught ValueError)
           \/ (NoDup (map pivot_key (dropna (records st)))
               /\ ~ (In first (counted_years (records st))
                     /\ In prev (counted_years (records st))
                     /\ In last (counted_years (records st)))
               /\ run API_KEY requests_get current_year updated = Uncaught KeyError)
           \/ (NoDup (map pivot_key (dropna (records st)))
               /\ In first (counted_years (records st))
               /\ In prev (counted_years (records st))
               /\ In last (counted_years (records st))
               /\ exists content,
                    run API_KEY requests_get current_year updated
                    = Saved (file_name (str last)) content)).
Proof.
  destruct (Z_lt_le_dec current_year 2013) as [Hy|Hy].
  { left. split; [exact Hy | now apply run_range_short]. }
  right. rewrite (run_range_long Hy).
  destruct (Nat.ltb_spec (length (successful_years st)) 2) as [L|L].
  { left. auto. }
  right.
  destruct (two_or_more_shapes _ L) as (first & tail & front & prev & last & Hf & Hl).
  exists first, prev, last, front, tail.
  split; [exact Hy|]. split; [exact Hf|]. split; [exact Hl|].
  destruct (ListDec.NoDup_dec
              (fun a b : string * Z =>
                 match string_dec (fst a) (fst b), Z.eq_dec (snd a) (snd b) with
                 | left E1, left E2 =>
                     left (eq_trans (surjective_pairing a)
                            (eq_trans (f_equal2 pair E1 E2)
                               (eq_sym (surjective_pairing b))))
                 | right N, _ => right (fun E => N (f_equal fst E))
                 | _, right N => right (fun E => N (f_equal snd E))
                 end)
              (map pivot_key (dropna (records st)))) as [Hnd|Hnd].
  2:{ left. split; [exact Hnd|].
      now rewrite (build_repeated updated st Hnd). }
  right.
  destruct (in_dec Z.eq_dec first (counted_years (records st))) as [Cf|Cf].
  2:{ left. split; [exact Hnd|]. split; [tauto|].
      rewrite (build_missing_year updated st _ _ _ _ _ Hf Hl run_names Hnd);
        [reflexivity | tauto]. }
  destruct (in_dec Z.eq_dec prev (counted_years (records st))) as [Cp|Cp].
  2:{ left. split; [exact Hnd|]. split; [tauto|].
      rewrite (build_missing_year updated st _ _ _ _ _ Hf Hl run_names Hnd);
        [reflexivity | tauto]. }
  destruct (in_dec Z.eq_dec last (counted_years (records st))) as [Cl|Cl].
  2:{ left. split; [exact Hnd|]. split; [tauto|].
      rewrite (build_missing_year updated st _ _ _ _ _ Hf Hl run_names Hnd);
        [reflexivity | tauto]. }
  right. split; [exact Hnd|]. repeat (split; [assumption|]).
  destruct (build_returns updated st _ _ _ _ _ Hf Hl run_names Hnd Cf Cp Cl)
    as (content & Hb).
  exists content. now rewrite Hb.
Qed.

End RunOutcome.

(** ** The turns of the loop *)

Lemma emit_rows_app (y : Z) (idx : list pyval) (rows : list pyval) :
  forall acc, emit_rows y idx rows acc = (acc ++ emit_rows y idx rows [])%list.
Proof.
  induction rows as [|row rows IH]; intro acc; simpl.
  - now rewrite app_nil_r.
  - destruct (row_record y idx row) as [[r|]|e].
    + rewrite (IH (acc ++ [r])%list), (IH [r]). now rewrite <- app_assoc.
    + apply IH.
    + now rewrite app_nil_r.
Qed.

Lemma emit_rows_stops (y : Z) (idx : list pyval) (bad : pyval) (e : exn)
    (after : list pyval) :
  row_record y idx bad = Raises e ->
  forall before acc,
    emit_rows y idx (before ++ bad :: after) acc = emit_rows y idx before acc.
Proof.
  intros Hbad. induction before as [|row before IH]; intro acc; simpl.
  - now rewrite Hbad.
  - destruct (row_record y idx row) as [[r|]|e']; auto.
Qed.

Section Turns.
Variable API_KEY : string.
Variable requests_get : string -> outcome http_response.

Lemma fetch_year_app (st : fetched) (y : Z) :
  records (fetch_year API_KEY requests_get st y)
  = (records st ++ records (fetch_year API_KEY requests_get no_fetch y))%list.
Proof.
  unfold fetch_year.
  destruct (parse_reply (requests_get (url API_KEY y))) as [[[idx rows]|]|e];
    simpl; try now rewrite app_nil_r.
  apply emit_rows_app.
Qed.

Lemma fetch_loop_app (years : list Z) :
  forall st,
    records (fetch_loop API_KEY requests_get years st)
    = (records st
       ++ flat_map (fun y => records (fetch_year API_KEY requests_get no_fetch y))
            years)%list.
Proof.
  unfold fetch_loop.
  induction years as [|y years IH]; intro st; simpl.
  - now rewrite app_nil_r.
  - rewrite IH, fetch_year_app. now rewrite <- app_assoc.
Qed.

Lemma fetch_loop_ext (g2 : string -> outcome http_response) (years : list Z) :
  (forall y, In y years -> requests_get (url API_KEY y) = g2 (url API_KEY y)) ->
  forall st,
    fetch_loop API_KEY requests_get years st = fetch_loop API_KEY g2 years st.
Proof.
  unfold fetch_loop.
  induction years as [|y years IH]; intros H st; simpl; [reflexivity|].
  replace (fetch_year API_KEY g2 st y) with (fetch_year API_KEY requests_get st y).
  - apply IH. intros y' Hy'. apply H. now right.
  - unfold fetch_year. rewrite (H y); [reflexivity | now left].
Qed.

Lemma succeeds_inv (y : Z) :
  succeeds API_KEY requests_get y = true <->
  exists r data header row rows keys,
    requests_get (url API_KEY y) = Returns r
    /\ status_code r = 200
    /\ json r = Returns data
    /\ py_iter data = Returns (header :: row :: rows)
    /\ py_iter header = Returns keys
    /\ forallb hashable keys = true.
Proof.
  unfold succeeds, parse_reply, unpack, index_map. split.
  - destruct (requests_get (url API_KEY y)) as [r|e]; simpl; [|discriminate].
    destruct (Z.eqb_spec (status_code r) 200) as [Hs|Hs]; simpl; [|discriminate].
    destruct (json r) as [data|e] eqn:Ej; simpl; [|discriminate].
    destruct (py_iter data) as [[|header [|row rows]]|e] eqn:Ed; simpl; try discriminate.
    + destruct (py_iter header) as [keys|e]; simpl; [|discriminate].
      destruct (forallb hashable keys); discriminate.
    + destruct (py_iter header) as [keys|e] eqn:Ek; simpl; [|discriminate].
      destruct (forallb hashable keys) eqn:Eh; [|discriminate].
      intros _. exists r, data, header, row, rows, keys. repeat split; auto.
  - intros (r & data & header & row & rows & keys & -> & Hs & Hj & Hd & Hk & Hh).
    simpl. rewrite Hs. simpl. rewrite Hj. simpl. rewrite Hd. simpl.
    rewrite Hk. simpl. now rewrite Hh.
Qed.

Lemma fetch_year_failed (st : fetched) (y : Z) :
  succeeds API_KEY requests_get y = false ->
  fetch_year API_KEY requests_get st y = st.
Proof.
  unfold succeeds, fetch_year.
  destruct (parse_reply (requests_get (url API_KEY y))) as [[[idx rows]|]|e];
    [discriminate | reflexivity | reflexivity].
Qed.

End Turns.

(** ** The columns of the finished frame, one by one *)

Lemma set_col_keeps (fr : frame) (k : string) (col : list pyval) :
  k <> "Municipio" -> length col = nrows fr ->
  well_formed fr -> str_labels fr ->
  well_formed (set_col fr k col) /\ str_labels (set_col fr k col)
  /\ nrows (set_col fr k col) = nrows fr.
Proof.
  intros Hk Hlen Hwf Hstr. repeat split.
  - now apply set_col_well_formed.
  - now apply set_col_str_labels.
  - now apply set_col_nrows.
Qed.

Lemma change_columns_frame (first prev last : Z) (fr fr' : frame) :
  well_formed fr -> str_labels fr ->
  change_columns (str first) (str prev) (str last) fr = Returns fr' ->
  well_formed fr' /\ str_labels fr' /\ nrows fr' = nrows fr
  /\ forall k,
       ~ In k [change_key (str prev) (str last);
               pct_change_key (str prev) (str last);
               cum_change_key (str first) (str last);
               cum_pct_change_key (str first) (str last)] ->
       get_col fr' k = get_col fr k.
Proof.
  intros Hwf Hstr H.
  destruct (change_columns_returns first prev last _ _ H)
    as (f & p & l & c & q & pc & c2 & q2 & pc2
        & Hf & Hp & Hl & Hc & Hq & Hpc & Hc2 & Hq2 & Hpc2 & ->).
  pose proof (get_col_length _ _ _ Hwf Hf) as Lf.
  pose proof (get_col_length _ _ _ Hwf Hp) as Lp.
  pose proof (get_col_length _ _ _ Hwf Hl) as Ll.
  assert (Lc : length c = nrows fr)
    by (rewrite (col_op_length _ _ _ _ Hc); congruence).
  assert (Lq : length q = nrows fr)
    by (rewrite (col_op_length _ _ _ _ Hq); congruence).
  assert (Lpc : length pc = nrows fr)
    by (rewrite (col_scale_length _ _ _ Hpc); congruence).
  assert (Lc2 : length c2 = nrows fr)
    by (rewrite (col_op_length _ _ _ _ Hc2); congruence).
  assert (Lq2 : length q2 = nrows fr)
    by (rewrite (col_op_length _ _ _ _ Hq2); congruence).
  assert (Lpc2 : length pc2 = nrows fr)
    by (rewrite (col_scale_length _ _ _ Hpc2); congruence).
  destruct (set_col_keeps fr (change_key (str prev) (str last)) c)
    as (W1 & S1 & N1); auto; [key_neq|].
  destruct (set_col_keeps (set_col fr (change_key (str prev) (str last)) c)
              (pct_change_key (str prev) (str last)) pc)
    as (W2 & S2 & N2); auto; [key_neq | congruence |].
  destruct (set_col_keeps
              (set_col (set_col fr (change_key (str prev) (str last)) c)
                 (pct_change_key (str prev) (str last)) pc)
              (cum_change_key (str first) (str last)) c2)
    as (W3 & S3 & N3); auto; [key_neq | congruence |].
  destruct (set_col_keeps
              (set_col (set_col (set_col fr (change_key (str prev) (str last)) c)
                 (pct_change_key (str prev) (str last)) pc)
                 (cum_change_key (str first) (str last)) c2)
              (cum_pct_change_key (str first) (str last)) pc2)
    as (W4 & S4 & N4); auto; [key_neq | congruence |].
  repeat split; auto; [congruence|].
  intros k Hk. simpl in Hk.
  rewrite !get_col_set_col_other; auto; intro E; apply Hk; auto.
Qed.

Lemma fold_set_none_null (keys : list string) :
  forall fr k,
    Forall (fun k' => k' <> "Municipio") keys ->
    well_formed fr -> str_labels fr ->
    In k keys ->
    get_col (fold_left set_none keys fr) k = Returns (repeat JNull (nrows fr)).
Proof.
  induction keys as [|k1 keys IH]; intros fr k Hkeys Hwf Hstr Hin; [contradiction|].
  inversion Hkeys as [|? ? Hk1 Hrest]; subst.
  destruct (set_none_keeps fr k1 Hk1 Hwf Hstr) as (W & S & N).
  cbn [fold_left].
  destruct (in_dec string_dec k keys) as [Hk|Hk].
  - rewrite (IH (set_none fr k1) k Hrest W S Hk). now rewrite N.
  - destruct Hin as [->|Hin]; [|contradiction].
    destruct (fold_set_none keys (set_none fr k) Hrest W S) as (_ & _ & _ & A).
    rewrite (A k Hk). unfold set_none. apply get_col_set_col_same.
Qed.

Lemma str_not_real (n : Z) : String.prefix "Real" (str n) = false.
Proof.
  pose proof (str_starts_numeric n) as Hs.
  destruct (str n) as [|ch s]; [reflexivity|].
  cbn [String.prefix].
  destruct (ascii_dec "R" ch) as [<-|_]; [discriminate Hs|reflexivity].
Qed.

Lemma placeholders_null (succ : list Z) (first prev last : Z) (fr : frame) (k : string) :
  well_formed fr -> str_labels fr ->
  In k (null_keys succ first prev last) ->
  get_col (placeholders succ (str first) (str prev) (str last) fr) k
  = Returns (repeat JNull (nrows fr)).
Proof.
  intros Hwf Hstr Hk. unfold placeholders.
  rewrite (fold_left_map_keys Z set_none real_income_key).
  rewrite <- fold_left_app.
  apply fold_set_none_null; auto.
  apply Forall_forall. intros k' Hk' E. subst k'.
  unfold null_keys in Hk'. apply in_app_or in Hk'. destruct Hk' as [H|H].
  - apply in_map_iff in H. destruct H as (y & H & _). discriminate H.
  - simpl in H. decompose [or] H; try discriminate. contradiction.
Qed.

Lemma derive_frame (succ : list Z) (df : list YearlyRecord) (pv wide : frame) :
  pivot df = Returns pv ->
  (forall y, In y (pivot_columns df) -> In y succ) ->
  derive succ pv = Returns wide ->
  exists first prev last,
    py_index succ 0 = Returns first
    /\ py_index succ (-2) = Returns prev
    /\ py_index succ (-1) = Returns last
    /\ str_labels wide
    /\ nrows wide = length (pivot_index df)
    /\ get_col wide "Municipio" = Returns (map JStr (pivot_index df))
    /\ (forall y, In y (pivot_columns df) ->
          get_col wide (str y)
          = Returns (map (fun m => cell df m y) (pivot_index df)))
    /\ (forall k, In k (null_keys succ first prev last) ->
          get_col wide k = Returns (repeat JNull (length (pivot_index df)))).
Proof.
  intros Hpv Hsub H. unfold derive in H. cbv zeta in H.
  inv_bind H. inv_bind H. inv_bind H. inv_bind H. injection H as <-.
  rename a into first, a0 into prev, a1 into last, a2 into fr.
  pose proof (rename_pivot_well_formed succ df pv Hpv) as Hwf.
  pose proof (rename_pivot_str_labels succ df pv Hpv Hsub) as Hstr.
  pose proof (rename_pivot_nrows succ df pv Hpv) as Hn.
  destruct (change_columns_frame first prev last _ _ Hwf Hstr Ha2)
    as (W & S & N & Hget).
  destruct (placeholders_keeps succ (str first) (str prev) (str last) fr W S)
    as (Wfw & Stw & Nw & Hkeep).
  exists first, prev, last.
  repeat match goal with |- _ /\ _ => split end; auto; try congruence.
  - rewrite Hkeep by reflexivity. rewrite Hget.
    + rewrite (rename_pivot succ df pv Hpv). reflexivity.
    + simpl. intros [E|[E|[E|[E|[]]]]]; discriminate E.
  - intros y Hy. rewrite Hkeep by apply str_not_real. rewrite Hget.
    + apply (rename_pivot_year_col succ df pv Hpv y (Hsub y Hy) Hy).
    + simpl. intros [E|[E|[E|[E|[]]]]]; revert E; apply not_eq_sym; key_neq.
  - intros k Hk. rewrite (placeholders_null succ first prev last fr k W S Hk).
    congruence.
Qed.

(** ** Cells of the pivot *)

Lemma find_all_false {A : Type} (f : A -> bool) (l : list A) :
  (forall x, In x l -> f x = false) -> find f l = None.
Proof.
  induction l as [|x l IH]; intro H; simpl; [reflexivity|].
  rewrite (H x) by now left. apply IH. intros y Hy. apply H. now right.
Qed.

Lemma NoDup_map_eq {A B : Type} (f : A -> B) (l : list A) (a b : A) :
  NoDup (map f l) -> In a l -> In b l -> f a = f b -> a = b.
Proof.
  induction l as [|x l IH]; intros Hnd Ha Hb E; [contradiction|].
  simpl in Hnd. inversion Hnd as [|? ? Hx Hl]; subst.
  destruct Ha as [->|Ha], Hb as [->|Hb]; auto.
  - exfalso. apply Hx. rewrite E. now apply in_map.
  - exfalso. apply Hx. rewrite <- E. now apply in_map.
Qed.

Lemma cell_of_record (df : list YearlyRecord) (r : YearlyRecord) :
  NoDup (map pivot_key df) -> In r df ->
  cell df (Municipio r) (year r)
  = match Establishments r with
    | Some n => JInt n
    | None => JFloat nan
    end.
Proof.
  intros Hnd Hr. unfold cell.
  destruct (find _ df) as [r'|] eqn:E.
  - apply find_some in E. destruct E as [Hr' E]. apply same_key_eq in E.
    now rewrite (NoDup_map_eq pivot_key df r' r Hnd Hr' Hr E).
  - exfalso. apply (find_none _ _ E) in Hr.
    assert (T : same_key (pivot_key r) (Municipio r, year r) = true)
      by now apply same_key_eq.
    congruence.
Qed.

Lemma cell_absent (df : list YearlyRecord) (m : string) (y : Z) :
  (forall r, In r df -> pivot_key r <> (m, y)) -> cell df m y = JFloat nan.
Proof.
  intro H. unfold cell. rewrite find_all_false; [reflexivity|].
  intros r Hr. destruct (same_key _ _) eqn:E; [|reflexivity].
  apply same_key_eq in E. now apply H in Hr.
Qed.


Lemma nth_map_in {A B : Type} (f : A -> B) (l : list A) (i : nat) (d : B) (d' : A) :
  (i < length l)%nat -> nth i (map f l) d = f (nth i l d').
Proof.
  intro H. rewrite nth_indep with (d' := f d') by (now rewrite length_map).
  apply map_nth.
Qed.

Lemma nth_repeat_null (i n : nat) : nth i (repeat JNull n) JNull = JNull.
Proof.
  revert i. induction n as [|n IH]; intros [|i]; simpl; auto.
Qed.

(** ** The objects of a saved file *)

Section SavedRows.
Variable API_KEY : string.
Variable requests_get : string -> outcome http_response.
Variable current_year : Z.
Variable updated : string.

Let st := fetch_all API_KEY requests_get (year_range current_year).

Lemma saved_rows (name : string) (content : list pyval) :
  run API_KEY requests_get current_year updated = Saved name content ->
  exists first prev last rows,
    let df := dropna (sort_by record_leb (records st)) in
    py_index (successful_years st) 0 = Returns first
    /\ py_index (successful_years st) (-2) = Returns prev
    /\ py_index (successful_years st) (-1) = Returns last
    /\ NoDup (map pivot_key df)
    /\ content = (rows ++ [metadata (successful_years st) updated])%list
    /\ map (fun d => dict_get d "Municipio") rows
       = map (fun m => Some (JStr m)) (pivot_index (with_island df))
    /\ forall d, In d rows ->
         exists m,
           In m (pivot_index (with_island df))
           /\ dict_get d "Municipio" = Some (JStr m)
           /\ (forall y, In y (map year df) ->
                 dict_get d (str y) = Some (cell (with_island df) m y))
           /\ (forall k, In k (null_keys (successful_years st) first prev last) ->
                 dict_get d k = Some JNull).
Proof.
  intro Hrun.
  destruct (run_saved _ _ _ _ _ _ Hrun)
    as (df & pv & wide & last' & _ & _ & Hdf & Hpv & Hwide & _ & _ & ->).
  pose proof (fun y => run_years_fetched API_KEY requests_get current_year df y Hdf)
    as Hsub.
  destruct (derive_frame _ _ _ _ Hpv Hsub Hwide)
    as (first & prev & last & If & Ip & Il & Hstr & Hn & Hm & Hyear & Hnull).
  apply build_frame_returns in Hdf. destruct Hdf as [_ ->].
  exists first, prev, last, (to_dict wide). cbv zeta.
  fold st in Hyear, Hnull, Hm, Hn, Hpv |- *.
  repeat match goal with |- _ /\ _ => split end; auto.
  - destruct (pivot_returns _ _ Hpv) as [Hd _].
    apply has_duplicates_NoDup in Hd. unfold with_island in Hd.
    rewrite map_app in Hd. now apply NoDup_app_remove_r in Hd.
  - now apply to_dict_names.
  - intros d Hd. apply to_dict_In in Hd. destruct Hd as (i & Hi & ->).
    rewrite Hn in Hi.
    exists (nth i (pivot_index (with_island (dropna (sort_by record_leb (records st))))) "").
    repeat match goal with |- _ /\ _ => split end.
    + now apply nth_In.
    + rewrite (dict_get_row wide "Municipio" _ i Hstr Hm).
      f_equal. now apply nth_map_in.
    + intros y Hy. apply with_island_years in Hy.
      rewrite (dict_get_row wide (str y) _ i Hstr (Hyear y Hy)).
      f_equal. now apply (nth_map_in (fun m => cell _ m y)).
    + intros k Hk. rewrite (dict_get_row wide k _ i Hstr (Hnull k Hk)).
      f_equal. apply nth_repeat_null.
Qed.

End SavedRows.

(** ** Removing the suffix of a name *)

Lemma prefix_get (p : string) :
  forall s k c, String.prefix p s = true -> String.get k p = Some c ->
                String.get k s = Some c.
Proof.
  induction p as [|a p IH]; intros s k c Hp Hg; [discriminate Hg|].
  destruct s as [|b s]; [discriminate Hp|]. simpl in Hp.
  destruct (ascii_dec a b) as [<-|]; [|discriminate Hp].
  destruct k as [|k]; simpl in *; [exact Hg|]. now apply IH.
Qed.

Lemma get_no_comma (n : string) :
  forall k, no_comma n = true -> String.get k n <> Some ","%char.
Proof.
  induction n as [|c n IH]; intros k H; [destruct k; discriminate|].
  simpl in H. apply andb_true_iff in H. destruct H as [Hc Hn].
  destruct k as [|k]; simpl.
  - intros [= ->]. discriminate Hc.
  - now apply IH.
Qed.

Lemma get_before_comma (n : string) :
  forall k, n <> EmptyString -> no_comma n = true -> (k <= 10)%nat ->
            String.get k (n ++ SUFFIX) <> Some ","%char.
Proof.
  induction n as [|c n IH]; intros k Hne H Hk; [contradiction|].
  simpl in H. apply andb_true_iff in H. destruct H as [Hc Hn].
  destruct k as [|k]; cbn [append String.get].
  - intros [= ->]. discriminate Hc.
  - destruct n as [|c' n'].
    + cbn [append]. unfold SUFFIX.
      do 10 (destruct k as [|k]; [discriminate|]). lia.
    + apply IH; [discriminate | exact Hn | lia].
Qed.

Lemma no_comma_no_prefix (s : string) :
  String.get 10 s <> Some ","%char -> String.prefix SUFFIX s = false.
Proof.
  intro H. destruct (String.prefix SUFFIX s) eqn:E; [|reflexivity].
  exfalso. apply H. now apply (prefix_get SUFFIX s 10 ","%char E).
Qed.

Lemma remove_plain (n : string) :
  no_comma n = true -> remove_from SUFFIX O n = n.
Proof.
  induction n as [|c n IH]; intro H; [reflexivity|].
  cbn [remove_from].
  rewrite no_comma_no_prefix by (now apply get_no_comma).
  simpl in H. apply andb_true_iff in H. destruct H as [_ Hn].
  now rewrite IH.
Qed.

Lemma remove_suffixed (n : string) :
  no_comma n = true -> remove_from SUFFIX O (n ++ SUFFIX) = n.
Proof.
  induction n as [|c n IH]; intro H; [reflexivity|].
  cbn [append remove_from].
  change (String c (n ++ SUFFIX)) with ((String c n ++ SUFFIX)%string).
  rewrite no_comma_no_prefix
    by (apply get_before_comma; [discriminate | exact H | lia]).
  simpl in H. apply andb_true_iff in H. destruct H as [_ Hn].
  now rewrite IH.
Qed.

(** ** Sorted lists with the same elements *)

Section SortedUnique.
Variable A : Type.
Variable cmp : A -> A -> comparison.
Hypothesis cmp_eq : forall x y, cmp x y = Eq -> x = y.
Hypothesis cmp_antisym : forall x y, cmp x y = CompOpp (cmp y x).
Hypothesis cmp_trans : forall x y z, cmp x y = Lt -> cmp y z = Lt -> cmp x z = Lt.

Lemma sorted_same_elements (l1 : list A) :
  forall l2,
    StronglySorted (fun x y => cmp x y = Lt) l1 ->
    StronglySorted (fun x y => cmp x y = Lt) l2 ->
    (forall x, In x l1 <-> In x l2) -> l1 = l2.
Proof.
  assert (Irr : forall x, cmp x x <> Lt).
  { intros x E. rewrite (cmp_refl A cmp cmp_antisym x) in E. discriminate E. }
  induction l1 as [|a l1 IH]; intros [|b l2] S1 S2 H.
  - reflexivity.
  - exfalso. apply (proj2 (H b)). now left.
  - exfalso. apply (proj1 (H a)). now left.
  - inversion S1 as [|? ? S1' F1]; subst. inversion S2 as [|? ? S2' F2]; subst.
    rewrite Forall_forall in F1, F2.
    assert (E : a = b).
    { destruct (proj1 (H a) (or_introl eq_refl)) as [E|Ha]; [now symmetry|].
      destruct (proj2 (H b) (or_introl eq_refl)) as [E|Hb]; [exact E|].
      exfalso. apply (Irr a). eapply cmp_trans; [apply (F1 b Hb) | apply (F2 a Ha)]. }
    subst b. f_equal. apply IH; auto.
    intro x. split; intro Hx.
    + destruct (proj1 (H x) (or_intror Hx)) as [E|Hx']; [|exact Hx'].
      subst x. exfalso. apply (Irr a), (F1 a Hx).
    + destruct (proj2 (H x) (or_intror Hx)) as [E|Hx']; [|exact Hx'].
      subst x. exfalso. apply (Irr a), (F2 a Hx).
Qed.

Lemma sort_uniq_same_elements (l l' : list A) :
  (forall x, In x l <-> In x l') -> sort_uniq cmp l = sort_uniq cmp l'.
Proof.
  intro H. apply sorted_same_elements.
  - apply (sort_uniq_sorted A cmp cmp_eq cmp_antisym cmp_trans).
  - apply (sort_uniq_sorted A cmp cmp_eq cmp_antisym cmp_trans).
  - intro x. rewrite !(sort_uniq_In A cmp cmp_eq). apply H.
Qed.

End SortedUnique.

Lemma pivot_index_same (df df' : list YearlyRecord) :
  (forall m, In m (map Municipio df) <-> In m (map Municipio df')) ->
  pivot_index df = pivot_index df'.
Proof.
  apply (sort_uniq_same_elements string String.compare String.compare_eq_iff
           String.compare_antisym string_compare_trans).
Qed.

Lemma pivot_columns_same (df df' : list YearlyRecord) :
  (forall y, In y (map year df) <-> In y (map year df')) ->
  pivot_columns df = pivot_columns df'.
Proof.
  apply (sort_uniq_same_elements Z Z.compare Z_compare_eq
           (fun x y => Z.compare_antisym y x) Z_compare_trans).
Qed.

(** ** Records in another order *)

Lemma perm_In_map {A B : Type} (f : A -> B) (l l' : list A) (x : B) :
  Permutation l l' -> (In x (map f l) <-> In x (map f l')).
Proof.
  intro P. split; apply Permutation_in, Permutation_map;
    [exact P | now symmetry].
Qed.

Lemma cell_perm (df df' : list YearlyRecord) (m : string) (y : Z) :
  NoDup (map pivot_key df) -> Permutation df df' ->
  cell df m y = cell df' m y.
Proof.
  intros Hnd P.
  assert (Hnd' : NoDup (map pivot_key df'))
    by (eapply Permutation_NoDup; [apply Permutation_map, P | exact Hnd]).
  destruct (find (fun r => same_key (pivot_key r) (m, y)) df) as [r|] eqn:E.
  - apply find_some in E. destruct E as [Hr E]. apply same_key_eq in E.
    injection E as <- <-.
    rewrite (cell_of_record df r Hnd Hr).
    now rewrite (cell_of_record df' r Hnd' (Permutation_in r P Hr)).
  - rewrite (cell_absent df), (cell_absent df'); [reflexivity| |].
    + intros r Hr K. apply Permutation_sym in P.
      apply (Permutation_in r P) in Hr. apply (find_none _ _ E) in Hr.
      apply same_key_eq in K. congruence.
    + intros r Hr K. apply (find_none _ _ E) in Hr.
      apply same_key_eq in K. congruence.
Qed.

Lemma pivot_perm (df df' : list YearlyRecord) :
  Permutation df df' -> pivot df = pivot df'.
Proof.
  intro P. unfold pivot.
  assert (Hk : Permutation (map pivot_key df) (map pivot_key df'))
    by now apply Permutation_map.
  destruct (has_duplicates (map pivot_key df)) eqn:D;
    destruct (has_duplicates (map pivot_key df')) eqn:D'; try reflexivity.
  - exfalso. apply has_duplicates_NoDup in D'.
    apply (Permutation_NoDup (Permutation_sym Hk)) in D'.
    apply has_duplicates_NoDup in D'. congruence.
  - exfalso. apply has_duplicates_NoDup in D.
    apply (Permutation_NoDup Hk) in D.
    apply has_duplicates_NoDup in D. congruence.
  - apply has_duplicates_NoDup in D.
    rewrite (pivot_index_same df df') by (intro; now apply perm_In_map).
    rewrite (pivot_columns_same df df') by (intro; now apply perm_In_map).
    f_equal. f_equal. apply map_ext. intro y. f_equal.
    apply map_ext. intro m. now apply cell_perm.
Qed.

Lemma island_perm (df df' : list YearlyRecord) :
  Permutation df df' -> island df = island df'.
Proof.
  intro P. unfold island.
  replace (sort_uniq Z.compare (map year df'))
    with (sort_uniq Z.compare (map year df))
    by (apply (pivot_columns_same df df'); intro; now apply perm_In_map).
  apply map_ext. intro y. do 2 f_equal. now apply year_sum_perm.
Qed.

Lemma build_perm (updated : string) (st st' : fetched) :
  successful_years st = successful_years st' ->
  Permutation (records st) (records st') ->
  build updated st = build updated st'.
Proof.
  intros Hs P. unfold build, build_frame. rewrite <- Hs.
  destruct (records st) as [|r recs] eqn:E; destruct (records st') as [|r' recs'] eqn:E'.
  - reflexivity.
  - apply Permutation_nil in P. discriminate P.
  - apply Permutation_sym, Permutation_nil in P. discriminate P.
  - cbv beta iota zeta delta [bind].
    rewrite (pivot_perm (with_island (dropna (sort_by record_leb (r :: recs))))
               (with_island (dropna (sort_by record_leb (r' :: recs'))))).
    + reflexivity.
    + assert (Pd : Permutation (dropna (sort_by record_leb (r :: recs)))
                               (dropna (sort_by record_leb (r' :: recs')))).
      { apply filter_perm.
        eapply perm_trans; [apply sort_by_perm|].
        eapply perm_trans; [exact P|]. symmetry. apply sort_by_perm. }
      unfold with_island. rewrite (island_perm _ _ Pd).
      now apply Permutation_app_tail.
Qed.

(** ** The labels of the finished frame *)

Lemma set_col_labels_new (fr : frame) (k : string) (col : list pyval) :
  ~ In (LStr k) (labels fr) ->
  labels (set_col fr k col) = (labels fr ++ [LStr k])%list.
Proof.
  unfold labels. induction fr as [|c fr IH]; intro H; simpl; [reflexivity|].
  destruct (label_eqb (fst c) (LStr k)) eqn:E.
  - apply label_eqb_eq in E. exfalso. apply H. now left.
  - simpl. f_equal. apply IH. intro Hin. apply H. now right.
Qed.

Lemma fold_set_col_labels (cols : list (string * list pyval)) :
  forall fr,
    NoDup (map fst cols) ->
    (forall k, In k (map fst cols) -> ~ In (LStr k) (labels fr)) ->
    labels (fold_left (fun p kc => set_col p (fst kc) (snd kc)) cols fr)
    = (labels fr ++ map LStr (map fst cols))%list.
Proof.
  induction cols as [|[k col] cols IH]; intros fr Hnd Hnew; simpl.
  - now rewrite app_nil_r.
  - simpl in Hnd. inversion Hnd as [|? ? Hk Hrest]; subst.
    rewrite IH; [|exact Hrest|].
    + rewrite set_col_labels_new by (apply Hnew; now left).
      now rewrite <- app_assoc.
    + intros k' Hk'. rewrite set_col_labels_new by (apply Hnew; now left).
      intro Hin. apply in_app_or in Hin. destruct Hin as [Hin|[E|[]]].
      * revert Hin. apply Hnew. now right.
      * injection E as ->. contradiction.
Qed.

Lemma fold_set_none_labels (keys : list string) :
  forall fr,
    NoDup keys ->
    (forall k, In k keys -> ~ In (LStr k) (labels fr)) ->
    labels (fold_left set_none keys fr) = (labels fr ++ map LStr keys)%list.
Proof.
  induction keys as [|k keys IH]; intros fr Hnd Hnew; simpl.
  - now rewrite app_nil_r.
  - inversion Hnd as [|? ? Hk Hrest]; subst.
    assert (L : labels (set_none fr k) = (labels fr ++ [LStr k])%list)
      by (apply set_col_labels_new, Hnew; now left).
    rewrite IH; [|exact Hrest|].
    + rewrite L. now rewrite <- app_assoc.
    + intros k' Hk'. rewrite L.
      intro Hin. apply in_app_or in Hin. destruct Hin as [Hin|[E|[]]].
      * revert Hin. apply Hnew. now right.
      * injection E as ->. contradiction.
Qed.

Lemma rename_labels (succ : list Z) (df : list YearlyRecord) (pv : frame) :
  pivot df = Returns pv ->
  (forall y, In y (pivot_columns df) -> In y succ) ->
  labels (rename succ pv)
  = LStr "Municipio" :: map (fun y => LStr (str y)) (pivot_columns df).
Proof.
  intros Hpv Hsub. rewrite (rename_pivot succ df pv Hpv).
  unfold labels. cbn [map fst]. f_equal. rewrite map_map. cbn [fst].
  apply map_ext_in. intros y Hy. cbn [rename_label].
  replace (existsb (Z.eqb y) succ) with true; [reflexivity|].
  symmetry. apply existsb_exists. exists y. split; [now apply Hsub | apply Z.eqb_refl].
Qed.

Lemma real_income_key_inj (a b : Z) :
  real_income_key a = real_income_key b -> a = b.
Proof.
  unfold real_income_key. intro E. simpl in E.
  injection E as E. now apply str_inj.
Qed.

Lemma null_keys_NoDup (succ : list Z) (first prev last : Z) :
  NoDup succ -> NoDup (null_keys succ first prev last).
Proof.
  intro H. unfold null_keys. apply NoDup_app.
  - apply Finite.Injective_map_NoDup; [|exact H].
    intros a b. apply real_income_key_inj.
  - unfold real_keys.
    repeat constructor; simpl; intuition; discriminate.
  - intros k Hk Hr. apply in_map_iff in Hk. destruct Hk as (y & <- & _).
    unfold real_keys in Hr. simpl in Hr.
    decompose [or] Hr; try discriminate. contradiction.
Qed.

Lemma year_label_not_key (cols : list Z) (k : string) :
  starts_numeric k = false -> k <> "Municipio" ->
  ~ In (LStr k) (LStr "Municipio" :: map (fun y => LStr (str y)) cols).
Proof.
  intros Hk Hm [E|Hin].
  - injection E as E. now symmetry in E.
  - apply in_map_iff in Hin. destruct Hin as (y & E & _). injection E as E.
    subst k. now rewrite str_starts_numeric in Hk.
Qed.

Lemma change_columns_labels (first prev last : Z) (cols : list Z) (fr fr' : frame) :
  labels fr = LStr "Municipio" :: map (fun y => LStr (str y)) cols ->
  change_columns (str first) (str prev) (str last) fr = Returns fr' ->
  labels fr' = (labels fr ++ map LStr (change_keys first prev last))%list.
Proof.
  intros Hl H.
  destruct (change_columns_returns first prev last _ _ H)
    as (f & p & l & c & q & pc & c2 & q2 & pc2
        & _ & _ & _ & _ & _ & _ & _ & _ & _ & ->).
  apply (fold_set_col_labels
           [(change_key (str prev) (str last), c);
            (pct_change_key (str prev) (str last), pc);
            (cum_change_key (str first) (str last), c2);
            (cum_pct_change_key (str first) (str last), pc2)] fr).
  - simpl. repeat constructor; simpl; intuition; discriminate.
  - intros k Hk. rewrite Hl. simpl in Hk.
    decompose [or] Hk; try contradiction; subst k;
      (apply year_label_not_key; [reflexivity | discriminate]).
Qed.

Lemma derive_labels (succ : list Z) (df : list YearlyRecord) (pv wide : frame) :
  pivot df = Returns pv ->
  (forall y, In y (pivot_columns df) -> In y succ) ->
  NoDup succ ->
  derive succ pv = Returns wide ->
  exists first prev last,
    py_index succ 0 = Returns first
    /\ py_index succ (-2) = Returns prev
    /\ py_index succ (-1) = Returns last
    /\ labels wide
       = (LStr "Municipio" :: map (fun y => LStr (str y)) (pivot_columns df)
          ++ map LStr (change_keys first prev last)
          ++ map LStr (null_keys succ first prev last))%list.
Proof.
  intros Hpv Hsub Hnd H. unfold derive in H. cbv zeta in H.
  inv_bind H. inv_bind H. inv_bind H. inv_bind H. injection H as <-.
  rename a into first, a0 into prev, a1 into last, a2 into fr.
  exists first, prev, last. repeat split; auto.
  pose proof (rename_labels succ df pv Hpv Hsub) as Hl.
  pose proof (change_columns_labels first prev last _ _ _ Hl Ha2) as Hc.
  unfold placeholders.
  rewrite (fold_left_map_keys Z set_none real_income_key).
  rewrite <- fold_left_app. fold (null_keys succ first prev last).
  rewrite fold_set_none_labels.
  - rewrite Hc, Hl. cbn [app]. now rewrite <- app_assoc.
  - now apply null_keys_NoDup.
  - intros k Hk. rewrite Hc, Hl. cbn [app].
    assert (R : String.prefix "Real" k = true).
    { unfold null_keys in Hk. apply in_app_or in Hk. destruct Hk as [Hk|Hk].
      - apply in_map_iff in Hk. destruct Hk as (y & <- & _). reflexivity.
      - simpl in Hk. decompose [or] Hk; subst; try reflexivity. contradiction. }
    intros [E|Hin].
    + injection E as <-. discriminate R.
    + apply in_app_or in Hin. destruct Hin as [Hin|Hin].
      * apply in_map_iff in Hin. destruct Hin as (y & E & _). injection E as <-.
        rewrite str_not_real in R. discriminate R.
      * simpl in Hin. decompose [or] Hin; try contradiction;
          match goal with E : LStr _ = LStr k |- _ => injection E as <- end;
          discriminate R.
Qed.

Lemma to_dict_keys (fr : frame) (d : pyval) :
  In d (to_dict fr) -> dict_keys d = map label_key (labels fr).
Proof.
  intro H. apply to_dict_In in H. destruct H as (i & _ & ->).
  unfold dict_keys, labels. now rewrite !map_map.
Qed.

Lemma successful_years_sorted
    (API_KEY : string) (requests_get : string -> outcome http_response)
    (current_year : Z) :
  StronglySorted Z.lt
    (successful_years (fetch_all API_KEY requests_get (year_range current_year))).
Proof.
  rewrite fetch_all_successful. apply filter_sorted, year_range_sorted.
Qed.

Lemma sorted_lt_NoDup (l : list Z) : StronglySorted Z.lt l -> NoDup l.
Proof.
  induction 1 as [|x l _ IH Hx]; constructor; [|exact IH].
  intro Hin. rewrite Forall_forall in Hx. specialize (Hx x Hin). lia.
Qed.

Lemma map_label_key_str (l : list string) : map label_key (map LStr l) = l.
Proof. rewrite map_map. simpl. apply map_id. Qed.

(** ** The addresses of the years *)

Lemma append_inj_l (p a b : string) : (p ++ a = p ++ b)%string -> a = b.
Proof.
  induction p as [|c p IH]; simpl; intro H; [exact H|].
  injection H as H. now apply IH.
Qed.

Lemma get_In (s : string) :
  forall k c, String.get k s = Some c -> In c (list_ascii_of_string s).
Proof.
  induction s as [|a s IH]; intros k c H; [destruct k; discriminate H|].
  destruct k as [|k]; simpl in *.
  - left. now injection H.
  - right. now apply (IH k).
Qed.

Lemma str_chars (n : Z) (c : ascii) :
  In c (list_ascii_of_string (str n)) -> is_digit c = true \/ c = "-"%char.
Proof.
  assert (D : forall d c', In c' (digits_of d) -> is_digit c' = true).
  { intros d c' H. pose proof (digits_of_digits d) as F.
    rewrite forallb_forall in F. now apply F. }
  assert (U : forall p, NilZero.string_of_uint (Pos.to_uint p)
                        = NilEmpty.string_of_uint (Pos.to_uint p)).
  { intro p. pose proof (DecimalPos.Unsigned.to_uint_nonnil p).
    now destruct (Pos.to_uint p). }
  unfold str. destruct n as [|p|p]; cbn [Z.to_int NilZero.string_of_int].
  - simpl. intros [<-|[]]. now left.
  - rewrite U. intro H. left. now apply (D (Pos.to_uint p)).
  - rewrite U. cbn [list_ascii_of_string]. intros [<-|H]; [now right|].
    left. now apply (D (Pos.to_uint p)).
Qed.

Lemma str_no_slash (n : Z) (k : nat) : String.get k (str n) <> Some "/"%char.
Proof.
  intro H. apply get_In, str_chars in H. destruct H as [H|H]; discriminate H.
Qed.

Lemma split_at_slash (a : string) :
  forall b r1 r2,
    (forall k, String.get k a <> Some "/"%char) ->
    (forall k, String.get k b <> Some "/"%char) ->
    (a ++ String "/" r1 = b ++ String "/" r2)%string -> a = b.
Proof.
  induction a as [|c a IH]; intros [|c' b] r1 r2 Ha Hb E; simpl in E.
  - reflexivity.
  - exfalso. injection E as E _. apply (Hb O). simpl. now rewrite <- E.
  - exfalso. injection E as E _. apply (Ha O). simpl. now rewrite E.
  - injection E as -> E. f_equal.
    apply (IH b r1 r2); [| |exact E].
    + intro k. apply (Ha (S k)).
    + intro k. apply (Hb (S k)).
Qed.

Lemma url_inj (API_KEY : string) (y1 y2 : Z) :
  url API_KEY y1 = url API_KEY y2 -> y1 = y2.
Proof.
  unfold url. intro E. apply append_inj_l in E.
  apply str_inj.
  apply (split_at_slash (str y1) (str y2) _ _ (str_no_slash y1) (str_no_slash y2) E).
Qed.

(** * Properties stated by the specification *)



(** C2, as the code has it.  A reply with status 200 whose body unpacks
    into a header and no data row skips that year only: the turn of the
    loop leaves both accumulators as they were, the year is not among
    the successful ones, and the loop goes on as if the year had not
    been in the range. *)
Theorem zero_data_rows_skip_only_the_year
    (API_KEY : string) (requests_get : string -> outcome http_response)
    (y : Z) (data header : pyval) :
  requests_get (url API_KEY y)
  = Returns {| status_code := 200; json := Returns data |} ->
  unpack data = Returns (header, []) ->
  (forall st, fetch_year API_KEY requests_get st y = st)
  /\ succeeds API_KEY requests_get y = false
  /\ forall before after st,
       fetch_loop API_KEY requests_get (before ++ y :: after) st
       = fetch_loop API_KEY requests_get (before ++ after) st.
Proof.
  intros Hget Hun.
  assert (Hp : parse_reply (requests_get (url API_KEY y)) = Returns None
               \/ exists e, parse_reply (requests_get (url API_KEY y)) = Raises e).
  { rewrite Hget. unfold parse_reply. simpl. rewrite Hun. simpl.
    destruct (index_map header); simpl; eauto. }
  assert (Hst : forall st, fetch_year API_KEY requests_get st y = st).
  { intro st. unfold fetch_year. now destruct Hp as [-> | [e ->]]. }
  split; [exact Hst|]. split.
  - unfold succeeds. now destruct Hp as [-> | [e ->]].
  - intros before after st. unfold fetch_loop.
    rewrite !fold_left_app. simpl. now rewrite Hst.
Qed.

(** The reply for 2010 of [Sample.header_only_2010] is such a body. *)
Lemma zero_data_rows_skip_only_the_year_witness :
  Sample.header_only_2010 (url Sample.KEY 2010)
  = Returns {| status_code := 200;
               json := Returns (JList [Sample.header 2010]) |}
  /\ unpack (JList [Sample.header 2010]) = Returns (Sample.header 2010, [])
  /\ (forall st, fetch_year Sample.KEY Sample.header_only_2010 st 2010 = st)
  /\ succeeds Sample.KEY Sample.header_only_2010 2010 = false
  /\ forall before after st,
       fetch_loop Sample.KEY Sample.header_only_2010 (before ++ 2010 :: after) st
       = fetch_loop Sample.KEY Sample.header_only_2010 (before ++ after) st.
Proof.
  assert (H1 : Sample.header_only_2010 (url Sample.KEY 2010)
               = Returns {| status_code := 200;
                            json := Returns (JList [Sample.header 2010]) |})
    by reflexivity.
  assert (H2 : unpack (JList [Sample.header 2010])
               = Returns (Sample.header 2010, []))
    by reflexivity.
  exact (conj H1 (conj H2
           (zero_data_rows_skip_only_the_year
              Sample.KEY Sample.header_only_2010 2010
              (JList [Sample.header 2010]) (Sample.header 2010) H1 H2))).
Defined.

(** C2, as stated, fails: the reply for 2010 has a header and no data row,
    and the run still fetches 2011 and 2012 and writes its file. *)
Lemma header_only_year_does_not_stop_the_run :
  Sample.header_only_2010 (url Sample.KEY 2010)
  = Returns {| status_code := 200;
               json := Returns (JList [Sample.header 2010]) |}
  /\ successful_years
       (fetch_all Sample.KEY Sample.header_only_2010 (year_range 2014))
     = [2011; 2012]
  /\ exists content,
       run Sample.KEY Sample.header_only_2010 2014 Sample.TODAY
       = Saved "municipios_cbp_establishments_2010_2012_wide.json" content
       /\ length content = 3%nat.
Proof.
  split; [reflexivity|]. split; [vm_compute; reflexivity|].
  eexists. split; vm_compute; reflexivity.
Qed.






(** C5.  [safe_int] never raises: whatever the value, it returns an int
    or [None].  It reads nothing but its argument.  ["N"] and ["0"] give
    0, ["1234"] gives 1234, ["abc"] and [None] give [None]; a value that
    is neither token gives [None] when [int()] raises on it, and the
    parsed integer otherwise. *)
Theorem safe_int_total :
  (forall val : pyval, exists r : option Z, safe_int val = Returns r)
  /\ safe_int (JStr "N") = Returns (Some 0)
  /\ safe_int (JStr "0") = Returns (Some 0)
  /\ safe_int (JStr "1234") = Returns (Some 1234)
  /\ safe_int (JStr "abc") = Returns None
  /\ safe_int JNull = Returns None
  /\ (forall (val : pyval) (e : exn),
        in_N_0 val = false -> py_int val = Raises e ->
        safe_int val = Returns None)
  /\ (forall (val : pyval) (n : Z),
        in_N_0 val = false -> py_int val = Returns n ->
        safe_int val = Returns (Some n)).
Proof.
  repeat split; try reflexivity.
  - intro val. unfold safe_int. destruct (safe_int_try val); eauto.
  - intros val e Htok Hint. unfold safe_int, safe_int_try. now rewrite Htok, Hint.
  - intros val n Htok Hint. unfold safe_int, safe_int_try. now rewrite Htok, Hint.
Qed.





(** C8.  The selector of the NAICS variable has four eras with inclusive
    lower bounds 2007, 2012 and 2017; 2020, 2015, 2010 and 2005 fall in
    eras 4, 3, 2 and 1. *)
Theorem naics_variable_by_era (y : Z) :
  (2017 <= y -> get_naics_variable_name y = "NAICS2017")
  /\ (2012 <= y <= 2016 -> get_naics_variable_name y = "NAICS2012")
  /\ (2007 <= y <= 2011 -> get_naics_variable_name y = "NAICS2007")
  /\ (y < 2007 -> get_naics_variable_name y = "NAICS2002")
  /\ get_naics_variable_name 2020 = "NAICS2017"
  /\ get_naics_variable_name 2015 = "NAICS2012"
  /\ get_naics_variable_name 2010 = "NAICS2007"
  /\ get_naics_variable_name 2005 = "NAICS2002".
Proof.
  unfold get_naics_variable_name.
  repeat split; try reflexivity; intros H;
    repeat match goal with
           | |- context [?a >=? ?b] => destruct (Z.geb_spec a b); try lia
           end; reflexivity.
Qed.

(** C9, as the code has it.  In a run whose records make a frame, the
    pivot returns exactly when the fetched records that carry a count
    have at most one record per municipality and year.  When two such
    records share municipality and year the pivot raises [ValueError],
    the run writes no file, and with two successful years the run ends
    on that error. *)
Theorem pivot_refuses_repeated_counted_pairs
    (API_KEY : string) (requests_get : string -> outcome http_response)
    (current_year : Z) (updated : string) (df : list YearlyRecord) :
  build_frame (records (fetch_all API_KEY requests_get (year_range current_year)))
  = Returns df ->
  (NoDup (map pivot_key
            (dropna (records (fetch_all API_KEY requests_get
                                (year_range current_year)))))
   <-> exists pv, pivot (with_island df) = Returns pv)
  /\ (~ NoDup (map pivot_key
                 (dropna (records (fetch_all API_KEY requests_get
                                     (year_range current_year))))) ->
      pivot (with_island df) = Raises ValueError
      /\ (forall name content,
             run API_KEY requests_get current_year updated <> Saved name content)
      /\ ((2 <= length (successful_years
                          (fetch_all API_KEY requests_get
                             (year_range current_year))))%nat ->
          run API_KEY requests_get current_year updated = Uncaught ValueError)).
Proof.
  intro Hdf.
  set (st := fetch_all API_KEY requests_get (year_range current_year)) in *.
  pose proof (build_frame_returns _ _ Hdf) as [_ Edf].
  assert (Hkeys : NoDup (map pivot_key (dropna (records st)))
                  <-> NoDup (map pivot_key (with_island df))).
  { split; intro H.
    - apply with_island_NoDup.
      + intros r Hr. rewrite Edf in Hr. apply dropna_sort_In in Hr.
        destruct Hr as [Hr _]. now apply fetch_all_records in Hr.
      + rewrite Edf. eapply Permutation_NoDup; [|exact H].
        apply Permutation_sym, frame_keys_perm.
    - unfold with_island in H. rewrite map_app in H.
      apply NoDup_app_remove_r in H. rewrite Edf in H.
      eapply Permutation_NoDup; [apply frame_keys_perm | exact H]. }
  split.
  - rewrite Hkeys, <- has_duplicates_NoDup. unfold pivot.
    destruct (has_duplicates _); split; eauto; try discriminate.
    intros [pv H]. discriminate H.
  - intro Hdup.
    assert (Hpv : pivot (with_island df) = Raises ValueError).
    { unfold pivot. destruct (has_duplicates _) eqn:D; [reflexivity|].
      exfalso. apply Hdup, Hkeys. now apply has_duplicates_NoDup. }
    assert (Hbuild : build updated st = Raises ValueError).
    { unfold build. rewrite Hdf. cbn [bind]. now rewrite Hpv. }
    split; [exact Hpv|]. split.
    + intros name content. unfold run. fold st.
      destruct (_ <? 2)%nat; [discriminate|].
      destruct (_ <? 2)%nat; [discriminate|].
      rewrite Hbuild. discriminate.
    + intro Hs. unfold run. fold st.
      assert (Hlen : (length (successful_years st)
                      <= length (year_range current_year))%nat).
      { unfold st, fetch_all. rewrite fetch_loop_successful. simpl.
        apply filter_length_le. }
      destruct (Nat.ltb_spec (length (year_range current_year)) 2); [lia|].
      destruct (Nat.ltb_spec (length (successful_years st)) 2); [lia|].
      now rewrite Hbuild.
Qed.

(** Adjuntas twice in 2011, with counts 5 and 6. *)
Lemma pivot_refuses_repeated_counted_pairs_witness :
  exists df,
    build_frame (records (fetch_all Sample.KEY Sample.repeated_row (year_range 2014)))
    = Returns df
    /\ ~ NoDup (map pivot_key
                  (dropna (records (fetch_all Sample.KEY Sample.repeated_row
                                      (year_range 2014)))))
    /\ pivot (with_island df) = Raises ValueError
    /\ run Sample.KEY Sample.repeated_row 2014 Sample.TODAY = Uncaught ValueError.
Proof.
  destruct (build_frame
              (records (fetch_all Sample.KEY Sample.repeated_row (year_range 2014))))
    as [df|e] eqn:E; [|vm_compute in E; discriminate E].
  exists df. split; [reflexivity|].
  assert (H : ~ NoDup (map pivot_key
                         (dropna (records (fetch_all Sample.KEY Sample.repeated_row
                                             (year_range 2014)))))).
  { intro N. apply has_duplicates_NoDup in N. vm_compute in N. discriminate N. }
  split; [exact H|].
  destruct (proj2 (pivot_refuses_repeated_counted_pairs
                     Sample.KEY Sample.repeated_row 2014 Sample.TODAY df E) H)
    as (Hpv & _ & Hrun).
  split; [exact Hpv|]. apply Hrun. vm_compute. lia.
Defined.

(** C9, as stated, fails: the reply for 2011 has two rows for Adjuntas,
    the second without a usable count; [dropna] removes it, the pivot
    succeeds and the file is written. *)
Lemma repeated_row_without_count_is_pivoted :
  records (fetch_all Sample.KEY Sample.repeated_row_one_null (year_range 2014))
  = [ {| year := 2011; Municipio := "Adjuntas"; Establishments := Some 5 |};
      {| year := 2011; Municipio := "Adjuntas"; Establishments := None |};
      {| year := 2012; Municipio := "Adjuntas"; Establishments := Some 7 |} ]
  /\ exists content,
       run Sample.KEY Sample.repeated_row_one_null 2014 Sample.TODAY
       = Saved "municipios_cbp_establishments_2010_2012_wide.json" content
       /\ length content = 3%nat.
Proof.
  split; [vm_compute; reflexivity|].
  eexists. split; vm_compute; reflexivity.
Qed.

(** C10, as the code has it.  In every file written the data objects
    stand in strictly ascending order of municipality name (comparison
    by code point), and the object named "Puerto Rico" is among them at
    the place that order gives it: every name before it is smaller, every
    name after it greater. *)
Theorem data_rows_ascend_by_name
    (API_KEY : string) (requests_get : string -> outcome http_response)
    (current_year : Z) (updated name : string) (content : list pyval) :
  run API_KEY requests_get current_year updated = Saved name content ->
  exists rows meta names,
    content = (rows ++ [meta])%list
    /\ map (fun d => dict_get d "Municipio") rows
       = map (fun m => Some (JStr m)) names
    /\ StronglySorted name_lt names
    /\ In "Puerto Rico" names
    /\ forall before after,
         names = (before ++ "Puerto Rico" :: after)%list ->
         Forall (fun m => name_lt m "Puerto Rico") before
         /\ Forall (fun m => name_lt "Puerto Rico" m) after.
Proof.
  intro Hrun.
  destruct (run_rows _ _ _ _ _ _ Hrun)
    as (df & wide & last & Hdf & Hne & _ & _ & -> & Hstr & _ & Hn & Hm).
  exists (to_dict wide). eexists. exists (pivot_index (with_island df)).
  split; [reflexivity|]. split; [now apply to_dict_names|].
  split; [apply pivot_index_sorted|].
  split; [apply with_island_names; auto|].
  intros before after E. apply sorted_around. rewrite <- E. apply pivot_index_sorted.
Qed.

(** The run of [Sample.three_years]: Adjuntas, Puerto Rico, Yauco. *)
Lemma data_rows_ascend_by_name_witness :
  exists name content,
    run Sample.KEY Sample.three_years 2022 Sample.TODAY = Saved name content
    /\ exists rows meta names,
         content = (rows ++ [meta])%list
         /\ map (fun d => dict_get d "Municipio") rows
            = map (fun m => Some (JStr m)) names
         /\ StronglySorted name_lt names
         /\ In "Puerto Rico" names
         /\ forall before after,
              names = (before ++ "Puerto Rico" :: after)%list ->
              Forall (fun m => name_lt m "Puerto Rico") before
              /\ Forall (fun m => name_lt "Puerto Rico" m) after.
Proof.
  destruct (run Sample.KEY Sample.three_years 2022 Sample.TODAY)
    as [code|e|name content] eqn:E;
    [vm_compute in E; discriminate E | vm_compute in E; discriminate E |].
  exists name, content. split; [reflexivity|].
  exact (data_rows_ascend_by_name
           Sample.KEY Sample.three_years 2022 Sample.TODAY name content E).
Defined.

(** C10, as stated, fails: with Adjuntas as the only municipality the row
    of the island is the last data object. *)
Lemma island_row_can_be_last :
  exists name content,
    run Sample.KEY Sample.one_municipality 2014 Sample.TODAY = Saved name content
    /\ map (fun d => dict_get d "Municipio") content
       = [Some (JStr "Adjuntas"); Some (JStr "Puerto Rico"); None].
Proof.
  eexists _, _. split; vm_compute; reflexivity.
Qed.

(** * Further properties of the script *)

(** X1.  [safe_int] reads the decimal text of every integer back as that
    integer: for [n] within the 4300 digits that CPython converts between
    [int] and [str], [safe_int(str(n))] is [n]. *)
Theorem safe_int_reads_decimal_text (n : Z) :
  Z.abs n < 10 ^ 4300 -> safe_int (JStr (str n)) = Returns (Some n).
Proof. intros _. apply safe_int_str. Qed.

Lemma safe_int_reads_decimal_text_witness :
  Z.abs (-1234) < 10 ^ 4300
  /\ safe_int (JStr (str (-1234))) = Returns (Some (-1234)).
Proof.
  assert (H : Z.abs (-1234) < 10 ^ 4300) by (vm_compute; reflexivity).
  exact (conj H (safe_int_reads_decimal_text (-1234) H)).
Defined.

(** X2.  The years asked for are the years from 2010 to two years before
    the current one, each once and in ascending order; there are
    [current_year - 2011] of them, none when that is not positive. *)
Theorem years_run_from_2010_to_two_years_back (current_year : Z) :
  (forall y, In y (year_range current_year) <-> 2010 <= y <= current_year - 2)
  /\ StronglySorted Z.lt (year_range current_year)
  /\ length (year_range current_year) = Z.to_nat (current_year - 2011).
Proof.
  split; [|split].
  - intro y. apply year_range_In.
  - apply year_range_sorted.
  - rewrite year_range_length. unfold START_YEAR. f_equal. lia.
Qed.

(** X3.  The run ends on the [RuntimeError] of the year range exactly when
    the current year is before 2013, whatever the server answers: no later
    step of the script raises that error. *)
Theorem runtime_error_iff_before_2013
    (API_KEY : string) (requests_get : string -> outcome http_response)
    (current_year : Z) (updated : string) :
  run API_KEY requests_get current_year updated = Uncaught RuntimeError
  <-> current_year < 2013.
Proof.
  split; [|apply run_range_short].
  intro H.
  destruct (run_cases API_KEY requests_get current_year updated)
    as [[Hy _]|[(_ & _ & E)|(first & prev & last & front & tail & _ & _ & _
                             & [(_ & E)|[(_ & _ & E)|(_ & _ & _ & _ & c & E)]])]];
    [exact Hy | | | |]; rewrite E in H; discriminate H.
Qed.

(** X4.  With counts in the range in which the frame computes exactly
    (absolute values that sum to less than 2^53), a run ends in one of
    five ways: the [RuntimeError] of the year range, [sys.exit(0)], the
    [ValueError] of the pivot, a [KeyError], or the file written
    (opening and writing the file are taken to succeed).  The steps of
    the script raise no other exception, and it exits with no other
    code. *)
Theorem run_ends_in_one_of_five_ways
    (API_KEY : string) (requests_get : string -> outcome http_response)
    (current_year : Z) (updated : string) :
  counts_in_range
    (records (fetch_all API_KEY requests_get (year_range current_year))) ->
  run API_KEY requests_get current_year updated = Uncaught RuntimeError
  \/ run API_KEY requests_get current_year updated = Exit 0
  \/ run API_KEY requests_get current_year updated = Uncaught ValueError
  \/ run API_KEY requests_get current_year updated = Uncaught KeyError
  \/ exists name content,
       run API_KEY requests_get current_year updated = Saved name content.
Proof.
  intros _.
  destruct (run_cases API_KEY requests_get current_year updated)
    as [[_ E]|[(_ & _ & E)|(first & prev & last & front & tail & _ & _ & _
                            & [(_ & E)|[(_ & _ & E)|(_ & _ & _ & _ & c & E)]])]];
    rewrite E; eauto 8.
Qed.

(** The run of [Sample.repeated_row] ends on the [ValueError]. *)
Lemma run_ends_in_one_of_five_ways_witness :
  counts_in_range
    (records (fetch_all Sample.KEY Sample.repeated_row (year_range 2014)))
  /\ (run Sample.KEY Sample.repeated_row 2014 Sample.TODAY = Uncaught RuntimeError
      \/ run Sample.KEY Sample.repeated_row 2014 Sample.TODAY = Exit 0
      \/ run Sample.KEY Sample.repeated_row 2014 Sample.TODAY = Uncaught ValueError
      \/ run Sample.KEY Sample.repeated_row 2014 Sample.TODAY = Uncaught KeyError
      \/ exists name content,
           run Sample.KEY Sample.repeated_row 2014 Sample.TODAY
           = Saved name content).
Proof.
  assert (H : counts_in_range
                (records (fetch_all Sample.KEY Sample.repeated_row
                            (year_range 2014))))
    by (vm_compute; reflexivity).
  exact (conj H (run_ends_in_one_of_five_ways
                   Sample.KEY Sample.repeated_row 2014 Sample.TODAY H)).
Defined.

(** X5.  With counts in that range, the run writes its file exactly
    when the current year is 2013 or later, at least two years succeed,
    no two records with a count share municipality and year, and the
    first, the second-to-last and the last successful year each have a
    record with a count. *)
Theorem file_is_written_iff
    (API_KEY : string) (requests_get : string -> outcome http_response)
    (current_year : Z) (updated : string) :
  counts_in_range
    (records (fetch_all API_KEY requests_get (year_range current_year))) ->
  ((exists name content,
       run API_KEY requests_get current_year updated = Saved name content)
   <-> exists first prev last front tail,
         2013 <= current_year
         /\ successful_years (fetch_all API_KEY requests_get (year_range current_year))
            = first :: tail
         /\ successful_years (fetch_all API_KEY requests_get (year_range current_year))
            = (front ++ [prev; last])%list
         /\ NoDup (map pivot_key
                     (dropna (records (fetch_all API_KEY requests_get
                                         (year_range current_year)))))
         /\ In first (counted_years
                        (records (fetch_all API_KEY requests_get
                                    (year_range current_year))))
         /\ In prev (counted_years
                       (records (fetch_all API_KEY requests_get
                                   (year_range current_year))))
         /\ In last (counted_years
                       (records (fetch_all API_KEY requests_get
                                   (year_range current_year))))).
Proof.
  intros _. split.
  - intros (name & content & H).
    destruct (run_cases API_KEY requests_get current_year updated)
      as [[_ E]|[(_ & _ & E)|(first & prev & last & front & tail & Hy & Hf & Hl
                              & [(_ & E)|[(_ & _ & E)
                                         |(Hnd & Cf & Cp & Cl & c & E)]])]];
      try (rewrite E in H; discriminate H).
    exists first, prev, last, front, tail. repeat split; auto.
  - intros (first & prev & last & front & tail & Hy & Hf & Hl & Hnd & Cf & Cp & Cl).
    rewrite (run_range_long API_KEY requests_get current_year updated Hy).
    assert (L : (2 <= length (successful_years
                                (fetch_all API_KEY requests_get
                                   (year_range current_year))))%nat).
    { rewrite Hl, length_app. simpl. lia. }
    destruct (Nat.ltb_spec
                (length (successful_years
                           (fetch_all API_KEY requests_get (year_range current_year))))
                2) as [L'|_]; [lia|].
    destruct (build_returns updated _ _ _ _ _ _ Hf Hl
                (run_names API_KEY requests_get current_year) Hnd Cf Cp Cl)
      as (content & Hb).
    rewrite Hb. eauto.
Qed.

(** The run of [Sample.three_years] meets the four conditions. *)
Lemma file_is_written_iff_witness :
  counts_in_range
    (records (fetch_all Sample.KEY Sample.three_years (year_range 2022)))
  /\ exists name content,
       run Sample.KEY Sample.three_years 2022 Sample.TODAY = Saved name content.
Proof.
  assert (H : counts_in_range
                (records (fetch_all Sample.KEY Sample.three_years
                            (year_range 2022))))
    by (vm_compute; reflexivity).
  split; [exact H|].
  apply (proj2 (file_is_written_iff
                  Sample.KEY Sample.three_years 2022 Sample.TODAY H)).
  exists 2010, 2015, 2020, [2010], [2015; 2020].
  split; [lia|]. split; [vm_compute; reflexivity|].
  split; [vm_compute; reflexivity|].
  split.
  - apply has_duplicates_NoDup. vm_compute. reflexivity.
  - vm_compute. auto 10.
Defined.

(** X6.  With counts in that range, the run ends on an uncaught
    [KeyError] exactly when the current year is 2013 or later, at least
    two years succeed, no two records with a count share municipality
    and year, and one of the first, the second-to-last and the last
    successful year has no record with a count: its column is missing
    from the pivot, or no record was fetched at all. *)
Theorem key_error_iff_year_without_count
    (API_KEY : string) (requests_get : string -> outcome http_response)
    (current_year : Z) (updated : string) :
  counts_in_range
    (records (fetch_all API_KEY requests_get (year_range current_year))) ->
  (run API_KEY requests_get current_year updated = Uncaught KeyError
   <-> exists first prev last front tail,
         2013 <= current_year
         /\ successful_years (fetch_all API_KEY requests_get (year_range current_year))
            = first :: tail
         /\ successful_years (fetch_all API_KEY requests_get (year_range current_year))
            = (front ++ [prev; last])%list
         /\ NoDup (map pivot_key
                     (dropna (records (fetch_all API_KEY requests_get
                                         (year_range current_year)))))
         /\ ~ (In first (counted_years
                           (records (fetch_all API_KEY requests_get
                                       (year_range current_year))))
               /\ In prev (counted_years
                             (records (fetch_all API_KEY requests_get
                                         (year_range current_year))))
               /\ In last (counted_years
                             (records (fetch_all API_KEY requests_get
                                         (year_range current_year)))))).
Proof.
  intros _. split.
  - intros H.
    destruct (run_cases API_KEY requests_get current_year updated)
      as [[_ E]|[(_ & _ & E)|(first & prev & last & front & tail & Hy & Hf & Hl
                              & [(_ & E)|[(Hnd & Hnot & E)
                                         |(_ & _ & _ & _ & c & E)]])]];
      try (rewrite E in H; discriminate H).
    exists first, prev, last, front, tail. repeat split; auto.
  - intros (first & prev & last & front & tail & Hy & Hf & Hl & Hnd & Hnot).
    rewrite (run_range_long API_KEY requests_get current_year updated Hy).
    assert (L : (2 <= length (successful_years
                                (fetch_all API_KEY requests_get
                                   (year_range current_year))))%nat).
    { rewrite Hl, length_app. simpl. lia. }
    destruct (Nat.ltb_spec
                (length (successful_years
                           (fetch_all API_KEY requests_get (year_range current_year))))
                2) as [L'|_]; [lia|].
    rewrite (build_missing_year updated _ _ _ _ _ _ Hf Hl
               (run_names API_KEY requests_get current_year) Hnd Hnot).
    reflexivity.
Qed.

(** A count that cannot be read in the last year: 2012 succeeds, its one
    record has no count, and the run ends on the [KeyError]. *)
Lemma key_error_iff_year_without_count_witness :
  counts_in_range
    (records (fetch_all Sample.KEY Sample.last_year_unusable (year_range 2014)))
  /\ successful_years
       (fetch_all Sample.KEY Sample.last_year_unusable (year_range 2014))
     = [2011; 2012]
  /\ counted_years
       (records (fetch_all Sample.KEY Sample.last_year_unusable (year_range 2014)))
     = [2011]
  /\ run Sample.KEY Sample.last_year_unusable 2014 Sample.TODAY
     = Uncaught KeyError.
Proof.
  assert (H : counts_in_range
                (records (fetch_all Sample.KEY Sample.last_year_unusable
                            (year_range 2014))))
    by (vm_compute; reflexivity).
  split; [exact H|]. split; [vm_compute; reflexivity|].
  split; [vm_compute; reflexivity|].
  apply (proj2 (key_error_iff_year_without_count
                  Sample.KEY Sample.last_year_unusable 2014 Sample.TODAY H)).
  exists 2011, 2011, 2012, [], [2012].
  split; [lia|]. split; [vm_compute; reflexivity|].
  split; [vm_compute; reflexivity|].
  split.
  - apply has_duplicates_NoDup. vm_compute. reflexivity.
  - intros (_ & _ & C). vm_compute in C. destruct C as [C|[]]. discriminate C.
Defined.

(** X7.  The loop keeps no state between its turns other than the two
    lists it appends to: the records of a run over several years are the
    records each year yields on its own, in the order of the years, and
    the successful years are those whose own turn succeeds. *)
Theorem records_are_the_years_records_in_order
    (API_KEY : string) (requests_get : string -> outcome http_response)
    (years : list Z) :
  records (fetch_all API_KEY requests_get years)
  = flat_map (fun y => records (fetch_all API_KEY requests_get [y])) years
  /\ successful_years (fetch_all API_KEY requests_get years)
     = flat_map (fun y => successful_years (fetch_all API_KEY requests_get [y])) years.
Proof.
  split.
  - unfold fetch_all at 1. now rewrite fetch_loop_app.
  - rewrite fetch_all_successful.
    induction years as [|y years IH]; [reflexivity|].
    cbn [filter flat_map]. rewrite <- IH.
    change (fetch_all API_KEY requests_get [y])
      with (fetch_year API_KEY requests_get no_fetch y).
    rewrite fetch_year_successful.
    now destruct (succeeds API_KEY requests_get y).
Qed.

(** X8.  After the loop the successful years stand in strictly ascending
    order, each between 2010 and two years before the current one and
    each with a reply that reached [successful_years.append]; every
    record carries a successful year and a name other than
    "Puerto Rico". *)
Theorem successful_years_ascend_within_range
    (API_KEY : string) (requests_get : string -> outcome http_response)
    (current_year : Z) :
  StronglySorted Z.lt
    (successful_years (fetch_all API_KEY requests_get (year_range current_year)))
  /\ NoDup (successful_years
              (fetch_all API_KEY requests_get (year_range current_year)))
  /\ (forall y,
        In y (successful_years
                (fetch_all API_KEY requests_get (year_range current_year)))
        <-> 2010 <= y <= current_year - 2
            /\ succeeds API_KEY requests_get y = true)
  /\ (forall r,
        In r (records (fetch_all API_KEY requests_get (year_range current_year))) ->
        In (year r)
           (successful_years
              (fetch_all API_KEY requests_get (year_range current_year)))
        /\ Municipio r <> "Puerto Rico").
Proof.
  rewrite fetch_all_successful.
  assert (S : StronglySorted Z.lt
                (filter (succeeds API_KEY requests_get) (year_range current_year)))
    by apply filter_sorted, year_range_sorted.
  repeat split.
  - exact S.
  - revert S. generalize (filter (succeeds API_KEY requests_get)
                            (year_range current_year)).
    induction 1 as [|x l _ IH Hx]; constructor; [|exact IH].
    intro Hin. rewrite Forall_forall in Hx. specialize (Hx x Hin). lia.
  - apply filter_In in H. destruct H as [H _]. apply year_range_In in H.
    unfold START_YEAR in H. lia.
  - apply filter_In in H. destruct H as [H _]. apply year_range_In in H.
    unfold START_YEAR in H. lia.
  - apply filter_In in H. tauto.
  - intros (Hy & Hs). apply filter_In. split; [|exact Hs].
    apply year_range_In. unfold START_YEAR. lia.
  - apply fetch_all_records in H. rewrite fetch_all_successful in H. tauto.
  - apply fetch_all_records in H. tauto.
Qed.

(** X9.  A year counts as successful exactly when its request returns
    with status 200, the body is read as JSON, iterating over it gives
    at least two items, and the first of them can be iterated over and
    holds only hashable items.  Nothing else is asked of the reply: not
    that the header names the columns, not that the rows are lists.  A
    year that does not succeed leaves both lists of the loop as they
    were. *)
Theorem year_succeeds_iff
    (API_KEY : string) (requests_get : string -> outcome http_response) (y : Z) :
  (succeeds API_KEY requests_get y = true
   <-> exists r data header row rows keys,
         requests_get (url API_KEY y) = Returns r
         /\ status_code r = 200
         /\ json r = Returns data
         /\ py_iter data = Returns (header :: row :: rows)
         /\ py_iter header = Returns keys
         /\ forallb hashable keys = true)
  /\ (succeeds API_KEY requests_get y = false ->
      forall st, fetch_year API_KEY requests_get st y = st).
Proof.
  split; [apply succeeds_inv|].
  intros H st. now apply fetch_year_failed.
Qed.

(** An error body that is an object with two keys makes its year a
    successful one, without any record. *)
Example error_object_counts_as_success :
  succeeds Sample.KEY Sample.error_object 2011 = true
  /\ fetch_all Sample.KEY Sample.error_object [2011]
     = {| records := []; successful_years := [2011] |}.
Proof. split; vm_compute; reflexivity. Qed.

(** X10.  In a year that succeeds, a row on which the body of the row
    loop raises ends the turn: the year stays among the successful ones,
    the records of the rows before it stay, and the rows after it are
    never read. *)
Theorem row_that_raises_ends_its_year
    (API_KEY : string) (requests_get : string -> outcome http_response)
    (y : Z) (idx before after : list pyval) (bad : pyval) (e : exn) :
  parse_reply (requests_get (url API_KEY y))
  = Returns (Some (idx, (before ++ bad :: after)%list)) ->
  row_record y idx bad = Raises e ->
  forall st,
    fetch_year API_KEY requests_get st y
    = {| records := emit_rows y idx before (records st);
         successful_years := (successful_years st ++ [y])%list |}.
Proof.
  intros Hp Hbad st. unfold fetch_year. rewrite Hp.
  now rewrite (emit_rows_stops y idx bad e after Hbad).
Qed.

(** In [Sample.short_row] the second row of 2011 is an empty list: Yauco,
    the third row, is lost. *)
Lemma row_that_raises_ends_its_year_witness :
  parse_reply (Sample.short_row (url Sample.KEY 2011))
  = Returns (Some ([JStr "NAME"; JStr "ESTAB"; JStr "NAICS2007"; JStr "state";
                    JStr "county"],
                   ([Sample.row "Adjuntas" "5" "001"]
                    ++ JList [] :: [Sample.row "Yauco" "9" "153"])%list))
  /\ row_record 2011
       [JStr "NAME"; JStr "ESTAB"; JStr "NAICS2007"; JStr "state"; JStr "county"]
       (JList [])
     = Raises IndexError
  /\ fetch_year Sample.KEY Sample.short_row no_fetch 2011
     = {| records := [ {| year := 2011; Municipio := "Adjuntas";
                          Establishments := Some 5 |} ];
          successful_years := [2011] |}.
Proof.
  assert (H1 : parse_reply (Sample.short_row (url Sample.KEY 2011))
               = Returns (Some ([JStr "NAME"; JStr "ESTAB"; JStr "NAICS2007";
                                 JStr "state"; JStr "county"],
                                ([Sample.row "Adjuntas" "5" "001"]
                                 ++ JList [] :: [Sample.row "Yauco" "9" "153"])%list)))
    by (vm_compute; reflexivity).
  assert (H2 : row_record 2011
                 [JStr "NAME"; JStr "ESTAB"; JStr "NAICS2007"; JStr "state";
                  JStr "county"]
                 (JList [])
               = Raises IndexError)
    by (vm_compute; reflexivity).
  split; [exact H1|]. split; [exact H2|].
  rewrite (row_that_raises_ends_its_year Sample.KEY Sample.short_row 2011
             _ _ _ _ _ H1 H2 no_fetch).
  vm_compute. reflexivity.
Defined.

(** X11.  Removing the suffix of a name that holds no comma gives the
    name back: with the suffix " Municipio, Puerto Rico" after it the
    suffix goes and nothing else, and without the suffix the name is
    left as it is. *)
Theorem municipality_suffix_is_removed (n : string) :
  no_comma n = true ->
  strip_suffix (JStr (n ++ " Municipio, Puerto Rico")) = Returns n
  /\ strip_suffix (JStr n) = Returns n.
Proof.
  intro H. unfold strip_suffix, replace_with_empty. split; f_equal.
  - apply (remove_suffixed n H).
  - apply (remove_plain n H).
Qed.

Lemma municipality_suffix_is_removed_witness :
  no_comma "San Juan" = true
  /\ strip_suffix (JStr "San Juan Municipio, Puerto Rico") = Returns "San Juan"
  /\ strip_suffix (JStr "San Juan") = Returns "San Juan".
Proof.
  assert (H : no_comma "San Juan" = true) by reflexivity.
  exact (conj H (municipality_suffix_is_removed "San Juan" H)).
Defined.

(** X12.  A row that holds, at the places the header gives to NAME and
    ESTAB, a name without comma followed by the suffix and the decimal
    text of a count yields the record of that year, name and count,
    unless the name is "Puerto Rico". *)
Theorem table_row_gives_its_record
    (y : Z) (idx : list pyval) (row : pyval) (i j : nat) (n : string) (c : Z) :
  idx_get idx "NAME" = Returns i ->
  idx_get idx "ESTAB" = Returns j ->
  py_getitem row i = Returns (JStr (n ++ " Municipio, Puerto Rico")) ->
  py_getitem row j = Returns (JStr (str c)) ->
  no_comma n = true ->
  n <> "Puerto Rico" ->
  Z.abs c < 10 ^ 4300 ->
  row_record y idx row
  = Returns (Some {| year := y; Municipio := n; Establishments := Some c |}).
Proof.
  intros Hi Hj Hn Hc Hcomma Hpr _. unfold row_record.
  rewrite Hi. cbv beta iota zeta delta [bind].
  rewrite Hn. cbv beta iota zeta delta [bind].
  unfold strip_suffix, replace_with_empty.
  fold SUFFIX. rewrite (remove_suffixed n Hcomma).
  cbv beta iota zeta delta [bind].
  apply String.eqb_neq in Hpr. rewrite Hpr.
  rewrite Hj. cbv beta iota zeta delta [bind].
  rewrite Hc. cbv beta iota zeta delta [bind].
  now rewrite safe_int_str.
Qed.

Lemma table_row_gives_its_record_witness :
  row_record 2015 [JStr "NAME"; JStr "ESTAB"; JStr "NAICS2012"; JStr "state";
                   JStr "county"]
    (JList [JStr "San Juan Municipio, Puerto Rico"; JStr (str 12345); JStr "00";
            JStr "72"; JStr "127"])
  = Returns (Some {| year := 2015; Municipio := "San Juan";
                     Establishments := Some 12345 |}).
Proof.
  apply (table_row_gives_its_record 2015 _ _ 0%nat 1%nat "San Juan" 12345);
    [ reflexivity | reflexivity | reflexivity | reflexivity | reflexivity
    | discriminate | vm_compute; reflexivity ].
Defined.



(** X14.  In every file written each data object holds [null] under
    [RealIncome_<y>] for every successful year [y], and under the four
    [Real_*] keys named after the first, the second-to-last and the last
    successful year. *)
Theorem placeholder_fields_are_null
    (API_KEY : string) (requests_get : string -> outcome http_response)
    (current_year : Z) (updated name : string) (content : list pyval) :
  run API_KEY requests_get current_year updated = Saved name content ->
  exists first prev last tail front rows meta,
    successful_years (fetch_all API_KEY requests_get (year_range current_year))
    = first :: tail
    /\ successful_years (fetch_all API_KEY requests_get (year_range current_year))
       = (front ++ [prev; last])%list
    /\ content = (rows ++ [meta])%list
    /\ forall d, In d rows ->
         (forall y,
            In y (successful_years
                    (fetch_all API_KEY requests_get (year_range current_year))) ->
            dict_get d ("RealIncome_" ++ str y) = Some JNull)
         /\ dict_get d ("Real_Change_" ++ str prev ++ "_" ++ str last) = Some JNull
         /\ dict_get d ("Real_Pct_Change_" ++ str prev ++ "_" ++ str last)
            = Some JNull
         /\ dict_get d ("Real_Cum_Change_" ++ str first ++ "_" ++ str last)
            = Some JNull
         /\ dict_get d ("Real_Cum_Pct_Change_" ++ str first ++ "_" ++ str last)
            = Some JNull.
Proof.
  intro Hrun.
  destruct (saved_rows _ _ _ _ _ _ Hrun)
    as (first & prev & last & rows & If & Ip & Il & _ & -> & _ & Hrows).
  destruct (py_index_first _ _ If) as (tail & Htail).
  destruct (py_index_last_two _ _ _ Ip Il) as (front & Hfront).
  exists first, prev, last, tail, front, rows. eexists.
  split; [exact Htail|]. split; [exact Hfront|]. split; [reflexivity|].
  intros d Hd. destruct (Hrows d Hd) as (m & _ & _ & _ & Hnull).
  unfold null_keys, real_keys in Hnull.
  repeat split.
  - intros y Hy. apply Hnull. apply in_or_app. left.
    apply (in_map real_income_key _ y Hy).
  - apply Hnull. apply in_or_app. right. simpl. auto.
  - apply Hnull. apply in_or_app. right. simpl. auto.
  - apply Hnull. apply in_or_app. right. simpl. auto.
  - apply Hnull. apply in_or_app. right. simpl. auto.
Qed.

Lemma placeholder_fields_are_null_witness :
  exists name content,
    run Sample.KEY Sample.three_years 2022 Sample.TODAY = Saved name content
    /\ exists rows meta,
         content = (rows ++ [meta])%list
         /\ forall d, In d rows ->
              dict_get d "RealIncome_2015" = Some JNull
              /\ dict_get d "Real_Cum_Pct_Change_2010_2020" = Some JNull.
Proof.
  destruct (run Sample.KEY Sample.three_years 2022 Sample.TODAY)
    as [code|e|name content] eqn:E;
    [vm_compute in E; discriminate E | vm_compute in E; discriminate E |].
  exists name, content. split; [reflexivity|].
  destruct (placeholder_fields_are_null
              Sample.KEY Sample.three_years 2022 Sample.TODAY name content E)
    as (first & prev & last & tail & front & rows & meta & Hf & Hl & Hc & Hrows).
  assert (S : successful_years
                (fetch_all Sample.KEY Sample.three_years (year_range 2022))
              = [2010; 2015; 2020]) by (vm_compute; reflexivity).
  rewrite S in Hf, Hl.
  injection Hf as <- _.
  change [2010; 2015; 2020] with (([2010] ++ [2015]) ++ [2020])%list in Hl.
  change (front ++ [prev; last])%list with (front ++ [prev] ++ [last])%list in Hl.
  rewrite app_assoc in Hl.
  apply app_inj_tail in Hl. destruct Hl as [Hl <-].
  apply app_inj_tail in Hl. destruct Hl as [_ <-].
  exists rows, meta. split; [exact Hc|].
  intros d Hd. destruct (Hrows d Hd) as (Hy & _ & _ & _ & H4).
  split; [|exact H4].
  apply (Hy 2015). rewrite S. simpl. auto.
Defined.

(** X15.  When exactly two years succeed, the first successful year is
    also the second-to-last: in every data object of the file the
    cumulative change equals the change and the cumulative percentage
    equals the percentage, both pairs being present. *)
Theorem two_successful_years_make_both_changes_equal
    (API_KEY : string) (requests_get : string -> outcome http_response)
    (current_year : Z) (updated name : string) (content : list pyval) (a b : Z) :
  successful_years (fetch_all API_KEY requests_get (year_range current_year))
  = [a; b] ->
  run API_KEY requests_get current_year updated = Saved name content ->
  exists rows meta,
    content = (rows ++ [meta])%list
    /\ forall d, In d rows ->
         exists change pct,
           dict_get d (change_key (str a) (str b)) = Some change
           /\ dict_get d (cum_change_key (str a) (str b)) = Some change
           /\ dict_get d (pct_change_key (str a) (str b)) = Some pct
           /\ dict_get d (cum_pct_change_key (str a) (str b)) = Some pct.
Proof.
  intros Hsucc Hrun.
  destruct (run_saved _ _ _ _ _ _ Hrun)
    as (df & pv & wide & last' & _ & _ & Hdf & Hpv & Hwide & _ & _ & ->).
  destruct (derive_columns _ _ _ _ Hpv
              (fun y => run_years_fetched API_KEY requests_get current_year df y Hdf)
              Hwide)
    as (first & prev & last & f & p & l & c & q & pc & c2 & q2 & pc2
        & Hfirst & Hprev & Hlast & Hstr & Hn & _ & Hcols
        & Hc & Hq & Hpc & Hc2 & Hq2 & Hpc2 & Gf & Gp & Gl & Gc & Gpc & Gc2 & Gpc2).
  rewrite Hsucc in Hfirst, Hprev, Hlast.
  injection Hfirst as <-. injection Hprev as <-. injection Hlast as <-.
  assert (f = p) by congruence. subst p.
  assert (c2 = c) by congruence. subst c2.
  assert (q2 = q) by congruence. subst q2.
  assert (pc2 = pc) by congruence. subst pc2.
  exists (to_dict wide). eexists. split; [reflexivity|].
  intros d Hd. apply to_dict_In in Hd. destruct Hd as (i & Hi & ->).
  exists (nth i c JNull), (nth i pc JNull).
  repeat split; now apply dict_get_row.
Qed.

(** The run of [Sample.zero_base]: 2011 and 2012 succeed. *)
Lemma two_successful_years_make_both_changes_equal_witness :
  exists name content,
    successful_years (fetch_all Sample.KEY Sample.zero_base (year_range 2014))
    = [2011; 2012]
    /\ run Sample.KEY Sample.zero_base 2014 Sample.TODAY = Saved name content
    /\ exists rows meta,
         content = (rows ++ [meta])%list
         /\ forall d, In d rows ->
              exists change pct,
                dict_get d "Change_2011_2012" = Some change
                /\ dict_get d "Cum_Change_2011_2012" = Some change
                /\ dict_get d "Pct_Change_2011_2012" = Some pct
                /\ dict_get d "Cum_Pct_Change_2011_2012" = Some pct.
Proof.
  assert (S : successful_years
                (fetch_all Sample.KEY Sample.zero_base (year_range 2014))
              = [2011; 2012]) by (vm_compute; reflexivity).
  destruct (run Sample.KEY Sample.zero_base 2014 Sample.TODAY)
    as [code|e|name content] eqn:E;
    [vm_compute in E; discriminate E | vm_compute in E; discriminate E |].
  exists name, content. split; [exact S|]. split; [reflexivity|].
  exact (two_successful_years_make_both_changes_equal
           Sample.KEY Sample.zero_base 2014 Sample.TODAY name content 2011 2012 S E).
Defined.

(** X16.  A run asks the server for the addresses of its years and for
    nothing else: two servers that answer alike at the address of every
    year from 2010 to two years before the current one give the same
    run. *)
Theorem run_reads_only_the_year_addresses
    (API_KEY : string) (server1 server2 : string -> outcome http_response)
    (current_year : Z) (updated : string) :
  (forall y, 2010 <= y <= current_year - 2 ->
             server1 (url API_KEY y) = server2 (url API_KEY y)) ->
  run API_KEY server1 current_year updated
  = run API_KEY server2 current_year updated.
Proof.
  intro H. unfold run, fetch_all.
  rewrite (fetch_loop_ext API_KEY server1 server2 (year_range current_year));
    [reflexivity|].
  intros y Hy. apply H. apply year_range_In in Hy. unfold START_YEAR in Hy. lia.
Qed.

(** [Sample.three_years_elsewhere] raises at an address that is not the
    address of a year. *)
Lemma run_reads_only_the_year_addresses_witness :
  Sample.three_years_elsewhere "https://api.census.gov/"
  <> Sample.three_years "https://api.census.gov/"
  /\ run Sample.KEY Sample.three_years_elsewhere 2022 Sample.TODAY
     = run Sample.KEY Sample.three_years 2022 Sample.TODAY.
Proof.
  split; [discriminate|].
  apply (run_reads_only_the_year_addresses
           Sample.KEY Sample.three_years_elsewhere Sample.three_years
           2022 Sample.TODAY).
  intros y Hy.
  assert (C : y = 2010 \/ y = 2011 \/ y = 2012 \/ y = 2013 \/ y = 2014
              \/ y = 2015 \/ y = 2016 \/ y = 2017 \/ y = 2018 \/ y = 2019
              \/ y = 2020) by lia.
  repeat (destruct C as [-> | C]; [reflexivity|]).
  subst y. reflexivity.
Defined.

(** X17.  In every file written all data objects have the same keys in
    the same order: "Municipio"; the years that have a record with a
    count, ascending; the four change keys; [RealIncome_<y>] for every
    successful year in order; the four [Real_*] keys.  A successful year
    without any count has its [RealIncome] key and no year key. *)
Theorem data_objects_share_one_key_order
    (API_KEY : string) (requests_get : string -> outcome http_response)
    (current_year : Z) (updated name : string) (content : list pyval) :
  run API_KEY requests_get current_year updated = Saved name content ->
  exists first prev last tail front rows meta,
    successful_years (fetch_all API_KEY requests_get (year_range current_year))
    = first :: tail
    /\ successful_years (fetch_all API_KEY requests_get (year_range current_year))
       = (front ++ [prev; last])%list
    /\ content = (rows ++ [meta])%list
    /\ forall d, In d rows ->
         dict_keys d
         = ("Municipio"
            :: map str
                 (sort_uniq Z.compare
                    (counted_years
                       (records (fetch_all API_KEY requests_get
                                   (year_range current_year)))))
            ++ [ change_key (str prev) (str last);
                 pct_change_key (str prev) (str last);
                 cum_change_key (str first) (str last);
                 cum_pct_change_key (str first) (str last) ]
            ++ map real_income_key
                 (successful_years
                    (fetch_all API_KEY requests_get (year_range current_year)))
            ++ real_keys (str first) (str prev) (str last))%list.
Proof.
  intro Hrun.
  destruct (run_saved _ _ _ _ _ _ Hrun)
    as (df & pv & wide & last' & _ & _ & Hdf & Hpv & Hwide & _ & _ & ->).
  destruct (derive_labels _ _ _ _ Hpv
              (fun y => run_years_fetched API_KEY requests_get current_year df y Hdf)
              (sorted_lt_NoDup _
                 (successful_years_sorted API_KEY requests_get current_year))
              Hwide)
    as (first & prev & last & If & Ip & Il & Hlab).
  destruct (py_index_first _ _ If) as (tail & Htail).
  destruct (py_index_last_two _ _ _ Ip Il) as (front & Hfront).
  exists first, prev, last, tail, front, (to_dict wide). eexists.
  split; [exact Htail|]. split; [exact Hfront|]. split; [reflexivity|].
  intros d Hd. rewrite (to_dict_keys wide d Hd), Hlab.
  apply build_frame_returns in Hdf. destruct Hdf as [_ ->].
  cbn [map label_key]. f_equal.
  rewrite !map_app, !map_label_key_str, map_map. cbn [label_key].
  f_equal. f_equal. unfold pivot_columns.
  apply (sort_uniq_same_elements Z Z.compare Z_compare_eq
           (fun x y => Z.compare_antisym y x) Z_compare_trans).
  intro y. rewrite <- frame_columns. unfold pivot_columns.
  now rewrite (sort_uniq_In Z Z.compare Z_compare_eq).
Qed.

Lemma data_objects_share_one_key_order_witness :
  exists name content,
    run Sample.KEY Sample.three_years 2022 Sample.TODAY = Saved name content
    /\ exists rows meta,
         content = (rows ++ [meta])%list
         /\ forall d, In d rows ->
              dict_keys d
              = [ "Municipio"; "2010"; "2015"; "2020";
                  "Change_2015_2020"; "Pct_Change_2015_2020";
                  "Cum_Change_2010_2020"; "Cum_Pct_Change_2010_2020";
                  "RealIncome_2010"; "RealIncome_2015"; "RealIncome_2020";
                  "Real_Change_2015_2020"; "Real_Pct_Change_2015_2020";
                  "Real_Cum_Change_2010_2020"; "Real_Cum_Pct_Change_2010_2020" ].
Proof.
  destruct (run Sample.KEY Sample.three_years 2022 Sample.TODAY)
    as [code|e|name content] eqn:E;
    [vm_compute in E; discriminate E | vm_compute in E; discriminate E |].
  exists name, content. split; [reflexivity|].
  destruct (data_objects_share_one_key_order
              Sample.KEY Sample.three_years 2022 Sample.TODAY name content E)
    as (first & prev & last & tail & front & rows & meta & Hf & Hl & Hc & Hrows).
  assert (S : successful_years
                (fetch_all Sample.KEY Sample.three_years (year_range 2022))
              = [2010; 2015; 2020]) by (vm_compute; reflexivity).
  rewrite S in Hf, Hl.
  injection Hf as <- _.
  change [2010; 2015; 2020] with (([2010] ++ [2015]) ++ [2020])%list in Hl.
  change (front ++ [prev; last])%list with (front ++ [prev] ++ [last])%list in Hl.
  rewrite app_assoc in Hl.
  apply app_inj_tail in Hl. destruct Hl as [Hl <-].
  apply app_inj_tail in Hl. destruct Hl as [_ <-].
  exists rows, meta. split; [exact Hc|].
  intros d Hd. rewrite (Hrows d Hd). vm_compute. reflexivity.
Defined.

(** X18.  With counts in the range in which the frame computes
    exactly, the order in which the records were fetched has no effect
    on what is written: two runs with the same successful years whose
    records are the same up to order end alike, with the same file name
    and the same content or with the same error. *)
Theorem order_of_records_does_not_matter
    (API_KEY : string) (server1 server2 : string -> outcome http_response)
    (current_year : Z) (updated : string) :
  counts_in_range
    (records (fetch_all API_KEY server1 (year_range current_year))) ->
  successful_years (fetch_all API_KEY server1 (year_range current_year))
  = successful_years (fetch_all API_KEY server2 (year_range current_year)) ->
  Permutation (records (fetch_all API_KEY server1 (year_range current_year)))
              (records (fetch_all API_KEY server2 (year_range current_year))) ->
  run API_KEY server1 current_year updated
  = run API_KEY server2 current_year updated.
Proof.
  intros _ Hs P. unfold run. rewrite <- Hs.
  now rewrite (build_perm updated _ _ Hs P).
Qed.

(** [Sample.three_years_swapped] sends Yauco before Adjuntas. *)
Lemma order_of_records_does_not_matter_witness :
  records (fetch_all Sample.KEY Sample.three_years_swapped (year_range 2022))
  <> records (fetch_all Sample.KEY Sample.three_years (year_range 2022))
  /\ run Sample.KEY Sample.three_years_swapped 2022 Sample.TODAY
     = run Sample.KEY Sample.three_years 2022 Sample.TODAY.
Proof.
  split; [vm_compute; discriminate|].
  apply (order_of_records_does_not_matter
           Sample.KEY Sample.three_years_swapped Sample.three_years
           2022 Sample.TODAY).
  - vm_compute. reflexivity.
  - vm_compute. reflexivity.
  - vm_compute.
    repeat (eapply perm_trans; [apply perm_swap|]; do 2 apply perm_skip).
    apply perm_nil.
Defined.

(** X19.  The addresses a run asks for are pairwise distinct, one per
    year of the range, and each names the NAICS variable of 2007, 2012
    or 2017: since the range starts in 2010, the selector never returns
    "NAICS2002" in a run. *)
Theorem addresses_of_a_run_are_distinct (API_KEY : string) (current_year : Z) :
  NoDup (map (url API_KEY) (year_range current_year))
  /\ forall y, In y (year_range current_year) ->
       get_naics_variable_name y
       = (if y <=? 2011 then "NAICS2007"
          else if y <=? 2016 then "NAICS2012" else "NAICS2017").
Proof.
  split.
  - apply Finite.Injective_map_NoDup.
    + intros a b. apply url_inj.
    + apply sorted_lt_NoDup, year_range_sorted.
  - intros y Hy. apply year_range_In in Hy. unfold START_YEAR in Hy.
    unfold get_naics_variable_name.
    destruct (Z.leb_spec y 2011), (Z.leb_spec y 2016),
      (Z.geb_spec y 2017), (Z.geb_spec y 2012), (Z.geb_spec y 2007);
      try reflexivity; lia.
Qed.
